(** * lstm.py: recurrent regressors for time series

    A shallow embedding of [src/lstm.py]: the in-graph in-sample /
    out-of-sample split, the Pearson statistics, the learning-rate
    schedule, the training loss, graph construction, and the control flow
    of [train] and [predict] (checkpoints, epochs, batches).

    TensorFlow and NumPy are libraries the program calls.  What the program
    itself writes (slices, formulas, guards, loops, state updates) is
    translated line by line, and so is the back-propagation of the loss
    through the operations the program writes; what the libraries compute
    (the recurrent cell and its derivatives, the Adam update,
    [np.corrcoef], random identifiers) is a parameter of the development. *)

From Stdlib Require Import Reals Lra Lia ZArith List String Ascii Bool.
From Stdlib Require Import QArith Qreals DecimalString.
From stdpp Require Import gmap strings.
Import ListNotations.

Open Scope Z_scope.

(** ** Exceptions and results *)

(** The Python exceptions the modelled code can raise. *)
Inductive exn : Type :=
| AssertionError (msg : string)
| NameError (name : string)
| ValueError (msg : string)
| TypeError (msg : string)
| AttributeError (msg : string)
| ZeroDivisionError
| IndexError (msg : string)
| KeyError (msg : string)
| InvalidArgumentError (msg : string)   (* TensorFlow: incompatible shapes *)
| NotFoundError (msg : string)          (* TensorFlow: no such checkpoint *)
| OSError (msg : string)                (* a path that cannot be read or written *)
| Exception (msg : string).             (* [raise Exception(...)] *)

Inductive result (A : Type) : Type :=
| Ok (a : A)
| Raise (e : exn).
Arguments Ok {A} a.
Arguments Raise {A} e.

Definition bind {A B} (r : result A) (k : A -> result B) : result B :=
  match r with
  | Ok a => k a
  | Raise e => Raise e
  end.

Declare Scope result_scope.
Delimit Scope result_scope with result.
Notation "x <- r ;; k" := (bind r (fun x => k))
  (at level 100, r at next level, right associativity) : result_scope.
Open Scope result_scope.

(** [assert cond, msg] *)
Definition py_assert (cond : bool) (msg : string) : result unit :=
  if cond then Ok tt else Raise (AssertionError msg).

Definition is_ok {A} (r : result A) : bool :=
  match r with Ok _ => true | Raise _ => false end.

(** ** The element type of arrays

    Arrays hold floating-point numbers.  The program only needs the
    arithmetic below and [np.isfinite]; everything structural is proved
    for an arbitrary implementation of this interface, and the numerical
    facts for the exact real numbers. *)
Class Dtype (F : Type) : Type := {
  of_Q : Q -> F;                 (* a literal *)
  fadd : F -> F -> F;
  fsub : F -> F -> F;
  fmul : F -> F -> F;
  fdiv : F -> F -> F;
  fsqrt : F -> F;
  fabs : F -> F;
  fpow : F -> F -> F;
  feqb : F -> F -> bool;         (* [==] *)
  isfinite : F -> bool           (* [np.isfinite] *)
}.

Definition of_Z {F} `{Dtype F} (z : Z) : F := of_Q (inject_Z z).
Definition of_nat {F} `{Dtype F} (n : nat) : F := of_Z (Z.of_nat n).

(** [x ** y] on the reals: the integer power when the exponent is an
    integer, the exponential of [y * ln x] otherwise. *)
Definition real_pow (x y : R) : R :=
  if Req_dec_T y (IZR (Int_part y)) then powerRZ x (Int_part y) else Rpower x y.

(** Exact real arithmetic: every value is finite. *)
#[export] Instance real_dtype : Dtype R := {
  of_Q := Q2R;
  fadd := Rplus;
  fsub := Rminus;
  fmul := Rmult;
  fdiv := Rdiv;
  fsqrt := sqrt;
  fabs := Rabs;
  fpow := real_pow;
  feqb := fun x y => if Req_dec_T x y then true else false;
  isfinite := fun _ => true
}.

(** Reals with one more point standing for NaN and the infinities; the
    arithmetic propagates it, a comparison with it is false. *)
Definition xreal : Type := option R.

Definition xlift2 (f : R -> R -> R) (x y : xreal) : xreal :=
  match x, y with
  | Some a, Some b => Some (f a b)
  | _, _ => None
  end.

Definition xdiv (x y : xreal) : xreal :=
  match x, y with
  | Some a, Some b => if Req_dec_T b 0 then None else Some (a / b)%R
  | _, _ => None
  end.

Definition xsqrt (x : xreal) : xreal :=
  match x with
  | Some a => if Rlt_dec a 0 then None else Some (sqrt a)
  | None => None
  end.

Definition xpow (x y : xreal) : xreal :=
  match x, y with
  | Some a, Some b =>
      if Req_dec_T b (IZR (Int_part b)) then
        if Req_dec_T a 0 then (if Rlt_dec b 0 then None else Some (real_pow a b))
        else Some (real_pow a b)
      else if Rlt_dec 0 a then Some (real_pow a b)
      else if Req_dec_T a 0 then (if Rlt_dec 0 b then Some 0%R else None)
      else None
  | _, _ => None
  end.

Definition xeqb (x y : xreal) : bool :=
  match x, y with
  | Some a, Some b => if Req_dec_T a b then true else false
  | _, _ => false
  end.

#[export] Instance xreal_dtype : Dtype xreal := {
  of_Q := fun q => Some (Q2R q);
  fadd := xlift2 Rplus;
  fsub := xlift2 Rminus;
  fmul := xlift2 Rmult;
  fdiv := xdiv;
  fsqrt := xsqrt;
  fabs := option_map Rabs;
  fpow := xpow;
  feqb := xeqb;
  isfinite := fun x => match x with Some _ => true | None => false end
}.

(** ** Tensors and slices *)

(** A rank-2 tensor [rows, columns] is a list of rows; a rank-3 input
    block [batch, time, features] is a list of samples. *)
Definition matrix (F : Type) : Type := list (list F).
Definition sample (F : Type) : Type := list (list F).
Definition block (F : Type) : Type := list (sample F).

(** Index canonicalisation of a slice bound along a dimension of size
    [dim] (TensorFlow's strided slice and NumPy's basic slicing agree):
    a negative bound counts from the end, and the bound is clamped. *)
Definition canonical (dim x : Z) : Z :=
  let x' := if x <? 0 then dim + x else x in
  Z.max 0 (Z.min dim x').

Definition rows_between {A} (b e : Z) (t : list A) : list A :=
  firstn (Z.to_nat (e - b)) (skipn (Z.to_nat b) t).

(** [t[0:c, :]] *)
Definition slice_to {A} (c : Z) (t : list A) : list A :=
  let n := Z.of_nat (length t) in
  rows_between 0 (canonical n c) t.

(** [t[c:, :]] *)
Definition slice_from {A} (c : Z) (t : list A) : list A :=
  let n := Z.of_nat (length t) in
  rows_between (canonical n c) n t.

(** Lines 400-405 of [create_lstm_graph]. *)
Definition y_is {A} (in_sample_cutoff : Z) (y : list A) := slice_to in_sample_cutoff y.
Definition pred_is {A} (in_sample_cutoff : Z) (pred : list A) := slice_to in_sample_cutoff pred.
Definition y_oos {A} (in_sample_cutoff : Z) (y : list A) := slice_from in_sample_cutoff y.
Definition pred_oos {A} (in_sample_cutoff : Z) (pred : list A) := slice_from in_sample_cutoff pred.

(** ** Tensor operations of the graph *)

Section Tensor.
Context {F : Type} `{Dtype F}.

Definition f0 : F := of_Q 0.

Definition reduce_sum (l : list F) : F := fold_right fadd f0 l.

Definition column (j : nat) (m : matrix F) : list F :=
  map (fun row => nth j row f0) m.

(** [tf.transpose] of a tensor with [k] columns. *)
Definition transpose (k : nat) (m : matrix F) : matrix F :=
  map (fun j => column j m) (seq 0 k).

(** [tf.reduce_mean(m, axis=0, keepdims=True)]: the row of column means. *)
Definition reduce_mean_axis0 (k : nat) (m : matrix F) : list F :=
  map (fun col => fdiv (reduce_sum col) (of_nat (length m))) (transpose k m).

(** [tf.reduce_mean(m)]: the mean of all entries. *)
Definition reduce_mean (m : matrix F) : F :=
  fdiv (reduce_sum (concat m)) (of_nat (length (concat m))).

(** [tf.reduce_sum(m, axis=0, keepdims=True)]. *)
Definition reduce_sum_axis0 (k : nat) (m : matrix F) : list F :=
  map reduce_sum (transpose k m).

(** [tf.subtract(m, r)] with the row [r] broadcast over the rows of [m]. *)
Definition subtract_row (m : matrix F) (r : list F) : matrix F :=
  map (fun row => zip_with fsub row r) m.

(** [tf.subtract(m, s)] with the scalar [s] broadcast. *)
Definition subtract_scalar (m : matrix F) (s : F) : matrix F :=
  map (map (fun x => fsub x s)) m.

Definition square (m : matrix F) : matrix F :=
  map (map (fun x => fmul x x)) m.

Definition same_shape (a b : matrix F) : bool :=
  (length a =? length b)%nat &&
  forallb (fun rs => (length (fst rs) =? length (snd rs))%nat) (combine a b).

(** [tf.subtract(a, b)] of two tensors of one shape; other shapes are
    rejected when the operation runs. *)
Definition subtract (a b : matrix F) : result (matrix F) :=
  if same_shape a b then Ok (zip_with (zip_with fsub) a b)
  else Raise (InvalidArgumentError "Incompatible shapes").

Definition dot (u v : list F) : F := reduce_sum (zip_with fmul u v).

(** [tf.matmul(a, b)] where [b] has [k] columns: the rows of [a] must be
    as long as [b] has rows. *)
Definition matmul (k : nat) (a b : matrix F) : result (matrix F) :=
  if forallb (fun row => (length row =? length b)%nat) a
  then Ok (map (fun row => map (fun j => dot row (column j b)) (seq 0 k)) a)
  else Raise (InvalidArgumentError "Matrix size-incompatible").

(** Line 408. *)
Definition epsilon : F := of_Q (1 # 10000).

(** Lines 410-424 (and 427-441 with the out-of-sample slices): the
    correlation matrix of the [k] outputs, from [pred] and [y] already
    sliced.  The covariance centres each column at its own mean; the two
    sums of squares centre at the mean of all entries. *)
Definition pearson_corr (k : nat) (pred y : matrix F) : result (matrix F) :=
  covariance <- matmul k
                  (transpose k (subtract_row pred (reduce_mean_axis0 k pred)))
                  (subtract_row y (reduce_mean_axis0 k y)) ;;
  let var_pred := [reduce_sum_axis0 k (square (subtract_scalar pred (reduce_mean pred)))] in
  let var_y := [reduce_sum_axis0 k (square (subtract_scalar y (reduce_mean y)))] in
  product <- matmul k (transpose k var_pred) var_y ;;
  Ok (zip_with (zip_with fdiv) covariance
        (map (map (fun v => fadd (fsqrt v) epsilon)) product)).

Definition pearson_corr_is (k : nat) (c : Z) (pred y : matrix F) :=
  pearson_corr k (pred_is c pred) (y_is c y).

Definition pearson_corr_oos (k : nat) (c : Z) (pred y : matrix F) :=
  pearson_corr k (pred_oos c pred) (y_oos c y).

(** [tf.train.exponential_decay] without staircase, as the comment at
    lines 450-451 gives it:
    [learning_rate * decay_rate ^ (global_step / decay_steps)]. *)
Definition exponential_decay (learning_rate global_step decay_steps decay_rate : F) : F :=
  fmul learning_rate (fpow decay_rate (fdiv global_step decay_steps)).

(** [tf.nn.l2_loss(t)]: [sum(t ** 2) / 2]. *)
Definition l2_loss (t : list F) : F :=
  fdiv (reduce_sum (map (fun x => fmul x x) t)) (of_Q 2).

(** [tf.contrib.layers.l1_l2_regularizer(scale_l1, scale_l2)] applied to
    one variable. *)
Definition l1_l2_regularizer (scale_l1 scale_l2 : F) (weights : list F) : F :=
  fadd (fmul scale_l1 (reduce_sum (map fabs weights)))
       (fmul scale_l2 (l2_loss weights)).

(** [tf.contrib.layers.apply_regularization]: the sum of the penalties. *)
Definition apply_regularization (regularizer : list F -> F)
           (weights_list : list (list F)) : F :=
  reduce_sum (map regularizer weights_list).

(** Lines 471-478: the loss the optimizer minimises, from the full
    labels and predictions, the cutoff and the trainable variables. *)
Definition loss (scale_l1 scale_l2 : F) (trainable : list (list F))
           (c : Z) (y pred : matrix F) : result F :=
  residual <- subtract (y_is c y) (pred_is c pred) ;;
  Ok (fadd (l2_loss (concat residual))
           (apply_regularization (l1_l2_regularizer scale_l1 scale_l2) trainable)).

(** Line 481. *)
Definition loss_oos (c : Z) (y pred : matrix F) : result F :=
  residual <- subtract (y_oos c y) (pred_oos c pred) ;;
  Ok (l2_loss (concat residual)).

(** [np.diagonal(m).mean()] *)
Definition diagonal (m : matrix F) : list F :=
  imap (fun i row => nth i row f0) m.

Definition np_mean (l : list F) : F := fdiv (reduce_sum l) (of_nat (length l)).

End Tensor.

(** A series as a one-column tensor [n, 1]. *)
Definition series {F} (xs : list F) : matrix F := map (fun x => [x]) xs.

(** The sum of squared deviations of a series from its mean. *)
Definition sum_sq_dev (xs : list R) : R :=
  let mu := (reduce_sum xs / INR (length xs))%R in
  reduce_sum (map (fun x => ((x - mu) * (x - mu))%R) xs).

(** The same sum as the arithmetic of the arrays computes it. *)
Definition squared_deviations {F} `{Dtype F} (xs : list F) : F :=
  let mu := fdiv (reduce_sum xs) (of_nat (length xs)) in
  reduce_sum (map (fun x => fmul (fsub x mu) (fsub x mu)) xs).

Definition non_constant (xs : list R) : Prop :=
  exists a b, In a xs /\ In b xs /\ a <> b.

(** ** Strings *)

(** [str.upper] on ASCII letters. *)
Definition ascii_upper (c : ascii) : ascii :=
  let n := nat_of_ascii c in
  if ((97 <=? n) && (n <=? 122))%nat then ascii_of_nat (n - 32) else c.

Fixpoint upper (s : string) : string :=
  match s with
  | EmptyString => EmptyString
  | String c s' => String (ascii_upper c) (upper s')
  end.

(** [str(i)] for an integer. *)
Definition str_of_Z (i : Z) : string := NilZero.string_of_int (Z.to_int i).

(** [os.path.join(a, b)] for relative [b]. *)
Definition path_join (a b : string) : string :=
  if String.eqb a "" then b else (a ++ "/" ++ b)%string.

Definition epoch_ckpt (sessid : string) (i : Z) : string :=
  (sessid ++ "_epoch_" ++ str_of_Z i ++ ".ckpt")%string.

Definition latest_ckpt (sessid : string) : string :=
  (sessid ++ "_latest.ckpt")%string.

(** ** Hyperparameters and the library interface *)

Inductive cell_kind : Type := LSTMCell | GRUCell | BasicRNNCell.

(** The attributes [__init__] stores from its arguments. *)
Record hyperparameters (F : Type) : Type := {
  n_input_features : option Z;
  n_output_features : Z;
  batch_size : option Z;
  cell_type : string;
  n_states : Z;
  n_layers : Z;
  use_peepholes : bool;
  n_time_steps : Z;
  activation : F -> F;
  keep_prob : F;
  l1_reg_scale : F;
  l2_reg_scale : F;
  start_learning_rate : F;
  decay_steps : F;
  decay_rate : F;
  inner_iteration : Z;
  forward_step : Z;
  scope : string;
  log_dir : string;
  model_dir : string;
  compute_device : string
}.
Arguments n_input_features {F} _.
Arguments n_output_features {F} _.
Arguments batch_size {F} _.
Arguments cell_type {F} _.
Arguments n_states {F} _.
Arguments n_layers {F} _.
Arguments use_peepholes {F} _.
Arguments n_time_steps {F} _.
Arguments activation {F} _.
Arguments keep_prob {F} _.
Arguments l1_reg_scale {F} _.
Arguments l2_reg_scale {F} _.
Arguments start_learning_rate {F} _.
Arguments decay_steps {F} _.
Arguments decay_rate {F} _.
Arguments inner_iteration {F} _.
Arguments forward_step {F} _.
Arguments scope {F} _.
Arguments log_dir {F} _.
Arguments model_dir {F} _.
Arguments compute_device {F} _.

(** The gradient of the data term of the loss, [tf.nn.l2_loss(y_is -
    pred_is)], with respect to the variables of the cells, to [W_fc1] and
    to [b_fc1]. *)
Record gradients (F : Type) : Type := {
  d_cells : list F;
  d_W_fc1 : list (list F);
  d_b_fc1 : list F
}.
Arguments d_cells {F} _.
Arguments d_W_fc1 {F} _.
Arguments d_b_fc1 {F} _.

(** What TensorFlow, NumPy and [random] compute for the program.  A batch
    row goes through the stacked cells on its own: the final layer states
    of row [i] depend on the variables, the random draw of the run (dropout)
    and that row of the input. *)
Class Backend (F : Type) : Type := {
  variables : Type;      (* values of all graph variables, optimizer slots included *)
  rng : Type;            (* state of a random generator *)
  (* [tf.nn.dynamic_rnn] over a [MultiRNNCell] of dropout-wrapped cells:
     the final state of every layer, for LSTM a pair (c, h) *)
  lstm_states : hyperparameters F -> variables -> rng -> nat -> sample F ->
                list (list F * list F);
  rnn_states : cell_kind -> hyperparameters F -> variables -> rng -> nat ->
               sample F -> list (list F);
  W_fc1 : variables -> matrix F;
  b_fc1 : variables -> list F;
  trainable_variables : variables -> list (list F);
  global_variables_initializer : hyperparameters F -> rng -> variables;
  (* back-propagation through the cells: for row [i], the derivatives of
     the final state of the last layer with respect to the variables of the
     cells, one row per variable entry and one column per unit *)
  n_cell_parameters : cell_kind -> hyperparameters F -> nat;
  state_jacobian : cell_kind -> hyperparameters F -> variables -> rng -> nat ->
                   sample F -> matrix F;
  (* one step of [AdamOptimizer(learning_rate).minimize(loss)]: the update
     of the variables from the gradient of the data term of the loss and
     the rate; the gradient of the penalty comes from the scales and the
     variables alone *)
  adam_minimize : hyperparameters F -> gradients F -> F -> variables -> variables;
  next_rng : rng -> rng;
  get_tensor_by_name : variables -> string -> option (list F);
  np_corrcoef : list F -> list F -> F;
  random_below : nat -> rng -> nat * rng
}.

Section Graph.
Context {F : Type} `{Dtype F} `{Backend F}.

(** Lines 86-87. *)
Definition id_chars : string := "ABCDEFGHIJKLMNOPQRSTUVWXYZ0123456789".

Definition random_choice (chars : string) (r : rng) : ascii * rng :=
  let '(i, r') := random_below (String.length chars) r in
  (match String.get i chars with Some c => c | None => "A"%char end, r').

Fixpoint id_generator_from (size : nat) (r : rng) : string * rng :=
  match size with
  | O => (EmptyString, r)
  | S n => let '(c, r1) := random_choice id_chars r in
           let '(s, r2) := id_generator_from n r1 in
           (String c s, r2)
  end.

Definition id_generator (r : rng) : string * rng := id_generator_from 6 r.

(** What [create_lstm_graph] leaves in [self.graph_keys]: the tensors are
    functions of the hyperparameters read while the graph was built. *)
Record graph_tensors : Type := {
  gk_cell : cell_kind;
  gk_hp : hyperparameters F;
  gk_writer : bool           (* the summary writer could be created *)
}.

(** [tf.matmul(h, W_fc1) + b_fc1] for one row. *)
Definition dense (k : nat) (W : matrix F) (b : list F) (h : list F) : list F :=
  zip_with fadd (map (fun j => dot h (column j W)) (seq 0 k)) b.

(** Lines 376-393: the predictions for a fed input block.  The dropout
    wrappers were built with [self.keep_prob]; the placeholder
    [keep_prob] is not an input of any operation. *)
Definition pred (g : graph_tensors) (v : variables) (r : rng) (X : block F) : matrix F :=
  imap (fun i x =>
          let h := match gk_cell g with
                   | LSTMCell => snd (List.last (lstm_states (gk_hp g) v r i x) ([], []))
                   | GRUCell => List.last (rnn_states GRUCell (gk_hp g) v r i x) []
                   | BasicRNNCell => List.last (rnn_states BasicRNNCell (gk_hp g) v r i x) []
                   end in
          dense (Z.to_nat (n_output_features (gk_hp g))) (W_fc1 v) (b_fc1 v) h)
       X.

(** Lines 456-461. *)
Definition adaptive_learning_rate (g : graph_tensors) (global_step : F) : F :=
  exponential_decay (start_learning_rate (gk_hp g)) global_step
                    (decay_steps (gk_hp g)) (decay_rate (gk_hp g)).

(** The tensor [loss] as a function of the variables, for a feed. *)
Definition graph_loss (g : graph_tensors) (r : rng) (X : block F) (y : matrix F)
           (in_sample_cutoff : Z) (v : variables) : result F :=
  loss (l1_reg_scale (gk_hp g)) (l2_reg_scale (gk_hp g)) (trainable_variables v)
       in_sample_cutoff y (pred g v r X).

(** The final state of the last layer for row [i] of the input, the left
    operand of the product at lines 390-393. *)
Definition final_state (g : graph_tensors) (v : variables) (r : rng) (i : nat)
           (x : sample F) : list F :=
  match gk_cell g with
  | LSTMCell => snd (List.last (lstm_states (gk_hp g) v r i x) ([], []))
  | GRUCell => List.last (rnn_states GRUCell (gk_hp g) v r i x) []
  | BasicRNNCell => List.last (rnn_states BasicRNNCell (gk_hp g) v r i x) []
  end.

(** Back-propagation of [tf.nn.l2_loss(tf.subtract(y_is, pred_is))] to
    [pred]: a row of [pred_is] receives the negated residual [-(y - pred)],
    and the slice [pred[0:in_sample_cutoff, :]] hands zeros to the rows
    from the cutoff on. *)
Definition loss_grad_pred (c : Z) (y p : matrix F) : matrix F :=
  zip_with (zip_with (fun yv pv => fsub f0 (fsub yv pv))) (y_is c y) (pred_is c p)
  ++ map (map (fun _ => f0)) (pred_oos c p).

(** Back-propagation through [pred = tf.matmul(h, W_fc1) + b_fc1] and the
    cells, from the gradient [d_pred] with respect to [pred]: the bias
    receives the column sums of [d_pred], the weights the product of the
    transposed states with [d_pred], the states [d_pred] times the
    transposed weights, and the variables of the cells the sum over the
    rows of the Jacobian of the row applied to the gradient of its state.
    Every product is taken for every row, also where [d_pred] is zero. *)
Definition dense_backward (k n_units n_cells : nat) (W : matrix F)
           (h : matrix F) (J : list (matrix F)) (d_pred : matrix F) : gradients F :=
  let d_h := map (fun row => map (fun j => dot row (nth j W [])) (seq 0 n_units)) d_pred in
  let d_rows := zip_with (fun Ji dh => map (fun Jp => dot Jp dh) Ji) J d_h in
  {| d_cells := reduce_sum_axis0 n_cells d_rows;
     d_W_fc1 := map (fun j => map (fun o => dot (column j h) (column o d_pred)) (seq 0 k))
                    (seq 0 n_units);
     d_b_fc1 := reduce_sum_axis0 k d_pred |}.

(** The gradient [minimize(loss)] (line 484) derives for the data term. *)
Definition loss_gradient (g : graph_tensors) (v : variables) (r : rng)
           (X : block F) (y : matrix F) (in_sample_cutoff : Z) : gradients F :=
  dense_backward (Z.to_nat (n_output_features (gk_hp g)))
                 (Z.to_nat (n_states (gk_hp g)))
                 (n_cell_parameters (gk_cell g) (gk_hp g))
                 (W_fc1 v)
                 (imap (final_state g v r) X)
                 (imap (state_jacobian (gk_cell g) (gk_hp g) v r) X)
                 (loss_grad_pred in_sample_cutoff y (pred g v r X)).

(** The rows from the cutoff on have finite final states and finite
    derivatives, and the dense weights are finite. *)
Definition finite_out_of_sample (g : graph_tensors) (v : variables) (r : rng)
           (in_sample_cutoff : Z) (X : block F) : bool :=
  forallb (forallb isfinite)
          (slice_from in_sample_cutoff (imap (final_state g v r) X)) &&
  forallb (forallb (forallb isfinite))
          (slice_from in_sample_cutoff
             (imap (state_jacobian (gk_cell g) (gk_hp g) v r) X)) &&
  forallb (forallb isfinite) (W_fc1 v).

(** [sess.run([optimizer, adaptive_learning_rate, states], feed_dict)]
    (lines 648-661): the new variables and the rate. *)
Definition run_optimizer (g : graph_tensors) (v : variables) (r : rng)
           (X : block F) (y : matrix F) (fed_keep_prob : F)
           (in_sample_cutoff : Z) (global_step : F) : result (variables * F) :=
  let rate := adaptive_learning_rate g global_step in
  _ <- graph_loss g r X y in_sample_cutoff v ;;
  Ok (adam_minimize (gk_hp g) (loss_gradient g v r X y in_sample_cutoff) rate v, rate).

(** What the evaluation run at lines 665-684 fetches. *)
Record evaluation : Type := {
  y_val : matrix F;
  pred_val : matrix F;
  y_oos_val : matrix F;
  pred_oos_val : matrix F;
  pearson_corr_is_val : matrix F;
  pearson_corr_oos_val : matrix F;
  loss_val : F;
  loss_oos_val : F
}.

Definition run_evaluation (g : graph_tensors) (v : variables) (r : rng)
           (X : block F) (y : matrix F) (fed_keep_prob : F)
           (in_sample_cutoff : Z) : result evaluation :=
  let k := Z.to_nat (n_output_features (gk_hp g)) in
  let p := pred g v r X in
  cis <- pearson_corr_is k in_sample_cutoff p y ;;
  coos <- pearson_corr_oos k in_sample_cutoff p y ;;
  l <- graph_loss g r X y in_sample_cutoff v ;;
  loos <- loss_oos in_sample_cutoff y p ;;
  Ok {| y_val := y; pred_val := p;
        y_oos_val := y_oos in_sample_cutoff y;
        pred_oos_val := pred_oos in_sample_cutoff p;
        pearson_corr_is_val := cis; pearson_corr_oos_val := coos;
        loss_val := l; loss_oos_val := loos |}.

End Graph.
Arguments graph_tensors F : clear implicits.
Arguments evaluation F : clear implicits.

(** ** Python values, state and exceptions *)

(** The values a data feeder hands to the program. *)
Inductive pyval (F : Type) : Type :=
| PyNone
| PyInt (z : Z)
| PyFloat (x : F)               (* a Python float *)
| PyStr (s : string)
| NpScalar (x : F)              (* a NumPy scalar *)
| NpArray1 (a : list F)
| NpArray2 (a : matrix F)
| NpArray3 (a : block F).
Arguments PyNone {F}.
Arguments PyInt {F} z.
Arguments PyFloat {F} x.
Arguments PyStr {F} s.
Arguments NpScalar {F} x.
Arguments NpArray1 {F} a.
Arguments NpArray2 {F} a.
Arguments NpArray3 {F} a.

(** An element of the sequence a feeder returns: a tuple, or another value. *)
Inductive item (F : Type) : Type :=
| Tuple (fields : list (pyval F))
| Value (v : pyval F).
Arguments Tuple {F} fields.
Arguments Value {F} v.

(** Code that updates a state and may raise: the state at the time of the
    exception is kept. *)
Definition flow (S A : Type) : Type := S -> result A * S.

Definition ret {S A} (a : A) : flow S A := fun s => (Ok a, s).
Definition raise {S A} (e : exn) : flow S A := fun s => (Raise e, s).
Definition lift {S A} (r : result A) : flow S A := fun s => (r, s).
Definition get {S} : flow S S := fun s => (Ok s, s).
Definition modify {S} (f : S -> S) : flow S unit := fun s => (Ok tt, f s).

Definition fbind {S A B} (m : flow S A) (k : A -> flow S B) : flow S B :=
  fun s => match m s with
           | (Ok a, s') => k a s'
           | (Raise e, s') => (Raise e, s')
           end.

(** [try: body / except Exception as e: handler]; every exception of the
    model derives from [Exception]. *)
Definition try_except {S A} (body : flow S A) (handler : exn -> flow S A) : flow S A :=
  fun s => match body s with
           | (Ok a, s') => (Ok a, s')
           | (Raise e, s') => handler e s'
           end.

Notation "x <~ m ;; k" := (fbind m (fun x => k))
  (at level 100, m at next level, right associativity) : result_scope.

Section Model.
Context {F : Type} `{Dtype F} `{Backend F}.

(** The result holders of lines 130-142. *)
Record results : Type := {
  all_actual_is : option (matrix F);
  all_actual_oos : option (matrix F);
  all_predicted_is : option (matrix F);
  all_predicted_oos : option (matrix F);
  all_epochs : list Z;
  all_losses_per_epoch : list F;
  all_losses_oos_per_epoch : list F;
  all_corr_oos_per_epoch : list F;
  all_corr_is : list F;
  all_corr_oos : list F;
  cell_states : gmap string (list F);
  fc_states : gmap string (list F)
}.

(** Lines 531-543. *)
Definition cleared_results : results :=
  {| all_actual_is := None; all_actual_oos := None;
     all_predicted_is := None; all_predicted_oos := None;
     all_epochs := []; all_losses_per_epoch := [];
     all_losses_oos_per_epoch := []; all_corr_oos_per_epoch := [];
     all_corr_is := []; all_corr_oos := [];
     cell_states := ∅; fc_states := ∅ |}.

(** A [tf.Graph] object; what was built in it is in [graph_keys]. *)
Inductive tf_graph : Type := TfGraph.

(** The attributes of an [LSTM] instance. *)
Record instance : Type := {
  hp : hyperparameters F;
  sessid : option string;
  graph : option tf_graph;
  graph_keys : option (graph_tensors F);
  graph_ready : bool;
  graph_trained : bool;
  trained_epochs : Z;
  model_saver : bool;            (* [self.model_saver is not None] *)
  res : results
}.

Definition set_hp (self : instance) (h : hyperparameters F) : instance :=
  {| hp := h; sessid := sessid self; graph := graph self;
     graph_keys := graph_keys self; graph_ready := graph_ready self;
     graph_trained := graph_trained self; trained_epochs := trained_epochs self;
     model_saver := model_saver self; res := res self |}.

Definition set_sessid (self : instance) (s : option string) : instance :=
  {| hp := hp self; sessid := s; graph := graph self;
     graph_keys := graph_keys self; graph_ready := graph_ready self;
     graph_trained := graph_trained self; trained_epochs := trained_epochs self;
     model_saver := model_saver self; res := res self |}.

Definition set_graph (self : instance) (g : option tf_graph) : instance :=
  {| hp := hp self; sessid := sessid self; graph := g;
     graph_keys := graph_keys self; graph_ready := graph_ready self;
     graph_trained := graph_trained self; trained_epochs := trained_epochs self;
     model_saver := model_saver self; res := res self |}.

Definition set_built (self : instance) (k : graph_tensors F) : instance :=
  {| hp := hp self; sessid := sessid self; graph := graph self;
     graph_keys := Some k; graph_ready := graph_ready self;
     graph_trained := graph_trained self; trained_epochs := trained_epochs self;
     model_saver := true; res := res self |}.

Definition set_graph_ready (self : instance) (b : bool) : instance :=
  {| hp := hp self; sessid := sessid self; graph := graph self;
     graph_keys := graph_keys self; graph_ready := b;
     graph_trained := graph_trained self; trained_epochs := trained_epochs self;
     model_saver := model_saver self; res := res self |}.

Definition set_trained (self : instance) (epochs : Z) : instance :=
  {| hp := hp self; sessid := sessid self; graph := graph self;
     graph_keys := graph_keys self; graph_ready := graph_ready self;
     graph_trained := true; trained_epochs := epochs;
     model_saver := model_saver self; res := res self |}.

Definition set_res (self : instance) (r : results) : instance :=
  {| hp := hp self; sessid := sessid self; graph := graph self;
     graph_keys := graph_keys self; graph_ready := graph_ready self;
     graph_trained := graph_trained self; trained_epochs := trained_epochs self;
     model_saver := model_saver self; res := r |}.

Definition set_n_input_features (h : hyperparameters F) (n : option Z) : hyperparameters F :=
  {| n_input_features := n; n_output_features := n_output_features h;
     batch_size := batch_size h; cell_type := cell_type h;
     n_states := n_states h; n_layers := n_layers h;
     use_peepholes := use_peepholes h; n_time_steps := n_time_steps h;
     activation := activation h; keep_prob := keep_prob h;
     l1_reg_scale := l1_reg_scale h; l2_reg_scale := l2_reg_scale h;
     start_learning_rate := start_learning_rate h; decay_steps := decay_steps h;
     decay_rate := decay_rate h; inner_iteration := inner_iteration h;
     forward_step := forward_step h; scope := scope h; log_dir := log_dir h;
     model_dir := model_dir h; compute_device := compute_device h |}.

Definition set_cell_type (h : hyperparameters F) (c : string) : hyperparameters F :=
  {| n_input_features := n_input_features h; n_output_features := n_output_features h;
     batch_size := batch_size h; cell_type := c;
     n_states := n_states h; n_layers := n_layers h;
     use_peepholes := use_peepholes h; n_time_steps := n_time_steps h;
     activation := activation h; keep_prob := keep_prob h;
     l1_reg_scale := l1_reg_scale h; l2_reg_scale := l2_reg_scale h;
     start_learning_rate := start_learning_rate h; decay_steps := decay_steps h;
     decay_rate := decay_rate h; inner_iteration := inner_iteration h;
     forward_step := forward_step h; scope := scope h; log_dir := log_dir h;
     model_dir := model_dir h; compute_device := compute_device h |}.

(** What the logger and [print] receive. *)
Inductive log_record : Type :=
| LogInfo (msg : string)
| LogWarning (msg : string)
| LogException (msg : string)
| LogStats (msg : string) (values : list F).

(** The world outside the instance: the checkpoint files under the model
    directory, which paths can be read and written, the state of Python's
    [random], and what was logged and printed. *)
Record world : Type := {
  files : gmap string variables;
  readable : string -> bool;
  writable : string -> bool;
  py_random : rng;             (* Python's [random] *)
  tf_random : rng;             (* TensorFlow's random operations *)
  log : list log_record;
  stdout : list string
}.

Definition set_files (w : world) (fs : gmap string variables) : world :=
  {| files := fs; readable := readable w; writable := writable w;
     py_random := py_random w; tf_random := tf_random w; log := log w; stdout := stdout w |}.

Definition set_py_random (w : world) (r : rng) : world :=
  {| files := files w; readable := readable w; writable := writable w;
     py_random := r; tf_random := tf_random w; log := log w; stdout := stdout w |}.

Definition set_tf_random (w : world) (r : rng) : world :=
  {| files := files w; readable := readable w; writable := writable w;
     py_random := py_random w; tf_random := r; log := log w; stdout := stdout w |}.

Definition logged (w : world) (l : log_record) : world :=
  {| files := files w; readable := readable w; writable := writable w;
     py_random := py_random w; tf_random := tf_random w; log := log w ++ [l]; stdout := stdout w |}.

Definition printed (w : world) (s : string) : world :=
  {| files := files w; readable := readable w; writable := writable w;
     py_random := py_random w; tf_random := tf_random w; log := log w; stdout := stdout w ++ [s] |}.

(** [self.model_saver.restore(sess, path)]: the variables stored at [path]. *)
Definition saver_restore (w : world) (path : string) : result variables :=
  if readable w path then
    match files w !! path with
    | Some v => Ok v
    | None => Raise (NotFoundError path)
    end
  else Raise (OSError path).

(** [self.model_saver.save(sess, path)] *)
Definition saver_save (w : world) (path : string) (v : variables) : result world :=
  if writable w path then Ok (set_files w (<[path := v]> (files w)))
  else Raise (OSError path).

(** ** Building the graph *)

(** Lines 324-358: the cell classes by name. *)
Definition cell_kind_of (cell_type : string) : option cell_kind :=
  if String.eqb cell_type "LSTM" then Some LSTMCell
  else if String.eqb cell_type "GRU" then Some GRUCell
  else if String.eqb cell_type "RNN" then Some BasicRNNCell
  else None.

(** Lines 274-529.  After the assertion on the feature count and the
    (re)creation of the graph object, the cells are chosen by name;
    [MultiRNNCell] refuses an empty list of cells.  The summary writer may
    fail to open its directory, which is logged. *)
Definition create_lstm_graph (n_input_features_arg : option Z) (reset_graph : bool)
  : flow (instance * world) unit :=
  _ <~ match n_input_features_arg with
       | None =>
           s <~ get ;;
           lift (py_assert
                   (match n_input_features (hp (fst s)) with Some _ => true | None => false end)
                   "")
       | Some n =>
           modify (fun s => (set_hp (fst s) (set_n_input_features (hp (fst s)) (Some n)), snd s))
       end ;;
  _ <~ modify (fun s => (set_graph (fst s) (Some TfGraph), snd s)) ;;
  s <~ get ;;
  let self := fst s in
  match cell_kind_of (cell_type (hp self)) with
  | None =>
      raise (AssertionError ("cell_type " ++ cell_type (hp self) ++ " is not recognized"))
  | Some kind =>
      if n_layers (hp self) <? 1
      then raise (ValueError "Must specify at least one cell for MultiRNNCell.")
      else
        writer <~ try_except
                    (fun s => if writable (snd s) (log_dir (hp (fst s)))
                              then (Ok true, s)
                              else (Raise (OSError (log_dir (hp (fst s)))), s))
                    (fun e =>
                       _ <~ modify (fun s => (fst s, logged (snd s)
                                       (LogException "Exception when saving summary info: "))) ;;
                       ret false) ;;
        modify (fun s => (set_built (fst s)
                            {| gk_cell := kind; gk_hp := hp (fst s); gk_writer := writer |},
                          snd s))
  end.

(** Lines 94-170: [LSTM(...)].  The constructor arguments arrive as a
    record of hyperparameters, with the compute device already chosen. *)
Definition LSTM (args : hyperparameters F) (create_graph : bool) : flow world instance :=
  fun w =>
    let self := {| hp := set_cell_type args (upper (cell_type args));
                   sessid := None; graph := None; graph_keys := None;
                   graph_ready := false; graph_trained := false;
                   trained_epochs := 0; model_saver := false;
                   res := cleared_results |} in
    if create_graph then
      let '(r, (self', w')) :=
        try_except
          (_ <~ create_lstm_graph (n_input_features args) true ;;
           modify (fun s => (set_graph_ready (fst s) true, snd s)))
          (fun msg =>
             modify (fun s =>
               (set_graph_ready (fst s) false,
                printed (printed (snd s)
                  "Exception occurred during graph creation.  Check input parameters, especially n_input_features.")
                  "Exception message: ")))
          (self, w) in
      (bind r (fun _ => Ok self'), w')
    else (Ok self, w).

(** ** Arrays handed over by a data feeder *)

Definition len {A} (l : list A) : Z := Z.of_nat (length l).

(** [v.shape]; an array is rectangular, its shape is read off its first
    entries. *)
Definition np_shape (v : pyval F) : result (list Z) :=
  match v with
  | NpArray3 a => Ok [len a; len (hd [] a); len (hd [] (hd [] a))]
  | NpArray2 a => Ok [len a; len (hd [] a)]
  | NpArray1 a => Ok [len a]
  | NpScalar _ => Ok []
  | _ => Raise (AttributeError "shape")
  end.

(** [v.shape[k]] *)
Definition shape_at (v : pyval F) (k : nat) : result Z :=
  s <- np_shape v ;;
  match nth_error s k with
  | Some n => Ok n
  | None => Raise (IndexError "tuple index out of range")
  end.

(** The entries [np.isfinite(v)] looks at. *)
Definition np_entries (v : pyval F) : result (list F) :=
  match v with
  | NpArray3 a => Ok (concat (concat a))
  | NpArray2 a => Ok (concat a)
  | NpArray1 a => Ok a
  | NpScalar x => Ok [x]
  | PyFloat x => Ok [x]
  | PyInt z => Ok [of_Z z]
  | _ => Raise (TypeError "ufunc 'isfinite' not supported for the input types")
  end.

(** [v.size] *)
Definition np_size (v : pyval F) : result Z :=
  match v with
  | NpArray3 a => Ok (len (concat (concat a)))
  | NpArray2 a => Ok (len (concat a))
  | NpArray1 a => Ok (len a)
  | NpScalar _ => Ok 1
  | _ => Raise (AttributeError "size")
  end.

(** [np.isfinite(v).sum() == v.size] *)
Definition all_finite (v : pyval F) : result bool :=
  entries <- np_entries v ;;
  size <- np_size v ;;
  Ok (len (List.filter isfinite entries) =? size).

(** [a * b] and [a + b] of NumPy for an array or number [a] and a number or
    a row [b] broadcast along the last axis.  [None] is no operand; shapes
    beyond these count as a broadcasting error. *)
Definition as_number (v : pyval F) : option F :=
  match v with
  | PyFloat x => Some x
  | NpScalar x => Some x
  | PyInt z => Some (of_Z z)
  | _ => None
  end.

Definition broadcast_error : exn :=
  ValueError "operands could not be broadcast together".

Definition np_binary (op : F -> F -> F) (opname : string) (a b : pyval F)
  : result (pyval F) :=
  match a, b with
  | PyNone, _ | _, PyNone | PyStr _, _ | _, PyStr _ =>
      Raise (TypeError ("unsupported operand type(s) for " ++ opname))
  | NpArray3 m, NpArray1 r =>
      if forallb (forallb (fun row => (length row =? length r)%nat)) m
      then Ok (NpArray3 (map (map (fun row => zip_with op row r)) m))
      else Raise broadcast_error
  | NpArray2 m, NpArray1 r =>
      if forallb (fun row => (length row =? length r)%nat) m
      then Ok (NpArray2 (map (fun row => zip_with op row r) m))
      else Raise broadcast_error
  | NpArray1 u, NpArray1 r =>
      if (length u =? length r)%nat then Ok (NpArray1 (zip_with op u r))
      else Raise broadcast_error
  | NpArray3 m, _ =>
      match as_number b with
      | Some x => Ok (NpArray3 (map (map (map (fun e => op e x))) m))
      | None => Raise broadcast_error
      end
  | NpArray2 m, _ =>
      match as_number b with
      | Some x => Ok (NpArray2 (map (map (fun e => op e x)) m))
      | None => Raise broadcast_error
      end
  | NpArray1 u, _ =>
      match as_number b with
      | Some x => Ok (NpArray1 (map (fun e => op e x) u))
      | None => Raise broadcast_error
      end
  | _, NpArray1 r =>
      match as_number a with
      | Some x => Ok (NpArray1 (map (fun e => op x e) r))
      | None => Raise broadcast_error
      end
  | _, _ =>
      match as_number a, as_number b with
      | Some x, Some y => Ok (NpScalar (op x y))
      | _, _ => Raise broadcast_error
      end
  end.

(** [a * std + mean] *)
Definition affine (a std mean : pyval F) : result (pyval F) :=
  scaled <- np_binary fmul "*" a std ;;
  np_binary fadd "+" scaled mean.

Definition as_matrix (v : pyval F) : result (matrix F) :=
  match v with
  | NpArray2 m => Ok m
  | _ => Raise (ValueError "Cannot feed value: a rank 2 array is expected")
  end.

Definition as_block (v : pyval F) : result (block F) :=
  match v with
  | NpArray3 X => Ok X
  | _ => Raise (ValueError "Cannot feed value: a rank 3 array is expected")
  end.

Definition as_int (v : pyval F) : result Z :=
  match v with
  | PyInt z => Ok z
  | _ => Raise (TypeError "an integer is required")
  end.

(** Iterating over a value, as tuple unpacking does. *)
Definition py_iter (v : pyval F) : result (list (pyval F)) :=
  match v with
  | NpArray3 a => Ok (map NpArray2 a)
  | NpArray2 a => Ok (map NpArray1 a)
  | NpArray1 a => Ok (map NpScalar a)
  | PyStr s => Ok (map (fun c => PyStr (String c EmptyString)) (list_ascii_of_string s))
  | _ => Raise (TypeError "cannot unpack non-iterable object")
  end.

(** The seven loop variables of line 627. *)
Record batch : Type := {
  b_batch_X : pyval F;
  b_batch_y : pyval F;
  b_y_is_mean : pyval F;
  b_y_is_std : pyval F;
  b_batch_y_index : pyval F;
  b_in_sample_size : pyval F;
  b_batch_id : pyval F
}.

Definition unpack7 (it : item F) : result batch :=
  fields <- match it with
            | Tuple fs => Ok fs
            | Value v => py_iter v
            end ;;
  match fields with
  | [a; b; c; d; e; f; g] =>
      Ok {| b_batch_X := a; b_batch_y := b; b_y_is_mean := c; b_y_is_std := d;
            b_batch_y_index := e; b_in_sample_size := f; b_batch_id := g |}
  | _ =>
      Raise (ValueError (if (length fields <? 7)%nat
                         then "not enough values to unpack (expected 7)"
                         else "too many values to unpack (expected 7)"))
  end.

(** [(a == b).all()] for two arrays of one shape. *)
Definition array_equal (a b : matrix F) : bool :=
  forallb (fun rs => forallb (fun xy => feqb (fst xy) (snd xy))
                             (combine (fst rs) (snd rs)))
          (combine a b).

(** [np.r_[acc, rows]], or [rows] while [acc] is [None]. *)
Definition append_rows (acc : option (matrix F)) (rows : matrix F) : option (matrix F) :=
  match acc with
  | None => Some rows
  | Some a => Some (a ++ rows)
  end.

(** [i / epoch_end] of two Python integers. *)
Definition py_truediv (a b : Z) : result F :=
  if b =? 0 then Raise ZeroDivisionError else Ok (fdiv (of_Z a) (of_Z b)).

(** ** Training *)

(** The arguments of [train], with their defaults where one is given. *)
Record train_args : Type := {
  batch_X : pyval F;
  batch_y : pyval F;
  in_sample_size : pyval F;
  y_is_mean : pyval F;                        (* default 0.0 *)
  y_is_std : pyval F;                         (* default 1.0 *)
  data_feeder : option (Z -> list (item F));  (* the sequence returned by the
                                                 call at the start of epoch i *)
  restore_model : bool;                       (* default True *)
  pre_trained_model : option string;
  epoch_prev : Z;
  epoch_end : Z;
  inner_iteration_arg : option Z;
  step : Z;
  writer_step : Z;
  display_step : Z;
  return_weights : bool
}.

(** The callable bound to [data_feeder] when the epochs start. *)
Inductive feeder : Type :=
| DirectFeeder            (* the closure of lines 572-573 *)
| UserFeeder (f : Z -> list (item F))
| NoFeeder.               (* [None] *)

(** Lines 570-573. *)
Definition is_none (v : pyval F) : bool :=
  match v with PyNone => true | _ => false end.

Definition bound_feeder (args : train_args) : feeder :=
  if negb (is_none (batch_X args)) && negb (is_none (batch_y args)) &&
     negb (is_none (in_sample_size args)) &&
     negb (is_none (y_is_mean args)) && negb (is_none (y_is_std args))
  then DirectFeeder
  else match data_feeder args with
       | Some f => UserFeeder f
       | None => NoFeeder
       end.

(** [data_feeder()] at the start of epoch [i].  The closure reads
    [total_sample_size], a local variable of [train] that only the loop
    body assigns (line 628); its other five names are arguments of
    [train], which the loop rebinds only after a call has succeeded. *)
Definition call_feeder (args : train_args) (fd : feeder)
           (total_sample_size : option Z) (i : Z) : result (list (item F)) :=
  match fd with
  | DirectFeeder =>
      match total_sample_size with
      | None => Raise (NameError "total_sample_size")
      | Some n => Ok [Tuple [batch_X args; batch_y args; y_is_mean args;
                             y_is_std args; in_sample_size args; PyInt n]]
      end
  | UserFeeder f => Ok (f i)
  | NoFeeder => Raise (TypeError "'NoneType' object is not callable")
  end.

(** What changes while [train] runs: the instance, the world, the values
    of the variables in the session, and three local variables.
    [gradient_steps] counts the optimizer runs of the call. *)
Record tstate : Type := {
  self : instance;
  env : world;
  sess : variables;
  cur_step : Z;
  cur_writer_step : Z;
  cur_inner_iteration : option Z;
  gradient_steps : nat
}.

Definition with_self (st : tstate) (s : instance) : tstate :=
  {| self := s; env := env st; sess := sess st; cur_step := cur_step st;
     cur_writer_step := cur_writer_step st;
     cur_inner_iteration := cur_inner_iteration st;
     gradient_steps := gradient_steps st |}.

Definition with_env (st : tstate) (w : world) : tstate :=
  {| self := self st; env := w; sess := sess st; cur_step := cur_step st;
     cur_writer_step := cur_writer_step st;
     cur_inner_iteration := cur_inner_iteration st;
     gradient_steps := gradient_steps st |}.

Definition with_sess (st : tstate) (v : variables) (steps : nat) : tstate :=
  {| self := self st; env := env st; sess := v; cur_step := cur_step st;
     cur_writer_step := cur_writer_step st;
     cur_inner_iteration := cur_inner_iteration st;
     gradient_steps := steps |}.

Definition with_counters (st : tstate) (step' writer_step' : Z) : tstate :=
  {| self := self st; env := env st; sess := sess st; cur_step := step';
     cur_writer_step := writer_step';
     cur_inner_iteration := cur_inner_iteration st;
     gradient_steps := gradient_steps st |}.

Definition with_inner_iteration (st : tstate) (n : option Z) : tstate :=
  {| self := self st; env := env st; sess := sess st; cur_step := cur_step st;
     cur_writer_step := cur_writer_step st;
     cur_inner_iteration := n;
     gradient_steps := gradient_steps st |}.

Definition log_info (msg : string) : flow tstate unit :=
  modify (fun st => with_env st (logged (env st) (LogInfo msg))).

(** The variables of one epoch, and [total_sample_size]. *)
Record loop_vars : Type := {
  actual_oos : option (matrix F);
  predicted_oos : option (matrix F);
  loss_epoch : F;
  loss_oos_epoch : F;
  total_sample_size : option Z
}.

(** Lines 622-625. *)
Definition epoch_start (total : option Z) : loop_vars :=
  {| actual_oos := None; predicted_oos := None;
     loss_epoch := of_Q 0; loss_oos_epoch := of_Q 0;
     total_sample_size := total |}.

Definition with_total (lv : loop_vars) (n : Z) : loop_vars :=
  {| actual_oos := actual_oos lv; predicted_oos := predicted_oos lv;
     loss_epoch := loss_epoch lv; loss_oos_epoch := loss_oos_epoch lv;
     total_sample_size := Some n |}.

(** [self.graph_keys[...]] *)
Definition the_graph_keys : flow tstate (graph_tensors F) :=
  st <~ get ;;
  match graph_keys (self st) with
  | Some g => ret g
  | None => raise (TypeError "'NoneType' object is not subscriptable")
  end.

(** One pass of the loop at lines 647-661. *)
Definition optimizer_run (epoch_end' i : Z) (X : block F) (y : matrix F)
           (cutoff : Z) : flow tstate F :=
  g <~ the_graph_keys ;;
  st <~ get ;;
  global_step <~ lift (py_truediv i epoch_end') ;;
  out <~ lift (run_optimizer g (sess st) (tf_random (env st)) X y
                 (keep_prob (hp (self st))) cutoff global_step) ;;
  _ <~ modify (fun st =>
         with_env (with_sess st (fst out) (S (gradient_steps st)))
                  (set_tf_random (env st) (next_rng (tf_random (env st))))) ;;
  ret (snd out).

Fixpoint optimizer_runs (n : nat) (epoch_end' i : Z) (X : block F)
         (y : matrix F) (cutoff : Z) (current_rate : option F)
  : flow tstate (option F) :=
  match n with
  | O => ret current_rate
  | S n' =>
      rate <~ optimizer_run epoch_end' i X y cutoff ;;
      optimizer_runs n' epoch_end' i X y cutoff (Some rate)
  end.

(** Lines 739-788. *)
Definition tensor_value (name : string) : flow tstate (list F) :=
  st <~ get ;;
  match get_tensor_by_name (sess st) name with
  | Some t => ret t
  | None => raise (KeyError name)
  end.

Definition store_cell_state (key : string) (t : list F) : flow tstate unit :=
  modify (fun st =>
    let r := res (self st) in
    with_self st (set_res (self st)
      {| all_actual_is := all_actual_is r; all_actual_oos := all_actual_oos r;
         all_predicted_is := all_predicted_is r;
         all_predicted_oos := all_predicted_oos r;
         all_epochs := all_epochs r;
         all_losses_per_epoch := all_losses_per_epoch r;
         all_losses_oos_per_epoch := all_losses_oos_per_epoch r;
         all_corr_oos_per_epoch := all_corr_oos_per_epoch r;
         all_corr_is := all_corr_is r; all_corr_oos := all_corr_oos r;
         cell_states := <[key := t]> (cell_states r);
         fc_states := fc_states r |})).

Definition store_fc_state (key : string) (t : list F) : flow tstate unit :=
  modify (fun st =>
    let r := res (self st) in
    with_self st (set_res (self st)
      {| all_actual_is := all_actual_is r; all_actual_oos := all_actual_oos r;
         all_predicted_is := all_predicted_is r;
         all_predicted_oos := all_predicted_oos r;
         all_epochs := all_epochs r;
         all_losses_per_epoch := all_losses_per_epoch r;
         all_losses_oos_per_epoch := all_losses_oos_per_epoch r;
         all_corr_oos_per_epoch := all_corr_oos_per_epoch r;
         all_corr_is := all_corr_is r; all_corr_oos := all_corr_oos r;
         cell_states := cell_states r;
         fc_states := <[key := t]> (fc_states r) |})).

Definition cell_prefix (h : hyperparameters F) : string :=
  ("rnn/multi_rnn_cell/cell_" ++ str_of_Z (n_layers h - 1))%string.

Definition record_weights : flow tstate unit :=
  st <~ get ;;
  let h := hp (self st) in
  _ <~ (if String.eqb (cell_type h) "LSTM" then
          w <~ tensor_value (cell_prefix h ++ "/lstm_cell/kernel:0") ;;
          b <~ tensor_value (cell_prefix h ++ "/lstm_cell/bias:0") ;;
          _ <~ store_cell_state "lstm_kernel_weights" w ;;
          store_cell_state "lstm_kernel_biases" b
        else if String.eqb (cell_type h) "GRU" then
          gw <~ tensor_value (cell_prefix h ++ "/gru_cell/gates/kernel:0") ;;
          gb <~ tensor_value (cell_prefix h ++ "/gru_cell/gates/bias:0") ;;
          cw <~ tensor_value (cell_prefix h ++ "/gru_cell/candidate/kernel:0") ;;
          cb <~ tensor_value (cell_prefix h ++ "/gru_cell/candidate/bias:0") ;;
          _ <~ store_cell_state "gru_gates_weights" gw ;;
          _ <~ store_cell_state "gru_gates_biases" gb ;;
          _ <~ store_cell_state "gru_candidate_weights" cw ;;
          store_cell_state "gru_candidate_biases" cb
        else if String.eqb (cell_type h) "RNN" then
          w <~ tensor_value (cell_prefix h ++ "/basic_rnn_cell/kernel:0") ;;
          b <~ tensor_value (cell_prefix h ++ "/basic_rnn_cell/bias:0") ;;
          _ <~ store_cell_state "rnn_kernel_weights" w ;;
          store_cell_state "rnn_kernel_biases" b
        else raise (AssertionError "")) ;;
  fw <~ tensor_value (scope h ++ "/model/fc1/W/W_fc1:0") ;;
  fb <~ tensor_value (scope h ++ "/model/fc1/b/b_fc1:0") ;;
  _ <~ store_fc_state "weights" fw ;;
  store_fc_state "biases" fb.

(** The evaluation run of lines 665-684, fed [keep_prob = 1.0]. *)
Definition evaluation_run (X : block F) (y : matrix F) (cutoff : Z)
  : flow tstate (evaluation F) :=
  g <~ the_graph_keys ;;
  st <~ get ;;
  ev <~ lift (run_evaluation g (sess st) (tf_random (env st)) X y (of_Q 1) cutoff) ;;
  _ <~ modify (fun st =>
         with_env st (set_tf_random (env st) (next_rng (tf_random (env st))))) ;;
  ret ev.

(** Lines 695-698: [np.array(m) * y_is_std + y_is_mean]. *)
Definition denormalize (m : matrix F) (std mean : pyval F) : result (matrix F) :=
  r <- affine (NpArray2 m) std mean ;;
  as_matrix r.

(** Lines 711-737 on the instance. *)
Definition record_batch (r : results) (actual_is actual_oos' predicted_is
                                       predicted_oos' : matrix F)
           (corr_is corr_oos : F) : results :=
  {| all_actual_is := append_rows (all_actual_is r) actual_is;
     all_actual_oos := append_rows (all_actual_oos r) actual_oos';
     all_predicted_is := append_rows (all_predicted_is r) predicted_is;
     all_predicted_oos := append_rows (all_predicted_oos r) predicted_oos';
     all_epochs := all_epochs r;
     all_losses_per_epoch := all_losses_per_epoch r;
     all_losses_oos_per_epoch := all_losses_oos_per_epoch r;
     all_corr_oos_per_epoch := all_corr_oos_per_epoch r;
     all_corr_is := all_corr_is r ++ [corr_is];
     all_corr_oos := all_corr_oos r ++ [corr_oos];
     cell_states := cell_states r; fc_states := fc_states r |}.

(** Lines 791-802. *)
Definition display (args : train_args) (values : list F) : flow tstate unit :=
  st <~ get ;;
  _ <~ (if display_step args =? 0 then raise ZeroDivisionError
        else if cur_step st mod display_step args =? 0 then
          g <~ the_graph_keys ;;
          _ <~ (if gk_writer g then ret tt
                else raise (AttributeError "'NoneType' object has no attribute 'add_summary'")) ;;
          _ <~ modify (fun st => with_counters st (cur_step st) (cur_writer_step st + 1)) ;;
          modify (fun st => with_env st
                              (logged (env st) (LogStats ("Iter:" ++ str_of_Z (cur_step st)) values)))
        else ret tt) ;;
  modify (fun st => with_counters st (cur_step st + 1) (cur_writer_step st)).

(** The body of the loop over the batches of an epoch, lines 627-802. *)
Definition batch_step (args : train_args) (i : Z) (lv0 : loop_vars) (it : item F)
  : flow tstate loop_vars :=
  b <~ lift (unpack7 it) ;;
  total <~ lift (shape_at (b_batch_X b) 0) ;;
  let lv := with_total lv0 total in
  finite_X <~ lift (all_finite (b_batch_X b)) ;;
  skip <~ (if negb finite_X then ret true
           else finite_y <~ lift (all_finite (b_batch_y b)) ;; ret (negb finite_y)) ;;
  if skip : bool then ret lv
  else
    finite_mean <~ lift (all_finite (b_y_is_mean b)) ;;
    _ <~ lift (py_assert finite_mean "") ;;
    finite_std <~ lift (all_finite (b_y_is_std b)) ;;
    _ <~ lift (py_assert finite_std "") ;;
    cutoff <~ lift (as_int (b_in_sample_size b)) ;;
    _ <~ lift (py_assert (cutoff <=? total)
                 "in_sample_size needs to be smaller than total") ;;
    features <~ lift (shape_at (b_batch_X b) 2) ;;
    st <~ get ;;
    _ <~ lift (py_assert
                 (match n_input_features (hp (self st)) with
                  | Some n => features =? n
                  | None => false
                  end)
                 "batch_X should have shape [batch_size, n_time_steps, n_input_features]") ;;
    outputs <~ lift (shape_at (b_batch_y b) 1) ;;
    _ <~ lift (py_assert (outputs =? n_output_features (hp (self st)))
                 "batch_y should have shape [batch_size, n_output_features]") ;;
    _ <~ modify (fun st =>
           match cur_inner_iteration st with
           | None => with_inner_iteration st (Some (inner_iteration (hp (self st))))
           | Some _ => st
           end) ;;
    st <~ get ;;
    let inner := match cur_inner_iteration st with Some n => n | None => 0 end in
    _ <~ lift (py_assert (1 <=? inner) "inner_iteration has to be >= 1") ;;
    X <~ lift (as_block (b_batch_X b)) ;;
    y <~ lift (as_matrix (b_batch_y b)) ;;
    current_rate <~ optimizer_runs (Z.to_nat inner) (epoch_end args) i X y cutoff None ;;
    ev <~ evaluation_run X y cutoff ;;
    _ <~ lift (py_assert (array_equal (slice_from cutoff (y_val ev)) (y_oos_val ev))
                 "y_val and y_oos_val fails, likely nan.") ;;
    _ <~ lift (py_assert (array_equal (slice_from cutoff (pred_val ev)) (pred_oos_val ev))
                 "pred_val and pred_oos_val fails, likely nan.") ;;
    y_val' <~ lift (denormalize (y_val ev) (b_y_is_std b) (b_y_is_mean b)) ;;
    y_oos_val' <~ lift (denormalize (y_oos_val ev) (b_y_is_std b) (b_y_is_mean b)) ;;
    pred_val' <~ lift (denormalize (pred_val ev) (b_y_is_std b) (b_y_is_mean b)) ;;
    pred_oos_val' <~ lift (denormalize (pred_oos_val ev) (b_y_is_std b) (b_y_is_mean b)) ;;
    let corr_is := np_mean (diagonal (pearson_corr_is_val ev)) in
    let corr_oos := np_mean (diagonal (pearson_corr_oos_val ev)) in
    _ <~ modify (fun st =>
           with_self st (set_res (self st)
             (record_batch (res (self st)) (slice_to cutoff y_val') y_oos_val'
                           (slice_to cutoff pred_val') pred_oos_val'
                           corr_is corr_oos))) ;;
    let lv' := {| actual_oos := append_rows (actual_oos lv) y_oos_val';
                  predicted_oos := append_rows (predicted_oos lv) pred_oos_val';
                  loss_epoch := fadd (loss_epoch lv) (loss_val ev);
                  loss_oos_epoch := fadd (loss_oos_epoch lv) (loss_oos_val ev);
                  total_sample_size := total_sample_size lv |} in
    _ <~ (if return_weights args then record_weights else ret tt) ;;
    _ <~ display args [match current_rate with Some r => r | None => of_Q 0 end;
                       loss_val ev; loss_oos_val ev; corr_is; corr_oos] ;;
    ret lv'.

Fixpoint batch_loop (args : train_args) (i : Z) (lv : loop_vars)
         (items : list (item F)) : flow tstate loop_vars :=
  match items with
  | [] => ret lv
  | it :: rest =>
      lv' <~ batch_step args i lv it ;;
      batch_loop args i lv' rest
  end.

Definition sessid_str (s : instance) : string :=
  match sessid s with Some id => id | None => "None" end.

(** Lines 829-834: both checkpoints in one [try]. *)
Definition save_checkpoints (i : Z) : flow tstate unit :=
  try_except
    (st <~ get ;;
     w1 <~ lift (saver_save (env st)
                   (path_join (model_dir (hp (self st))) (epoch_ckpt (sessid_str (self st)) i))
                   (sess st)) ;;
     _ <~ modify (fun st => with_env st w1) ;;
     w2 <~ lift (saver_save w1
                   (path_join (model_dir (hp (self st))) (latest_ckpt (sessid_str (self st))))
                   (sess st)) ;;
     _ <~ modify (fun st => with_env st w2) ;;
     log_info "Model checkpoint successfully saved.")
    (fun _ => log_info "Model checkpoint save unsuccessful").

Definition record_epoch (r : results) (i : Z) (loss_e loss_oos_e corr : F) : results :=
  {| all_actual_is := all_actual_is r; all_actual_oos := all_actual_oos r;
     all_predicted_is := all_predicted_is r;
     all_predicted_oos := all_predicted_oos r;
     all_epochs := all_epochs r ++ [i];
     all_losses_per_epoch := all_losses_per_epoch r ++ [loss_e];
     all_losses_oos_per_epoch := all_losses_oos_per_epoch r ++ [loss_oos_e];
     all_corr_oos_per_epoch := all_corr_oos_per_epoch r ++ [corr];
     all_corr_is := all_corr_is r; all_corr_oos := all_corr_oos r;
     cell_states := cell_states r; fc_states := fc_states r |}.

(** Lines 804-835, after the batches of epoch [i]. *)
Definition epoch_finish (i : Z) (lv : loop_vars) : flow tstate unit :=
  match actual_oos lv, predicted_oos lv with
  | Some a, Some p =>
      _ <~ lift (py_assert ((len a =? len p) && (len (hd [] a) =? len (hd [] p))) "") ;;
      let corr_epoch := map (fun j => np_corrcoef (column j a) (column j p))
                            (seq 0 (length (hd [] a))) in
      let corr_epoch_oos := np_mean corr_epoch in
      _ <~ modify (fun st =>
             with_self st (set_res (self st)
               (record_epoch (res (self st)) i (loss_epoch lv) (loss_oos_epoch lv)
                             corr_epoch_oos))) ;;
      st <~ get ;;
      _ <~ modify (fun st => with_env st
             (logged (env st)
                (LogStats ("[" ++ sessid_str (self st) ++ "] Epoch " ++ str_of_Z i)
                          [loss_epoch lv; loss_oos_epoch lv; corr_epoch_oos]))) ;;
      _ <~ log_info ("[" ++ sessid_str (self st) ++ "] Epoch " ++ str_of_Z i ++ " Ends") ;;
      save_checkpoints i
  | _, _ => raise (AttributeError "'NoneType' object has no attribute 'shape'")
  end.

(** One pass of the [while] loop, lines 620-835; the value is
    [total_sample_size] as the pass leaves it. *)
Definition run_epoch (args : train_args) (fd : feeder) (i : Z) (total : option Z)
  : flow tstate (option Z) :=
  st <~ get ;;
  _ <~ log_info ("[" ++ sessid_str (self st) ++ "] Epoch " ++ str_of_Z i ++ " Starts") ;;
  items <~ lift (call_feeder args fd total i) ;;
  lv <~ batch_loop args i (epoch_start total) items ;;
  _ <~ epoch_finish i lv ;;
  ret (total_sample_size lv).

(** [while i <= epoch_end], for the [n] epochs from [i] on; the value is
    the counter when the loop ends. *)
Fixpoint epoch_loop (n : nat) (args : train_args) (fd : feeder) (i : Z)
         (total : option Z) : flow tstate Z :=
  match n with
  | O => ret i
  | S n' =>
      total' <~ run_epoch args fd i total ;;
      epoch_loop n' args fd (i + 1) total'
  end.

Definition epochs_to_run (i epoch_end' : Z) : nat := Z.to_nat (epoch_end' + 1 - i).

(** The text an exception carries. *)
Definition exn_message (e : exn) : string :=
  match e with
  | AssertionError m | NameError m | ValueError m | TypeError m
  | AttributeError m | IndexError m | KeyError m | InvalidArgumentError m
  | NotFoundError m | OSError m | Exception m => m
  | ZeroDivisionError => "division by zero"
  end.

(** [self.model_saver.restore(sess, os.path.join(self.model_dir, name))] *)
Definition restore_checkpoint (name : string) : flow (instance * world) variables :=
  s <~ get ;;
  if model_saver (fst s)
  then lift (saver_restore (snd s) (path_join (model_dir (hp (fst s))) name))
  else raise (AttributeError "'NoneType' object has no attribute 'restore'").

Definition log_world (l : log_record) : flow (instance * world) unit :=
  modify (fun s => (fst s, logged (snd s) l)).

(** [self.sessid = id_generator()] *)
Definition new_sessid : flow (instance * world) unit :=
  modify (fun s =>
    let '(id, r) := id_generator (py_random (snd s)) in
    (set_sessid (fst s) (Some id), set_py_random (snd s) r)).

(** Lines 197-214; one record stands for the lines of the report. *)
Definition logging_session_parameters : flow (instance * world) unit :=
  s <~ get ;;
  log_world (LogInfo ("[" ++ sessid_str (fst s) ++ "] Session start")).

(** Lines 605-610 and 612-617: a fresh run. *)
Definition fresh_start : flow (instance * world) (Z * variables) :=
  _ <~ modify (fun s => (set_res (fst s) cleared_results, snd s)) ;;
  let epoch_prev' := 0 in
  s <~ get ;;
  g <~ match graph_keys (fst s) with
       | Some g => ret g
       | None => raise (TypeError "'NoneType' object is not subscriptable")
       end ;;
  let v := global_variables_initializer (gk_hp g) (tf_random (snd s)) in
  _ <~ modify (fun s => (fst s, set_tf_random (snd s) (next_rng (tf_random (snd s))))) ;;
  _ <~ new_sessid ;;
  _ <~ logging_session_parameters ;;
  ret (epoch_prev' + 1, v).

(** Lines 582-617: where the epoch counter starts, and the values the
    variables of the session start from. *)
Definition train_start (args : train_args) : flow (instance * world) (Z * variables) :=
  if restore_model args then
    match pre_trained_model args with
    | Some name =>
        v <~ try_except (restore_checkpoint name)
               (fun msg =>
                  _ <~ log_world (LogException "Session restore failed: ") ;;
                  raise (Exception (exn_message msg))) ;;
        s <~ get ;;
        _ <~ match sessid (fst s) with
             | None => new_sessid
             | Some _ => ret tt
             end ;;
        let i := epoch_prev args + 1 in
        s <~ get ;;
        _ <~ log_world (LogInfo ("[" ++ sessid_str (fst s)
                                     ++ "] Restored pre-trained model successfully")) ;;
        _ <~ logging_session_parameters ;;
        ret (i, v)
    | None =>
        s <~ get ;;
        if graph_trained (fst s) then
          let i := trained_epochs (fst s) + 1 in
          _ <~ lift (py_assert (match sessid (fst s) with Some _ => true | None => false end) "") ;;
          v <~ try_except (restore_checkpoint (latest_ckpt (sessid_str (fst s))))
                 (fun msg =>
                    _ <~ log_world (LogException "Active session restore failed: ") ;;
                    raise (Exception "")) ;;
          _ <~ log_world (LogInfo ("[" ++ sessid_str (fst s)
                 ++ "] Restored model parameters from previous active session.")) ;;
          _ <~ logging_session_parameters ;;
          ret (i, v)
        else fresh_start
    end
  else fresh_start.

(** The dictionary [train] returns (lines 839-858). *)
Record train_results : Type := {
  returned : results;
  with_weights : bool     (* the keys [cell_states] and [fc_states] are present *)
}.

(** The session of a [train] call once it has started: the epochs from
    [i] to [epoch_end]. *)
Definition initial_tstate (args : train_args) (s : instance * world) (v : variables)
  : tstate :=
  {| self := fst s; env := snd s; sess := v;
     cur_step := step args; cur_writer_step := writer_step args;
     cur_inner_iteration := inner_iteration_arg args;
     gradient_steps := 0 |}.

Definition train_epochs (args : train_args) (i : Z) : flow tstate Z :=
  epoch_loop (epochs_to_run i (epoch_end args)) args (bound_feeder args) i None.

(** Lines 545-861. *)
Definition train (args : train_args) : flow (instance * world) (option train_results) :=
  s <~ get ;;
  match graph (fst s) with
  | None =>
      _ <~ log_world (LogWarning
             "No graph available for training.  Need to create compute graph first.") ;;
      ret None
  | Some _ =>
      start <~ train_start args ;;
      fun s =>
        match train_epochs args (fst start) (initial_tstate args s (snd start)) with
        | (Raise e, st) => (Raise e, (self st, env st))
        | (Ok i, st) =>
            let self' := set_trained (self st) (i - 1) in
            (Ok (Some {| returned := res self';
                         with_weights := return_weights args |}),
             (self', env st))
        end
  end.

(** ** Prediction *)

(** The arguments of [predict]. *)
Record predict_args : Type := {
  predict_batch_X : pyval F;                       (* [batch_X] *)
  predict_data_feeder : option (list (item F));    (* what [data_feeder()] returns *)
  predict_pre_trained_model : option string
}.

(** What one step of the generator yields (line 935). *)
Record prediction : Type := {
  out_pred_val : pyval F;
  out_batch_X : pyval F;
  out_batch_y : pyval F;
  out_y_mean : pyval F;
  out_y_astd : pyval F;
  out_y_index : pyval F;
  out_this_gvkey : pyval F
}.

(** [sess.run([pred], feed_dict)] of lines 921-930: the list of the one
    fetched tensor. *)
Definition run_prediction (g : graph_tensors F) (v : variables) (r : rng)
           (X : block F) (fed_keep_prob : F) (fed_in_sample_cutoff : Z)
  : list (matrix F) :=
  [pred g v r X].

(** Lines 911-935 for one element of the sequence. *)
Definition predict_item (v : variables) (data : item F)
  : flow (instance * world) prediction :=
  b <~ lift (match data with
             | Tuple fs => unpack7 (Tuple fs)
             | Value x =>
                 Ok {| b_batch_X := x; b_batch_y := PyNone; b_y_is_mean := PyNone;
                       b_y_is_std := PyNone; b_batch_y_index := PyNone;
                       b_in_sample_size := PyNone; b_batch_id := PyNone |}
             end) ;;
  total <~ lift (shape_at (b_batch_X b) 0) ;;
  s <~ get ;;
  g <~ match graph_keys (fst s) with
       | Some g => ret g
       | None => raise (TypeError "'NoneType' object is not subscriptable")
       end ;;
  X <~ lift (as_block (b_batch_X b)) ;;
  let pred_val := run_prediction g v (tf_random (snd s)) X (of_Q 1) total in
  _ <~ modify (fun s => (fst s, set_tf_random (snd s) (next_rng (tf_random (snd s))))) ;;
  batch_y' <~ lift (affine (b_batch_y b) (b_y_is_std b) (b_y_is_mean b)) ;;
  pred_val' <~ lift (affine (NpArray3 pred_val) (b_y_is_std b) (b_y_is_mean b)) ;;
  ret {| out_pred_val := pred_val'; out_batch_X := b_batch_X b;
         out_batch_y := batch_y'; out_y_mean := b_y_is_mean b;
         out_y_astd := b_y_is_std b; out_y_index := b_batch_y_index b;
         out_this_gvkey := b_batch_id b |}.

(** A generator run to its end: what it yielded, and how it ended. *)
Definition generated (A : Type) : Type := list A * result unit.

Fixpoint predict_items (v : variables) (items : list (item F)) (s : instance * world)
  : generated prediction * (instance * world) :=
  match items with
  | [] => (([], Ok tt), s)
  | data :: rest =>
      match predict_item v data s with
      | (Ok p, s') =>
          let '((ps, r), s'') := predict_items v rest s' in
          ((p :: ps, r), s'')
      | (Raise e, s') => (([], Raise e), s')
      end
  end.

(** Lines 892-909: the variables of the session. *)
Definition predict_start (args : predict_args) : flow (instance * world) variables :=
  v <~ match predict_pre_trained_model args with
       | Some name =>
           v <~ try_except (restore_checkpoint name)
                  (fun msg =>
                     _ <~ log_world (LogException "Session restore failed: ") ;;
                     raise (Exception (exn_message msg))) ;;
           s <~ get ;;
           _ <~ match sessid (fst s) with
                | None =>
                    _ <~ new_sessid ;;
                    s <~ get ;;
                    log_world (LogInfo ("[" ++ sessid_str (fst s)
                                 ++ "] New sessid created for restored pre-trained model"))
                | Some _ => ret tt
                end ;;
           s <~ get ;;
           _ <~ log_world (LogInfo ("[" ++ sessid_str (fst s)
                                       ++ "] Restored pre-trained model successfully")) ;;
           ret v
       | None =>
           s <~ get ;;
           _ <~ lift (py_assert (match sessid (fst s) with Some _ => true | None => false end)
                        "No valid session id (sessid) from training in this active session. ") ;;
           restore_checkpoint (latest_ckpt (sessid_str (fst s)))
       end ;;
  _ <~ logging_session_parameters ;;
  ret v.

(** Lines 863-936, iterated to the end. *)
Definition predict (args : predict_args) (s : instance * world)
  : generated prediction * (instance * world) :=
  match graph (fst s) with
  | None =>
      (([], Ok tt),
       (fst s, logged (snd s) (LogWarning "No graph available for prediction.")))
  | Some _ =>
      let feeder_result :=
        if negb (is_none (predict_batch_X args)) then Ok [Value (predict_batch_X args)]
        else match predict_data_feeder args with
             | Some items => Ok items
             | None => Raise (TypeError "'NoneType' object is not callable")
             end in
      match predict_start args s with
      | (Raise e, s') => (([], Raise e), s')
      | (Ok v, s') =>
          match feeder_result with
          | Raise e => (([], Raise e), s')
          | Ok items => predict_items v items s'
          end
      end
  end.

(** ** Batches with non-finite entries *)

(** A feeder element that is a tuple of seven values whose [X] is a rank 3
    array and whose [y] is a rank 2 array, one of them holding a
    non-finite entry. *)
Definition has_nonfinite (l : list F) : bool := negb (forallb isfinite l).

Definition nonfinite_batch (it : item F) : bool :=
  match it with
  | Tuple [NpArray3 X; NpArray2 y; _; _; _; _; _] =>
      has_nonfinite (concat (concat X)) || has_nonfinite (concat y)
  | _ => false
  end.

(** A sequence without those elements, and the feeder that returns the
    same sequences without them. *)
Definition keep_finite (items : list (item F)) : list (item F) :=
  List.filter (fun it => negb (nonfinite_batch it)) items.

Definition without_nonfinite (f : Z -> list (item F)) : Z -> list (item F) :=
  fun i => keep_finite (f i).

Definition set_data_feeder (args : train_args) (f : option (Z -> list (item F)))
  : train_args :=
  {| batch_X := batch_X args; batch_y := batch_y args;
     in_sample_size := in_sample_size args;
     y_is_mean := y_is_mean args; y_is_std := y_is_std args;
     data_feeder := f;
     restore_model := restore_model args;
     pre_trained_model := pre_trained_model args;
     epoch_prev := epoch_prev args; epoch_end := epoch_end args;
     inner_iteration_arg := inner_iteration_arg args;
     step := step args; writer_step := writer_step args;
     display_step := display_step args;
     return_weights := return_weights args |}.

(** Two states of the loop variables with the same accumulators. *)
Definition same_accumulators (a b : loop_vars) : Prop :=
  actual_oos a = actual_oos b /\ predicted_oos a = predicted_oos b /\
  loss_epoch a = loss_epoch b /\ loss_oos_epoch a = loss_oos_epoch b.

(** What the epochs of a [train] call keep or extend: the session
    identifier and the graph object, and the list of epochs run so far. *)
Definition run_invariant (sid : option string * option tf_graph) (epochs : list Z)
           (st : tstate) : Prop :=
  (sessid (self st), graph (self st)) = sid /\
  all_epochs (res (self st)) = epochs.

(** The epochs [i, i + 1, ...] a loop of [n] passes runs. *)
Definition epochs_from (i : Z) (n : nat) : list Z :=
  map (fun k => i + Z.of_nat k) (seq 0 n).

End Model.
Arguments results F : clear implicits.
Arguments instance F : clear implicits.
Arguments log_record F : clear implicits.
Arguments world F {_}.
Arguments tstate F {_}.
Arguments train_args F : clear implicits.
Arguments feeder F : clear implicits.
Arguments loop_vars F : clear implicits.
Arguments batch F : clear implicits.
Arguments train_results F : clear implicits.
Arguments predict_args F : clear implicits.
Arguments prediction F : clear implicits.

(** ** Concrete runs *)

(** A backend to run the control flow on concrete inputs: cells without
    units, an optimizer that leaves the variables alone, a counter for
    randomness. *)
#[export] Instance stub_backend : Backend xreal := {
  variables := list (list xreal);
  rng := nat;
  lstm_states := fun _ _ _ _ _ => [([], [])];
  rnn_states := fun _ _ _ _ _ _ => [[]];
  W_fc1 := fun _ => [];
  b_fc1 := fun _ => [];
  trainable_variables := fun v => v;
  global_variables_initializer := fun _ _ => [];
  n_cell_parameters := fun _ _ => 0%nat;
  state_jacobian := fun _ _ _ _ _ _ => [];
  adam_minimize := fun _ _ _ v => v;
  next_rng := S;
  get_tensor_by_name := fun _ _ => None;
  np_corrcoef := fun _ _ => None;
  random_below := fun n r => (Nat.modulo r n, S r)
}.

(** The defaults of [__init__], for two input features and a given cell
    type. *)
Definition default_hyperparameters (cell : string) : hyperparameters xreal :=
  {| n_input_features := Some 2; n_output_features := 1; batch_size := None;
     cell_type := cell; n_states := 50; n_layers := 1; use_peepholes := true;
     n_time_steps := 10; activation := option_map (Rmax 0);
     keep_prob := of_Q (1 # 2); l1_reg_scale := of_Q (1 # 100);
     l2_reg_scale := of_Q (1 # 1000); start_learning_rate := of_Q (1 # 1000);
     decay_steps := of_Q 1; decay_rate := of_Q (3 # 10);
     inner_iteration := 10; forward_step := 1;
     scope := "lstm"; log_dir := "logs"; model_dir := "saved_models";
     compute_device := "/device:CPU:0" |}.

(** A world with no checkpoint, where every path can be read and written. *)
Definition empty_world : world xreal :=
  {| files := ∅; readable := fun _ => true; writable := fun _ => true;
     py_random := 0%nat; tf_random := 0%nat; log := []; stdout := [] |}.

(** The same world with every path read-only and unreadable. *)
Definition locked_world : world xreal :=
  {| files := ∅; readable := fun _ => false; writable := fun _ => false;
     py_random := 0%nat; tf_random := 0%nat; log := []; stdout := [] |}.

(** The tensors built from the default hyperparameters, and two batches
    that share their first row. *)
Definition default_graph : graph_tensors xreal :=
  {| gk_cell := LSTMCell; gk_hp := default_hyperparameters "LSTM"; gk_writer := true |}.

Definition batch_a_X : block xreal := [[[Some 1%R; Some 2%R]]; [[Some 3%R; Some 4%R]]].
Definition batch_a_y : matrix xreal := [[Some 1%R]; [Some 5%R]].
Definition batch_b_X : block xreal :=
  [[[Some 1%R; Some 2%R]]; [[Some 7%R; None]]; [[Some 0%R; Some 0%R]]].
Definition batch_b_y : matrix xreal := [[Some 1%R]; [None]; [Some 9%R]].

(** The defaults of [train] around a data feeder. *)
Definition default_train_args (f : option (Z -> list (item xreal))) : train_args xreal :=
  {| batch_X := PyNone; batch_y := PyNone; in_sample_size := PyNone;
     y_is_mean := PyFloat (of_Q 0); y_is_std := PyFloat (of_Q 1);
     data_feeder := f; restore_model := true; pre_trained_model := None;
     epoch_prev := 0; epoch_end := 21; inner_iteration_arg := None;
     step := 1; writer_step := 1; display_step := 50;
     return_weights := false |}.

(** A batch of one row whose input holds a NaN. *)
Definition nan_batch : item xreal :=
  Tuple [NpArray3 [[[None; Some 1%R]]]; NpArray2 [[Some 1%R]];
         NpScalar (Some 0%R); NpScalar (Some 1%R); PyNone; PyInt 1; PyStr "b0"].

(** An instance as five epochs of training in this process leave it. *)
Definition trained_results : results xreal :=
  {| all_actual_is := Some [[Some 1%R]]; all_actual_oos := Some [[Some 5%R]];
     all_predicted_is := Some [[Some 1%R]]; all_predicted_oos := Some [[Some 4%R]];
     all_epochs := [1; 2; 3; 4; 5];
     all_losses_per_epoch := [Some 5%R; Some 4%R; Some 3%R; Some 2%R; Some 1%R];
     all_losses_oos_per_epoch := [Some 5%R; Some 4%R; Some 3%R; Some 2%R; Some 1%R];
     all_corr_oos_per_epoch := [None; None; None; None; None];
     all_corr_is := [Some 0%R]; all_corr_oos := [Some 0%R];
     cell_states := ∅; fc_states := ∅ |}.

Definition trained_instance : instance xreal :=
  {| hp := default_hyperparameters "LSTM"; sessid := Some "AB12CD";
     graph := Some TfGraph; graph_keys := Some default_graph;
     graph_ready := true; graph_trained := true; trained_epochs := 5;
     model_saver := true; res := trained_results |}.

(** A world that holds the latest checkpoint of that instance. *)
Definition world_with_latest : world xreal :=
  {| files := {[ "saved_models/AB12CD_latest.ckpt" := [[Some 1%R]] ]};
     readable := fun _ => true; writable := fun _ => true;
     py_random := 0%nat; tf_random := 0%nat; log := []; stdout := [] |}.

(** ** Invariants of flows *)

(** [m] keeps [I] when it ends normally, and then its value satisfies [Q]. *)
Definition ensures {S A} (I : S -> Prop) (m : flow S A) (Q : A -> S -> Prop) : Prop :=
  forall s, I s ->
    match m s with
    | (Ok a, s') => Q a s'
    | (Raise _, _) => True
    end.

Definition keeps {S A} (I : S -> Prop) (m : flow S A) : Prop :=
  ensures I m (fun _ => I).

(** An instance whose graph is built and that has not trained yet. *)
Definition built_instance : instance xreal :=
  {| hp := default_hyperparameters "LSTM"; sessid := None;
     graph := Some TfGraph; graph_keys := Some default_graph;
     graph_ready := true; graph_trained := false; trained_epochs := 0;
     model_saver := true; res := cleared_results |}.

(** [train(batch_X=..., batch_y=..., in_sample_size=1, epoch_end=...)] *)
Definition direct_train_args (epoch_end' : Z) : train_args xreal :=
  {| batch_X := NpArray3 batch_a_X; batch_y := NpArray2 batch_a_y;
     in_sample_size := PyInt 1;
     y_is_mean := PyFloat (of_Q 0); y_is_std := PyFloat (of_Q 1);
     data_feeder := None; restore_model := true; pre_trained_model := None;
     epoch_prev := 0; epoch_end := epoch_end'; inner_iteration_arg := None;
     step := 1; writer_step := 1; display_step := 50;
     return_weights := false |}.

(** [predict(batch_X=X)] on a raw input array. *)
Definition raw_predict_args : predict_args xreal :=
  {| predict_batch_X := NpArray3 batch_a_X; predict_data_feeder := None;
     predict_pre_trained_model := None |}.

(** ** Compute devices *)

(** [str.lower] on ASCII letters. *)
Definition ascii_lower (c : ascii) : ascii :=
  let n := nat_of_ascii c in
  if ((65 <=? n) && (n <=? 90))%nat then ascii_of_nat (n + 32) else c.

Fixpoint lower (s : string) : string :=
  match s with
  | EmptyString => EmptyString
  | String c s' => String (ascii_lower c) (lower s')
  end.

(** [s.find(sub)]: the first position of [sub] in [s], or [-1]. *)
Definition str_find (sub s : string) : Z :=
  match String.index 0 sub s with
  | Some n => Z.of_nat n
  | None => -1
  end.

(** [l[i]] for a Python list: a negative index counts from the end. *)
Definition py_index {A} (l : list A) (i : Z) : result A :=
  let j := if i <? 0 then i + Z.of_nat (length l) else i in
  if j <? 0 then Raise (IndexError "list index out of range")
  else match nth_error l (Z.to_nat j) with
       | Some x => Ok x
       | None => Raise (IndexError "list index out of range")
       end.

(** The dictionary [dict(gpu=gpu, cpu=cpu)] of device names. *)
Record device_list : Type := {
  gpu : list string;
  cpu : list string
}.

(** [device_list[key]] *)
Definition device_list_get (dl : device_list) (key : string) : result (list string) :=
  if String.eqb key "gpu" then Ok (gpu dl)
  else if String.eqb key "cpu" then Ok (cpu dl)
  else Raise (KeyError key).

(** Lines 216-230, from the names [device_lib.list_local_devices()]
    reports. *)
Definition find_compute_devices (local_devices : list string) : result device_list :=
  let gpu' := List.filter (fun name => negb (str_find "GPU" name =? -1)) local_devices in
  let cpu' := List.filter (fun name => negb (str_find "CPU" name =? -1)) local_devices in
  _ <- py_assert (1 <=? Z.of_nat (length cpu')) "" ;;
  Ok {| gpu := gpu'; cpu := cpu' |}.

(** [try: body / except (KeyError, IndexError) as msg: handler] *)
Definition lookup_error (e : exn) : bool :=
  match e with
  | KeyError _ | IndexError _ => true
  | _ => false
  end.

Definition try_lookup {S A} (body : flow S A) (handler : exn -> flow S A) : flow S A :=
  fun s => match body s with
           | (Ok a, s') => (Ok a, s')
           | (Raise e, s') => if lookup_error e then handler e s' else (Raise e, s')
           end.

(** [print(text)], the state being what was printed so far. *)
Definition print (text : string) : flow (list string) unit :=
  modify (fun out => out ++ [text]).

(** Lines 145-158 of [__init__]: the value of [self.compute_device], or
    [None] when the attribute is never assigned. *)
Definition init_compute_device (dl : device_list) (device : string) (device_num : Z)
  : flow (list string) (option string) :=
  if String.eqb (lower device) "cpu" then
    d <~ lift (l <- device_list_get dl "cpu" ;; py_index l 0) ;;
    ret (Some d)
  else if String.eqb (lower device) "gpu" then
    _ <~ try_lookup
           (d <~ lift (l <- device_list_get dl "gpu" ;; py_index l device_num) ;;
            ret (Some d))
           (fun msg =>
              _ <~ print (exn_message msg) ;;
              _ <~ print "Will try GPU device 0..." ;;
              ret None) ;;
    try_lookup
      (d <~ lift (l <- device_list_get dl "gpu" ;; py_index l 0) ;;
       ret (Some d))
      (fun msg =>
         _ <~ print (exn_message msg) ;;
         _ <~ print "Will default to CPU for computing" ;;
         d <~ lift (l <- device_list_get dl "cpu" ;; py_index l 0) ;;
         ret (Some d))
  else ret None.

(** Lines 240-250: the new value of [self.compute_device]. *)
Definition set_compute_device (dl : device_list) (type : string) (seq : Z)
  : flow (list string) string :=
  try_lookup
    (lift (l <- device_list_get dl type ;; py_index l seq))
    (fun msg =>
       _ <~ print ("Error in selecting target device, defaulting to CPU as compute device. "
                   ++ String "010"%char
                        "Please use show_compute_devices() to list available compute devices.") ;;
       lift (l <- device_list_get dl "cpu" ;; py_index l 0)).

(** ** Statistics of two series *)

(** The sum of the products of the deviations of two series from their
    means. *)
Definition co_dev (xs ys : list R) : R :=
  let mx := (reduce_sum xs / INR (length xs))%R in
  let my := (reduce_sum ys / INR (length ys))%R in
  dot (map (fun x => (x - mx)%R) xs) (map (fun y => (y - my)%R) ys).

(** ** A graph over the exact reals *)

(** A backend over the reals with cells without units and an optimizer
    that leaves the variables alone. *)
Definition real_stub_backend : Backend R := {|
  variables := list (list R);
  rng := nat;
  lstm_states := fun _ _ _ _ _ => [([], [])];
  rnn_states := fun _ _ _ _ _ _ => [[]];
  W_fc1 := fun _ => [];
  b_fc1 := fun _ => [];
  trainable_variables := fun v => v;
  global_variables_initializer := fun _ _ => [];
  n_cell_parameters := fun _ _ => 0%nat;
  state_jacobian := fun _ _ _ _ _ _ => [];
  adam_minimize := fun _ _ _ v => v;
  next_rng := S;
  get_tensor_by_name := fun _ _ => None;
  np_corrcoef := fun _ _ => 0%R;
  random_below := fun n r => (Nat.modulo r n, S r)
|}.

(** The tensors built from the defaults of [__init__]. *)
Definition real_graph : graph_tensors R :=
  {| gk_cell := LSTMCell;
     gk_hp := {| n_input_features := Some 2; n_output_features := 1;
                 batch_size := None; cell_type := "LSTM"; n_states := 50;
                 n_layers := 1; use_peepholes := true; n_time_steps := 10;
                 activation := Rmax 0;
                 keep_prob := (1 / 2)%R; l1_reg_scale := (1 / 100)%R;
                 l2_reg_scale := (1 / 1000)%R;
                 start_learning_rate := (1 / 1000)%R;
                 decay_steps := 1%R; decay_rate := (3 / 10)%R;
                 inner_iteration := 10; forward_step := 1;
                 scope := "lstm"; log_dir := "logs"; model_dir := "saved_models";
                 compute_device := "/device:CPU:0" |};
     gk_writer := true |}.

(** [m] keeps [I] however it ends, normally or with an exception. *)
Definition preserves {S A} (I : S -> Prop) (m : flow S A) : Prop :=
  forall s, I s -> I (snd (m s)).

(** What [train] and [predict] leave alone in an instance: the
    hyperparameters, the graph with its tensors, the ready flag, the saver. *)
Definition built_as {F} (self0 self1 : instance F) : Prop :=
  hp self1 = hp self0 /\ graph self1 = graph self0 /\
  graph_keys self1 = graph_keys self0 /\ graph_ready self1 = graph_ready self0 /\
  model_saver self1 = model_saver self0.

(** What the body of the batch loop reads or counts in the state of a
    [train] call. *)
Definition batch_state {F} `{Backend F} (k : nat) (ci : option Z)
           (h0 : hyperparameters F) (gk0 : option (graph_tensors F)) (s0 : Z)
           (st : tstate F) : Prop :=
  gradient_steps st = k /\ cur_inner_iteration st = ci /\
  hp (self st) = h0 /\ graph_keys (self st) = gk0 /\ cur_step st = s0.

(** ** A backend whose predictions have one column *)

(** Cells without units and a dense layer that is its bias alone: the
    prediction of every row is the bias, and the optimizer leaves the
    variables alone. *)
Definition bias_backend : Backend xreal := {|
  variables := list (list xreal);
  rng := nat;
  lstm_states := fun _ _ _ _ _ => [([], [])];
  rnn_states := fun _ _ _ _ _ _ => [[]];
  W_fc1 := fun _ => [];
  b_fc1 := fun _ => [Some 0%R];
  trainable_variables := fun v => v;
  global_variables_initializer := fun _ _ => [];
  n_cell_parameters := fun _ _ => 0%nat;
  state_jacobian := fun _ _ _ _ _ _ => [];
  adam_minimize := fun _ _ _ v => v;
  next_rng := S;
  get_tensor_by_name := fun _ _ => None;
  np_corrcoef := fun _ _ => None;
  random_below := fun n r => (Nat.modulo r n, S r)
|}.

Definition bias_world : @world xreal bias_backend :=
  @Build_world xreal bias_backend ∅ (fun _ => true) (fun _ => true)
               0%nat 0%nat [] [].

(** A [train] call on a built instance, with [inner_iteration=2], at its
    first batch. *)
Definition bias_state : @tstate xreal bias_backend :=
  @Build_tstate xreal bias_backend built_instance bias_world [] 1 1 (Some 2) 0.

(** A batch of two rows, both in sample. *)
Definition two_row_batch : item xreal :=
  Tuple [NpArray3 batch_a_X; NpArray2 batch_a_y;
         NpScalar (Some 0%R); NpScalar (Some 1%R); PyNone; PyInt 2; PyStr "b0"].

(** A Python number, which has no attribute [size]. *)
Definition plain_number {F} (v : pyval F) : bool :=
  match v with
  | PyFloat _ | PyInt _ => true
  | _ => false
  end.

(** A feeder whose batches at epoch 1 all hold a non-finite entry. *)
Definition nan_feeder : Z -> list (item xreal) := fun _ => [nan_batch; nan_batch].

(** [train(data_feeder=f, pre_trained_model=name)] *)
Definition named_train_args (name : string) (f : option (Z -> list (item xreal)))
  : train_args xreal :=
  {| batch_X := PyNone; batch_y := PyNone; in_sample_size := PyNone;
     y_is_mean := PyFloat (of_Q 0); y_is_std := PyFloat (of_Q 1);
     data_feeder := f; restore_model := true; pre_trained_model := Some name;
     epoch_prev := 0; epoch_end := 21; inner_iteration_arg := None;
     step := 1; writer_step := 1; display_step := 50;
     return_weights := false |}.

(** A feeder element [predict] handles: a tuple of seven fields with a
    rank 3 input, rank 2 labels and numbers for the mean and deviation. *)
Definition prediction_tuple {F} `{Dtype F} (it : item F) : bool :=
  match it with
  | Tuple [NpArray3 _; NpArray2 _; mean; std; _; _; _] =>
      match as_number mean, as_number std with
      | Some _, Some _ => true
      | _, _ => false
      end
  | _ => false
  end.

(** What [predict] leaves alone besides the graph: the results and the
    trained flags of the instance, and the checkpoint files. *)
Definition untouched_by_predict {F} `{Backend F} (s0 s1 : instance F * world F) : Prop :=
  built_as (fst s0) (fst s1) /\
  res (fst s1) = res (fst s0) /\
  graph_trained (fst s1) = graph_trained (fst s0) /\
  trained_epochs (fst s1) = trained_epochs (fst s0) /\
  files (snd s1) = files (snd s0) /\
  stdout (snd s1) = stdout (snd s0).

(** [predict(data_feeder=...)] on a list of elements. *)
Definition feeder_predict_args (items : list (item xreal)) : predict_args xreal :=
  {| predict_batch_X := PyNone; predict_data_feeder := Some items;
     predict_pre_trained_model := None |}.

(** The result holders line up: one entry per recorded epoch in each of
    the four lists of an epoch, one entry per processed batch in each of
    the two lists of a batch. *)
Definition aligned {F} (r : results F) : Prop :=
  length (all_losses_per_epoch r) = length (all_epochs r) /\
  length (all_losses_oos_per_epoch r) = length (all_epochs r) /\
  length (all_corr_oos_per_epoch r) = length (all_epochs r) /\
  length (all_corr_oos r) = length (all_corr_is r).

Definition aligned_state {F} `{Backend F} (st : tstate F) : Prop :=
  aligned (res (self st)).

(** The holders the body of the batch loop appends to. *)
Definition batch_holders {F} (r : results F) :=
  (all_actual_is r, all_actual_oos r, all_predicted_is r, all_predicted_oos r,
   all_corr_is r, all_corr_oos r).

(** [m * std + mean] on every entry. *)
Definition denormalized {F} `{Dtype F} (sd m : F) (t : matrix F) : matrix F :=
  map (map (fun e => fadd (fmul e sd) m)) t.

(** ** A backend whose cells pass their input on *)

(** A cell with a single weight, held at 1, that scales the last time step
    of its input: the final state of a row is its last time step, and so
    is the derivative of the state with respect to that weight.  The
    variables are the dense weights, the bias is zero, and the optimizer
    takes a plain gradient step on the weights. *)
Definition echo_backend : Backend xreal := {|
  variables := list (list xreal);
  rng := nat;
  lstm_states := fun _ _ _ _ x => [([], List.last x [])];
  rnn_states := fun _ _ _ _ _ x => [List.last x []];
  W_fc1 := fun v => v;
  b_fc1 := fun _ => [Some 0%R];
  trainable_variables := fun v => v;
  global_variables_initializer := fun _ _ => [[Some 1%R]; [Some 1%R]];
  n_cell_parameters := fun _ _ => 1%nat;
  state_jacobian := fun _ _ _ _ _ x => [List.last x []];
  adam_minimize := fun _ gr rate v =>
    zip_with (zip_with (fun w d => fsub w (fmul rate d))) v (d_W_fc1 gr);
  next_rng := S;
  get_tensor_by_name := fun _ _ => None;
  np_corrcoef := fun _ _ => None;
  random_below := fun n r => (Nat.modulo r n, S r)
|}.

(** The tensors of a graph with two units and one output. *)
Definition echo_graph : graph_tensors xreal :=
  {| gk_cell := LSTMCell;
     gk_hp := {| n_input_features := Some 2; n_output_features := 1; batch_size := None;
                 cell_type := "LSTM"; n_states := 2; n_layers := 1; use_peepholes := true;
                 n_time_steps := 1; activation := option_map (Rmax 0);
                 keep_prob := of_Q (1 # 2); l1_reg_scale := of_Q (1 # 100);
                 l2_reg_scale := of_Q (1 # 1000); start_learning_rate := of_Q (1 # 1000);
                 decay_steps := of_Q 1; decay_rate := of_Q (3 # 10);
                 inner_iteration := 10; forward_step := 1;
                 scope := "lstm"; log_dir := "logs"; model_dir := "saved_models";
                 compute_device := "/device:CPU:0" |};
     gk_writer := true |}.

Definition echo_weights : list (list xreal) := [[Some 1%R]; [Some 1%R]].

(** A batch of three finite rows whose first row is that of [batch_a_X]. *)
Definition batch_c_X : block xreal :=
  [[[Some 1%R; Some 2%R]]; [[Some 7%R; Some 8%R]]; [[Some 0%R; Some 0%R]]].
Definition batch_c_y : matrix xreal := [[Some 1%R]; [Some 6%R]; [Some 9%R]].

(** ** Inputs that fit the placeholder *)

(** A fed input has the shape of the placeholder [X] of line 305,
    [batch_size, n_time_steps, n_input_features], where a [batch_size] of
    [None] admits any number of rows. *)
Definition fits_placeholder {F} (h : hyperparameters F) (X : block F) : bool :=
  match batch_size h with
  | Some b => Z.of_nat (length X) =? b
  | None => true
  end &&
  forallb (fun x =>
             (Z.of_nat (length x) =? n_time_steps h) &&
             forallb (fun t => match n_input_features h with
                               | Some n => Z.of_nat (length t) =? n
                               | None => false
                               end) x) X.

(** A feeder element [predict] handles, with an input of that shape. *)
Definition fitting_tuple {F} `{Dtype F} (h : hyperparameters F) (it : item F) : bool :=
  match it with
  | Tuple (NpArray3 X :: _) => prediction_tuple it && fits_placeholder h X
  | _ => false
  end.

(** A batch of one row of ten time steps and two features. *)
Definition ten_step_batch : item xreal :=
  Tuple [NpArray3 [repeat [Some 1%R; Some 2%R] 10]; NpArray2 [[Some 1%R]];
         NpScalar (Some 0%R); NpScalar (Some 1%R); PyNone; PyInt 1; PyStr "b0"].

(** A string of ASCII characters, on which [upper] is [str.upper]. *)
Definition ascii_only (s : string) : bool :=
  forallb (fun c => (nat_of_ascii c <? 128)%nat) (list_ascii_of_string s).

(** ** A schedule with no decay steps *)

(** The tensors of [LSTM(n_input_features=2, decay_steps=0)]. *)
Definition zero_steps_graph : graph_tensors xreal :=
  {| gk_cell := LSTMCell;
     gk_hp := {| n_input_features := Some 2; n_output_features := 1; batch_size := None;
                 cell_type := "LSTM"; n_states := 50; n_layers := 1; use_peepholes := true;
                 n_time_steps := 10; activation := option_map (Rmax 0);
                 keep_prob := of_Q (1 # 2); l1_reg_scale := of_Q (1 # 100);
                 l2_reg_scale := of_Q (1 # 1000); start_learning_rate := of_Q (1 # 1000);
                 decay_steps := of_Q 0; decay_rate := of_Q (3 # 10);
                 inner_iteration := 10; forward_step := 1;
                 scope := "lstm"; log_dir := "logs"; model_dir := "saved_models";
                 compute_device := "/device:CPU:0" |};
     gk_writer := true |}.

(* ================================================================== *)
(** * Properties *)

(** ** The in-sample / out-of-sample split *)

Lemma canonical_inside (n c : Z) : 0 <= c <= n -> canonical n c = c.
Proof.
  intros Hc. unfold canonical.
  destruct (Z.ltb_spec c 0); lia.
Qed.

Lemma canonical_range (n c : Z) : 0 <= n -> 0 <= canonical n c <= n.
Proof. intros Hn. unfold canonical. lia. Qed.

(** Whatever the cutoff, the two slices are a prefix and the matching
    suffix of the tensor. *)
Lemma slices_split {A} (c : Z) (t : list A) :
  slice_to c t = firstn (Z.to_nat (canonical (Z.of_nat (length t)) c)) t /\
  slice_from c t = skipn (Z.to_nat (canonical (Z.of_nat (length t)) c)) t.
Proof.
  unfold slice_to, slice_from, rows_between.
  pose proof (canonical_range (Z.of_nat (length t)) c ltac:(lia)) as Hr.
  set (k := canonical (Z.of_nat (length t)) c) in *.
  split.
  - rewrite Z.sub_0_r. reflexivity.
  - apply firstn_all2. rewrite length_skipn. lia.
Qed.

Lemma slices_app {A} (c : Z) (t : list A) : slice_to c t ++ slice_from c t = t.
Proof.
  destruct (slices_split c t) as [-> ->]. apply firstn_skipn.
Qed.

Lemma slice_to_inside {A} (c : Z) (t : list A) :
  0 <= c <= Z.of_nat (length t) -> slice_to c t = firstn (Z.to_nat c) t.
Proof.
  intros Hc. destruct (slices_split c t) as [-> _].
  now rewrite canonical_inside.
Qed.

Lemma slice_from_inside {A} (c : Z) (t : list A) :
  0 <= c <= Z.of_nat (length t) -> slice_from c t = skipn (Z.to_nat c) t.
Proof.
  intros Hc. destruct (slices_split c t) as [_ ->].
  now rewrite canonical_inside.
Qed.

(** Row [i] of a tensor sits in the in-sample slice at position [i] when
    [i < c], and in the out-of-sample slice at position [i - c] otherwise. *)
Lemma split_rows {A} (t : list A) (c : Z) (i : nat) :
  0 <= c <= Z.of_nat (length t) ->
  (Z.of_nat i < c -> nth_error (slice_to c t) i = nth_error t i) /\
  (c <= Z.of_nat i -> nth_error (slice_from c t) (i - Z.to_nat c) = nth_error t i).
Proof.
  intros Hc. rewrite slice_to_inside, slice_from_inside by assumption.
  split; intros Hi.
  - rewrite nth_error_firstn.
    destruct (Nat.ltb_spec i (Z.to_nat c)); [reflexivity | lia].
  - rewrite nth_error_skipn. f_equal. lia.
Qed.

Lemma split_lengths {A} (t : list A) (c : Z) :
  0 <= c <= Z.of_nat (length t) ->
  Z.of_nat (length (slice_to c t)) = c /\
  Z.of_nat (length (slice_from c t)) = Z.of_nat (length t) - c.
Proof.
  intros Hc. rewrite slice_to_inside, slice_from_inside by assumption.
  rewrite length_firstn, length_skipn. lia.
Qed.

(** C2.  For a batch of [n] rows and a cutoff [0 < c < n], the slices
    [0:c] and [c:] of the labels and of the predictions partition the rows:
    glued together they give the tensor back, they hold [c] and [n - c]
    rows, and row [i] lies in the first one exactly when [i < c] and in the
    second one exactly when [c <= i]. *)
Theorem split_partitions_batch {A B} (y : list A) (pred : list B) (n c : Z) :
  Z.of_nat (length y) = n ->
  Z.of_nat (length pred) = n ->
  0 < c < n ->
  (y_is c y ++ y_oos c y = y /\ pred_is c pred ++ pred_oos c pred = pred) /\
  (Z.of_nat (length (y_is c y)) = c /\ Z.of_nat (length (pred_is c pred)) = c) /\
  (Z.of_nat (length (y_oos c y)) = n - c /\
   Z.of_nat (length (pred_oos c pred)) = n - c) /\
  forall i : nat, Z.of_nat i < n ->
    (Z.of_nat i < c /\
     nth_error (y_is c y) i = nth_error y i /\
     nth_error (pred_is c pred) i = nth_error pred i /\
     nth_error (y_is c y) i <> None) \/
    (c <= Z.of_nat i /\
     nth_error (y_oos c y) (i - Z.to_nat c) = nth_error y i /\
     nth_error (pred_oos c pred) (i - Z.to_nat c) = nth_error pred i /\
     nth_error (y_is c y) i = None /\
     nth_error (pred_is c pred) i = None).
Proof.
  intros Hy Hp Hc. unfold y_is, y_oos, pred_is, pred_oos.
  assert (Hcy : 0 <= c <= Z.of_nat (length y)) by lia.
  assert (Hcp : 0 <= c <= Z.of_nat (length pred)) by lia.
  destruct (split_lengths y c Hcy) as [Ly1 Ly2].
  destruct (split_lengths pred c Hcp) as [Lp1 Lp2].
  repeat split; try apply slices_app; try lia.
  intros i Hi.
  destruct (split_rows y c i Hcy) as [Ry1 Ry2].
  destruct (split_rows pred c i Hcp) as [Rp1 Rp2].
  destruct (Z.lt_ge_cases (Z.of_nat i) c) as [Hlt | Hge].
  - left. repeat split; auto.
    rewrite Ry1 by assumption. apply nth_error_Some. lia.
  - right. repeat split; auto; apply nth_error_None; lia.
Qed.

(** The split at a batch of five rows cut after the third. *)
Lemma split_partitions_batch_witness :
  y_is 3 [10; 11; 12; 13; 14] = [10; 11; 12] /\
  y_oos 3 [10; 11; 12; 13; 14] = [13; 14] /\
  pred_is 3 [true; false; true; true; false] ++
  pred_oos 3 [true; false; true; true; false] = [true; false; true; true; false].
Proof.
  pose proof (split_partitions_batch [10; 11; 12; 13; 14]
                [true; false; true; true; false] 5 3
                eq_refl eq_refl ltac:(lia)) as [[_ Hp] _].
  split; [reflexivity | split; [reflexivity | exact Hp]].
Defined.

(** ** Pearson correlation of a series with itself *)

Section SelfCorrelationAny.
Context {F : Type} `{Dtype F}.

Lemma column0_series_any (xs : list F) : column 0 (series xs) = xs.
Proof.
  unfold column, series. rewrite map_map. cbn. apply map_id.
Qed.

Lemma concat_series_any (xs : list F) : concat (series xs) = xs.
Proof.
  unfold series. induction xs as [|x xs IH]; cbn; [reflexivity | now f_equal].
Qed.

Lemma dot_self_any (u : list F) : dot u u = reduce_sum (map (fun x => fmul x x) u).
Proof.
  unfold dot. f_equal.
  induction u as [|x u IH]; cbn in *; [reflexivity | now f_equal].
Qed.

Lemma length_series_any (xs : list F) : length (series xs) = length xs.
Proof. apply length_map. Qed.

Lemma transpose1_series_any (xs : list F) : transpose 1 (series xs) = [xs].
Proof. unfold transpose. cbn. now rewrite column0_series_any. Qed.

Lemma subtract_row_series_any (xs : list F) (mu : F) :
  subtract_row (series xs) [mu] = series (map (fun x => fsub x mu) xs).
Proof.
  unfold subtract_row, series. rewrite !map_map. reflexivity.
Qed.

Lemma square_subtract_scalar_series_any (xs : list F) (mu : F) :
  square (subtract_scalar (series xs) mu)
  = series (map (fun x => fmul (fsub x mu) (fsub x mu)) xs).
Proof.
  unfold square, subtract_scalar, series. rewrite !map_map. reflexivity.
Qed.

Lemma matmul_row_series_any (u v : list F) :
  length u = length v -> matmul 1 [u] (series v) = Ok [[dot u v]].
Proof.
  intros Hl. unfold matmul. cbn [forallb].
  rewrite length_series_any, Hl, Nat.eqb_refl. cbn.
  now rewrite column0_series_any.
Qed.

(** The correlation tensor of a one-column series with itself, in any
    arithmetic: numerator and denominator hold the same sum. *)
Lemma pearson_corr_self_any (xs : list F) :
  pearson_corr 1 (series xs) (series xs)
  = Ok [[fdiv (squared_deviations xs)
              (fadd (fsqrt (dot [squared_deviations xs] [squared_deviations xs]))
                    epsilon)]].
Proof.
  unfold pearson_corr, reduce_mean_axis0, reduce_sum_axis0, reduce_mean.
  rewrite square_subtract_scalar_series_any, !transpose1_series_any.
  rewrite concat_series_any, length_series_any.
  cbn [map]. rewrite subtract_row_series_any, transpose1_series_any.
  rewrite matmul_row_series_any by reflexivity. cbn [bind].
  rewrite dot_self_any, map_map.
  fold (squared_deviations xs).
  reflexivity.
Qed.

End SelfCorrelationAny.

Section SelfCorrelation.
Local Open Scope R_scope.

Lemma of_nat_real (n : nat) : of_nat (F := R) n = INR n.
Proof.
  unfold of_nat, of_Z. cbn. unfold Q2R. cbn.
  rewrite <- INR_IZR_INZ. lra.
Qed.

Lemma f0_real : f0 (F := R) = 0.
Proof. unfold f0. cbn. unfold Q2R. cbn. lra. Qed.

Lemma epsilon_real : epsilon (F := R) = 1 / 10000.
Proof. unfold epsilon. cbn. unfold Q2R. cbn. lra. Qed.

Lemma column0_series (xs : list R) : column 0 (series xs) = xs.
Proof.
  unfold column, series. rewrite map_map. cbn. apply map_id.
Qed.

Lemma concat_series (xs : list R) : concat (series xs) = xs.
Proof.
  unfold series. induction xs as [|x xs IH]; cbn; [reflexivity | now f_equal].
Qed.

Lemma length_series (xs : list R) : length (series xs) = length xs.
Proof. apply length_map. Qed.

Lemma transpose1_series (xs : list R) : transpose 1 (series xs) = [xs].
Proof. unfold transpose. cbn. now rewrite column0_series. Qed.

Lemma subtract_row_series (xs : list R) (mu : R) :
  subtract_row (series xs) [mu] = series (map (fun x => x - mu) xs).
Proof.
  unfold subtract_row, series. rewrite !map_map. reflexivity.
Qed.

Lemma square_subtract_scalar_series (xs : list R) (mu : R) :
  square (subtract_scalar (series xs) mu)
  = series (map (fun x => (x - mu) * (x - mu)) xs).
Proof.
  unfold square, subtract_scalar, series. rewrite !map_map. reflexivity.
Qed.

Lemma matmul_row_series (u v : list R) :
  length u = length v -> matmul 1 [u] (series v) = Ok [[dot u v]].
Proof.
  intros Hl. unfold matmul. cbn [forallb].
  rewrite length_series, Hl, Nat.eqb_refl. cbn.
  now rewrite column0_series.
Qed.

Lemma dot_self (u : list R) : dot u u = reduce_sum (map (fun x => x * x) u).
Proof.
  unfold dot. f_equal.
  induction u as [|x u IH]; cbn in *; [reflexivity | now f_equal].
Qed.

Lemma reduce_sum_nil : reduce_sum (F := R) [] = 0.
Proof. apply f0_real. Qed.

Lemma reduce_sum_cons (x : R) (u : list R) :
  reduce_sum (x :: u) = x + reduce_sum u.
Proof. reflexivity. Qed.

Lemma reduce_sum_squares_nonneg (u : list R) :
  0 <= reduce_sum (map (fun x => x * x) u).
Proof.
  induction u as [|x u IH]; cbn [map].
  - rewrite reduce_sum_nil. lra.
  - rewrite reduce_sum_cons. nra.
Qed.

Lemma reduce_sum_squares_pos (u : list R) :
  (exists x, In x u /\ x <> 0) -> 0 < reduce_sum (map (fun x => x * x) u).
Proof.
  intros (x & Hin & Hx). induction u as [|a u IH]; [contradiction|].
  cbn [map]. rewrite reduce_sum_cons.
  pose proof (reduce_sum_squares_nonneg u) as Hu.
  destruct Hin as [-> | Hin].
  - nra.
  - specialize (IH Hin). nra.
Qed.

Lemma sum_sq_dev_as_squares (xs : list R) :
  sum_sq_dev xs
  = reduce_sum (map (fun x => x * x)
                  (map (fun x => x - reduce_sum xs / INR (length xs)) xs)).
Proof. unfold sum_sq_dev. cbv zeta. now rewrite map_map. Qed.

Lemma sum_sq_dev_nonneg (xs : list R) : 0 <= sum_sq_dev xs.
Proof. rewrite sum_sq_dev_as_squares. apply reduce_sum_squares_nonneg. Qed.

Lemma sum_sq_dev_pos (xs : list R) : non_constant xs -> 0 < sum_sq_dev xs.
Proof.
  intros (a & b & Ha & Hb & Hab).
  rewrite sum_sq_dev_as_squares. apply reduce_sum_squares_pos.
  set (mu := reduce_sum xs / INR (length xs)).
  destruct (Req_dec_T a mu) as [Hamu | Hamu].
  - exists (b - mu). split; [| lra].
    apply in_map_iff. exists b. split; [reflexivity | assumption].
  - exists (a - mu). split; [| lra].
    apply in_map_iff. exists a. split; [reflexivity | assumption].
Qed.

Lemma matmul_outer_1 (a b : R) :
  matmul 1 (transpose 1 [[a]]) [[b]] = Ok [[a * b]].
Proof.
  unfold matmul, transpose, column, dot. cbn [seq map nth forallb length zip_with].
  cbn [Nat.eqb andb]. rewrite reduce_sum_cons, reduce_sum_nil.
  do 3 f_equal. cbn. lra.
Qed.

(** The correlation tensor of a one-column series with itself, for every
    series: the quotient [V / (V + epsilon)]. *)
Lemma pearson_corr_self (xs : list R) :
  pearson_corr 1 (series xs) (series xs)
  = Ok [[sum_sq_dev xs / (sum_sq_dev xs + 1 / 10000)]].
Proof.
  unfold pearson_corr, reduce_mean_axis0, reduce_sum_axis0, reduce_mean.
  rewrite square_subtract_scalar_series, !transpose1_series.
  rewrite concat_series, length_series, of_nat_real.
  cbn [map]. rewrite subtract_row_series, transpose1_series.
  rewrite matmul_row_series by reflexivity. cbn [bind].
  rewrite matmul_outer_1. cbn [bind map zip_with].
  rewrite dot_self, <- sum_sq_dev_as_squares.
  rewrite epsilon_real. cbn [fsqrt fadd fdiv real_dtype].
  change (reduce_sum
            (map (fun x => (x - reduce_sum xs / INR (length xs)) *
                           (x - reduce_sum xs / INR (length xs))) xs))
    with (sum_sq_dev xs).
  pose proof (sum_sq_dev_nonneg xs) as Hv.
  change (sum_sq_dev xs * sum_sq_dev xs) with (Rsqr (sum_sq_dev xs)).
  rewrite sqrt_Rsqr by assumption. reflexivity.
Qed.

Lemma non_constant_0_1 : non_constant [0; 1].
Proof.
  exists 0, 1. split; [now left|]. split; [right; now left | lra].
Qed.

Lemma sum_sq_dev_0_1 : sum_sq_dev [0; 1] = 1 / 2.
Proof.
  unfold sum_sq_dev. cbv zeta. cbn [map length].
  rewrite !reduce_sum_cons, reduce_sum_nil. cbn [INR]. field.
Qed.




End SelfCorrelation.

(** ** Unknown cell kinds *)

Section Build.
Context {F : Type} `{Dtype F} `{Backend F}.

(** Called directly, the builder raises an assertion error for a cell type
    it does not know, and builds no tensor. *)
Lemma create_unknown_cell (self : instance F) (w : world F)
      (n : option Z) (reset : bool) :
  cell_kind_of (cell_type (hp self)) = None ->
  exists msg self',
    create_lstm_graph n reset (self, w) = (Raise (AssertionError msg), (self', w)) /\
    graph_keys self' = graph_keys self /\
    model_saver self' = model_saver self.
Proof.
  intros Hkind. unfold create_lstm_graph, fbind, get, modify, lift, raise.
  destruct n as [k|]; cbn.
  - rewrite Hkind. do 2 eexists. repeat split; reflexivity.
  - destruct (n_input_features (hp self)); cbn.
    + rewrite Hkind. do 2 eexists. repeat split; reflexivity.
    + do 2 eexists. repeat split; reflexivity.
Qed.

(** C7, amended.  For a cell type that, upper-cased, is none of LSTM, GRU
    and RNN: a direct call of the graph builder raises an assertion error
    that reaches its caller; the constructor with graph creation enabled
    catches it, prints its two messages, leaves [graph_ready] false with no
    tensors and no saver, and returns the instance normally. *)
Theorem unknown_cell_kind (args : hyperparameters F) (w : world F) :
  cell_kind_of (upper (cell_type args)) = None ->
  (exists self0,
     LSTM args false w = (Ok self0, w) /\
     forall n reset, exists msg self',
       create_lstm_graph n reset (self0, w)
       = (Raise (AssertionError msg), (self', w))) /\
  (exists self1 w1,
     LSTM args true w = (Ok self1, w1) /\
     graph_ready self1 = false /\
     graph_keys self1 = None /\
     model_saver self1 = false /\
     log w1 = log w /\
     stdout w1 = stdout w ++
       ["Exception occurred during graph creation.  Check input parameters, especially n_input_features.";
        "Exception message: "]).
Proof.
  intros Hkind. split.
  - eexists. split; [reflexivity|].
    intros n reset.
    destruct (create_unknown_cell
                {| hp := set_cell_type args (upper (cell_type args));
                   sessid := None; graph := None; graph_keys := None;
                   graph_ready := false; graph_trained := false;
                   trained_epochs := 0; model_saver := false;
                   res := cleared_results |} w n reset Hkind)
      as (msg & self' & Heq & _).
    exists msg, self'. exact Heq.
  - unfold LSTM, try_except, fbind.
    destruct (create_unknown_cell
                {| hp := set_cell_type args (upper (cell_type args));
                   sessid := None; graph := None; graph_keys := None;
                   graph_ready := false; graph_trained := false;
                   trained_epochs := 0; model_saver := false;
                   res := cleared_results |} w (n_input_features args) true Hkind)
      as (msg & self' & Heq & Hkeys & Hsaver).
    rewrite Heq. cbn.
    do 2 eexists. split; [reflexivity|]. cbn.
    repeat split; try assumption.
    rewrite <- app_assoc. reflexivity.
Qed.

End Build.

(** The constructor on the cell type [xyz]. *)
Lemma unknown_cell_kind_witness :
  cell_kind_of (upper "xyz") = None /\
  exists self1 w1,
    LSTM (default_hyperparameters "xyz") true empty_world = (Ok self1, w1) /\
    graph_ready self1 = false.
Proof.
  split; [reflexivity|].
  destruct (unknown_cell_kind (default_hyperparameters "xyz") empty_world eq_refl)
    as [_ (self1 & w1 & Heq & Hready & _)].
  exists self1, w1. split; assumption.
Defined.

(** C7, the claim as stated fails: constructing an instance with the cell
    type [xyz] and graph creation enabled raises nothing. *)
Lemma unknown_cell_kind_not_surfaced :
  cell_kind_of (upper "xyz") = None /\
  is_ok (fst (LSTM (default_hyperparameters "xyz") true empty_world)) = true.
Proof. split; reflexivity. Qed.

(** ** The learning-rate schedule *)

Section Schedule.
Context `{Backend R}.
Local Open Scope R_scope.

Lemma Int_part_IZR (z : Z) : Int_part (IZR z) = z.
Proof.
  unfold Int_part.
  assert (Hup : (z + 1)%Z = up (IZR z)).
  { apply tech_up; rewrite plus_IZR; lra. }
  rewrite <- Hup. lia.
Qed.

Lemma real_pow_integer (x : R) (z : Z) : real_pow x (IZR z) = powerRZ x z.
Proof.
  unfold real_pow. rewrite Int_part_IZR.
  destruct (Req_dec_T (IZR z) (IZR z)); [reflexivity | contradiction].
Qed.

Lemma real_pow_0 (x : R) : real_pow x 0 = 1.
Proof. rewrite (real_pow_integer x 0). reflexivity. Qed.

Lemma real_pow_1 (x : R) : real_pow x 1 = x.
Proof. rewrite (real_pow_integer x 1). apply powerRZ_1. Qed.

(** On a positive base the two branches of the power agree. *)
Lemma real_pow_positive (x y : R) : 0 < x -> real_pow x y = Rpower x y.
Proof.
  intros Hx. unfold real_pow.
  destruct (Req_dec_T y (IZR (Int_part y))) as [Hy|]; [|reflexivity].
  rewrite Hy at 2. apply powerRZ_Rpower. assumption.
Qed.

End Schedule.

Section ScheduleSteps.
Context `{Backend xreal}.
Local Open Scope R_scope.

Lemma xpow_0 (d : R) : xpow (Some d) (Some 0) = Some 1.
Proof.
  unfold xpow.
  assert (Hi : 0 = IZR (Int_part 0)) by (now rewrite (Int_part_IZR 0)).
  destruct (Req_dec_T 0 (IZR (Int_part 0))) as [_|Hn]; [|contradiction].
  rewrite real_pow_0.
  destruct (Req_dec_T d 0); [|reflexivity].
  destruct (Rlt_dec 0 0); [lra | reflexivity].
Qed.

Lemma xpow_1 (d : R) : xpow (Some d) (Some 1) = Some d.
Proof.
  unfold xpow.
  assert (Hi : 1 = IZR (Int_part 1)) by (now rewrite (Int_part_IZR 1)).
  destruct (Req_dec_T 1 (IZR (Int_part 1))) as [_|Hn]; [|contradiction].
  rewrite real_pow_1.
  destruct (Req_dec_T d 0); [|reflexivity].
  destruct (Rlt_dec 1 0); [lra | reflexivity].
Qed.

Lemma xpow_positive (d b : R) : 0 < d -> xpow (Some d) (Some b) = Some (Rpower d b).
Proof.
  intros Hd. unfold xpow. rewrite real_pow_positive by assumption.
  destruct (Req_dec_T b (IZR (Int_part b))).
  - destruct (Req_dec_T d 0); [lra | reflexivity].
  - destruct (Rlt_dec 0 d); [reflexivity | contradiction].
Qed.

Lemma xdiv_finite (a b : R) : b <> 0 -> xdiv (Some a) (Some b) = Some (a / b).
Proof.
  intros Hb. unfold xdiv. destruct (Req_dec_T b 0); [contradiction | reflexivity].
Qed.


End ScheduleSteps.



(** ** The training loss sees the in-sample rows only *)

Lemma firstn_imap {A B} (f : nat -> A -> B) (n : nat) (l : list A) :
  firstn n (imap f l) = imap f (firstn n l).
Proof.
  revert f n. induction l as [|x l IH]; intros f n.
  - now destruct n.
  - destruct n as [|n]; [reflexivity|].
    cbn. f_equal. apply IH.
Qed.

Lemma slice_to_imap {A B} (f : nat -> A -> B) (c : Z) (l : list A) :
  slice_to c (imap f l) = imap f (slice_to c l).
Proof.
  destruct (slices_split c (imap f l)) as [-> _].
  destruct (slices_split c l) as [-> _].
  rewrite length_imap. apply firstn_imap.
Qed.

Section TrainingLoss.
Context {F : Type} `{Dtype F} `{Backend F}.

(** The loss is a function of the in-sample slices of its two tensors. *)
Lemma loss_in_sample (l1 l2 : F) (tv : list (list F)) (c : Z)
      (y y' P P' : matrix F) :
  slice_to c y = slice_to c y' ->
  slice_to c P = slice_to c P' ->
  loss l1 l2 tv c y P = loss l1 l2 tv c y' P'.
Proof.
  intros Hy HP. unfold loss, y_is, pred_is. now rewrite Hy, HP.
Qed.

(** The in-sample rows of the predictions come from the in-sample rows of
    the input. *)
Lemma pred_in_sample (g : graph_tensors F) (v : variables) (rs : rng) (c : Z)
      (X X' : block F) :
  slice_to c X = slice_to c X' ->
  slice_to c (pred g v rs X) = slice_to c (pred g v rs X').
Proof.
  intros HX. unfold pred. now rewrite !slice_to_imap, HX.
Qed.

End TrainingLoss.

(** ** The gradient of the training loss *)

Lemma slice_to_length {A} (c : Z) (t : list A) :
  length (slice_to c t) = Z.to_nat (canonical (Z.of_nat (length t)) c).
Proof.
  destruct (slices_split c t) as [-> _].
  pose proof (canonical_range (Z.of_nat (length t)) c ltac:(lia)).
  rewrite length_firstn. lia.
Qed.

Lemma same_shape_length {F} `{Dtype F} (a b : matrix F) :
  same_shape a b = true -> length a = length b.
Proof.
  unfold same_shape. intros Hs. apply andb_true_iff in Hs as [Hl _].
  now apply Nat.eqb_eq.
Qed.

Section Gradient.
Context `{Backend xreal}.

Lemma f0_xreal : f0 (F := xreal) = Some 0%R.
Proof. unfold f0. cbn. f_equal. unfold Q2R. cbn. lra. Qed.

Lemma reduce_sum_xzeros (l : list xreal) :
  Forall (fun x => x = Some 0%R) l -> reduce_sum l = Some 0%R.
Proof.
  induction 1 as [|x l Hx _ IH]; [apply f0_xreal|].
  unfold reduce_sum in *. cbn [fold_right].
  rewrite IH, Hx. cbn. f_equal. lra.
Qed.

Lemma reduce_sum_app_xzeros (l z : list xreal) :
  reduce_sum z = Some 0%R -> reduce_sum (l ++ z) = reduce_sum l.
Proof.
  intros Hz. unfold reduce_sum in *.
  now rewrite fold_right_app, Hz, <- f0_xreal.
Qed.

Lemma zip_xzeros_r (u z : list xreal) :
  forallb isfinite u = true ->
  Forall (fun x => x = Some 0%R) z ->
  Forall (fun x => x = Some 0%R) (zip_with fmul u z).
Proof.
  revert z. induction u as [|a u IH]; intros z Hu Hz; [constructor|].
  destruct z as [|b z]; [constructor|].
  cbn in Hu. apply andb_true_iff in Hu as [Ha Hu].
  inversion Hz as [|? ? Hb Hz']; subst.
  cbn [zip_with]. constructor; [|now apply IH].
  destruct a as [a|]; [|discriminate]. cbn. f_equal. lra.
Qed.

Lemma zip_xzeros_l (z u : list xreal) :
  forallb isfinite u = true ->
  Forall (fun x => x = Some 0%R) z ->
  Forall (fun x => x = Some 0%R) (zip_with fmul z u).
Proof.
  revert u. induction z as [|b z IH]; intros u Hu Hz; [constructor|].
  destruct u as [|a u]; [constructor|].
  cbn in Hu. apply andb_true_iff in Hu as [Ha Hu].
  inversion Hz as [|? ? Hb Hz']; subst.
  cbn [zip_with]. constructor; [|now apply IH].
  destruct a as [a|]; [|discriminate]. cbn. f_equal. lra.
Qed.

Lemma dot_xzeros_r (u z : list xreal) :
  forallb isfinite u = true ->
  Forall (fun x => x = Some 0%R) z -> dot u z = Some 0%R.
Proof. intros Hu Hz. apply reduce_sum_xzeros. now apply zip_xzeros_r. Qed.

Lemma dot_xzeros_l (z u : list xreal) :
  forallb isfinite u = true ->
  Forall (fun x => x = Some 0%R) z -> dot z u = Some 0%R.
Proof. intros Hu Hz. apply reduce_sum_xzeros. now apply zip_xzeros_l. Qed.

Lemma dot_app_xzeros (u1 u2 v1 v2 : list xreal) :
  length u1 = length v1 ->
  dot u2 v2 = Some 0%R ->
  dot (u1 ++ u2) (v1 ++ v2) = dot u1 v1.
Proof.
  intros Hl Hz. unfold dot in *.
  rewrite zip_with_app by assumption.
  now apply reduce_sum_app_xzeros.
Qed.

Lemma column_app (j : nat) (a b : matrix xreal) :
  column j (a ++ b) = column j a ++ column j b.
Proof. apply map_app. Qed.

Lemma column_xzeros (j : nat) (m : matrix xreal) :
  Forall (Forall (fun x => x = Some 0%R)) m ->
  Forall (fun x => x = Some 0%R) (column j m).
Proof.
  intros Hm. unfold column. rewrite List.Forall_forall in *.
  intros x Hx. apply in_map_iff in Hx as (row & <- & Hrow).
  specialize (Hm row Hrow). rewrite List.Forall_forall in Hm.
  destruct (nth_in_or_default j row f0) as [Hin | ->]; [now apply Hm | apply f0_xreal].
Qed.

Lemma column_finite (j : nat) (m : matrix xreal) :
  forallb (forallb isfinite) m = true ->
  forallb isfinite (column j m) = true.
Proof.
  intros Hm. unfold column. rewrite forallb_forall in *.
  intros x Hx. apply in_map_iff in Hx as (row & <- & Hrow).
  specialize (Hm row Hrow). rewrite forallb_forall in Hm.
  destruct (nth_in_or_default j row f0) as [Hin | ->]; [now apply Hm | reflexivity].
Qed.

Lemma reduce_sum_axis0_app_xzeros (k : nat) (m z : matrix xreal) :
  Forall (Forall (fun x => x = Some 0%R)) z ->
  reduce_sum_axis0 k (m ++ z) = reduce_sum_axis0 k m.
Proof.
  intros Hz. unfold reduce_sum_axis0, transpose. rewrite !map_map.
  apply map_ext. intros j. rewrite column_app.
  apply reduce_sum_app_xzeros, reduce_sum_xzeros, column_xzeros, Hz.
Qed.

(** The rows of the states' gradient that come from zero rows of the
    predictions' gradient are zero when the weights are finite, and so are
    their contributions to the variables of the cells when the derivatives
    are finite. *)
Lemma cell_rows_xzeros (n_units : nat) (W : matrix xreal) (J : list (matrix xreal))
      (z : matrix xreal) :
  forallb (forallb isfinite) W = true ->
  forallb (forallb (forallb isfinite)) J = true ->
  Forall (Forall (fun x => x = Some 0%R)) z ->
  Forall (Forall (fun x => x = Some 0%R))
    (zip_with (fun Ji dh => map (fun Jp => dot Jp dh) Ji) J
       (map (fun row => map (fun j => dot row (nth j W [])) (seq 0 n_units)) z)).
Proof.
  intros HW. revert z. induction J as [|Ji J IH]; intros z HJ Hz; [constructor|].
  destruct z as [|row z]; [constructor|].
  cbn in HJ. apply andb_true_iff in HJ as [HJi HJ].
  inversion Hz as [|? ? Hrow Hz']; subst.
  cbn [map zip_with]. constructor; [|now apply IH].
  rewrite List.Forall_forall. intros e He.
  apply in_map_iff in He as (Jp & <- & HJp).
  rewrite forallb_forall in HJi.
  apply dot_xzeros_r; [now apply HJi|].
  rewrite List.Forall_forall. intros e He.
  apply in_map_iff in He as (j & <- & _).
  apply dot_xzeros_l; [|exact Hrow].
  destruct (nth_in_or_default j W []) as [Hin | ->]; [|reflexivity].
  rewrite forallb_forall in HW. now apply HW.
Qed.

(** Rows of the batch whose gradient of the prediction is zero drop out of
    the gradient when their states and derivatives are finite. *)
Lemma dense_backward_xzeros (k n_units n_cells : nat) (W h1 h2 : matrix xreal)
      (J1 J2 : list (matrix xreal)) (G z : matrix xreal) :
  length h1 = length G -> length J1 = length G ->
  forallb (forallb isfinite) h2 = true ->
  forallb (forallb (forallb isfinite)) J2 = true ->
  forallb (forallb isfinite) W = true ->
  Forall (Forall (fun x => x = Some 0%R)) z ->
  dense_backward k n_units n_cells W (h1 ++ h2) (J1 ++ J2) (G ++ z)
  = dense_backward k n_units n_cells W h1 J1 G.
Proof.
  intros Hh HJ Fh FJ FW Hz. unfold dense_backward. f_equal.
  - rewrite map_app, zip_with_app by (now rewrite length_map).
    apply reduce_sum_axis0_app_xzeros. now apply cell_rows_xzeros.
  - apply map_ext. intros j. apply map_ext. intros o.
    rewrite !column_app. apply dot_app_xzeros.
    + unfold column. now rewrite !length_map.
    + apply dot_xzeros_r; [now apply column_finite | now apply column_xzeros].
  - now apply reduce_sum_axis0_app_xzeros.
Qed.

Lemma dense_backward_in_sample (k n_units n_cells : nat) (W h : matrix xreal)
      (J : list (matrix xreal)) (P y : matrix xreal) (c : Z) :
  length h = length P -> length J = length P ->
  same_shape (y_is c y) (pred_is c P) = true ->
  forallb (forallb isfinite) (slice_from c h) = true ->
  forallb (forallb (forallb isfinite)) (slice_from c J) = true ->
  forallb (forallb isfinite) W = true ->
  dense_backward k n_units n_cells W h J (loss_grad_pred c y P)
  = dense_backward k n_units n_cells W (slice_to c h) (slice_to c J)
      (zip_with (zip_with (fun yv pv => fsub f0 (fsub yv pv)))
         (y_is c y) (pred_is c P)).
Proof.
  intros Hh HJ Hs Fh FJ FW.
  rewrite <- (slices_app c h) at 1. rewrite <- (slices_app c J) at 1.
  unfold loss_grad_pred.
  apply same_shape_length in Hs.
  assert (Hn : length (zip_with (zip_with (fun yv pv : xreal => fsub f0 (fsub yv pv)))
                         (y_is c y) (pred_is c P))
               = length (slice_to c P)).
  { rewrite length_zip_with, Hs. unfold pred_is. lia. }
  apply dense_backward_xzeros; try assumption.
  - rewrite Hn, !slice_to_length, Hh. reflexivity.
  - rewrite Hn, !slice_to_length, HJ. reflexivity.
  - rewrite List.Forall_forall. intros row Hrow.
    apply in_map_iff in Hrow as (row' & <- & _).
    rewrite List.Forall_forall. intros e He.
    apply in_map_iff in He as (e' & <- & _). apply f0_xreal.
Qed.

(** With finite states, derivatives and weights on the rows from the cutoff
    on, the gradient is that of the in-sample rows. *)
Lemma loss_gradient_in_sample (g : graph_tensors xreal) (v : variables) (rs : rng)
      (X X' : block xreal) (y y' : matrix xreal) (c : Z) :
  slice_to c X = slice_to c X' ->
  slice_to c y = slice_to c y' ->
  finite_out_of_sample g v rs c X = true ->
  finite_out_of_sample g v rs c X' = true ->
  is_ok (graph_loss g rs X y c v) = true ->
  loss_gradient g v rs X y c = loss_gradient g v rs X' y' c.
Proof.
  intros HX Hy FX FX' Hok.
  assert (Hp : pred_is c (pred g v rs X) = pred_is c (pred g v rs X'))
    by now apply pred_in_sample.
  assert (Hs : same_shape (y_is c y) (pred_is c (pred g v rs X)) = true).
  { unfold graph_loss, loss, subtract in Hok.
    destruct (same_shape (y_is c y) (pred_is c (pred g v rs X)));
      [reflexivity | discriminate Hok]. }
  assert (Hs' : same_shape (y_is c y') (pred_is c (pred g v rs X')) = true).
  { rewrite <- Hp. unfold y_is in *. now rewrite <- Hy. }
  unfold finite_out_of_sample in FX, FX'.
  apply andb_true_iff in FX as [FX FW]. apply andb_true_iff in FX as [Fh FJ].
  apply andb_true_iff in FX' as [FX' _]. apply andb_true_iff in FX' as [Fh' FJ'].
  unfold loss_gradient.
  rewrite !dense_backward_in_sample; try assumption;
    try (unfold pred; now rewrite !length_imap).
  rewrite !slice_to_imap, <- HX, <- Hp. unfold y_is. now rewrite <- Hy.
Qed.

Lemma run_optimizer_in_sample (g : graph_tensors xreal) (v : variables) (rs : rng)
      (X X' : block xreal) (y y' : matrix xreal) (c : Z) (kp gs : xreal) :
  slice_to c X = slice_to c X' ->
  slice_to c y = slice_to c y' ->
  finite_out_of_sample g v rs c X = true ->
  finite_out_of_sample g v rs c X' = true ->
  run_optimizer g v rs X y kp c gs = run_optimizer g v rs X' y' kp c gs.
Proof.
  intros HX Hy FX FX'. unfold run_optimizer.
  assert (Hloss : graph_loss g rs X y c v = graph_loss g rs X' y' c v).
  { unfold graph_loss. apply loss_in_sample; [assumption | now apply pred_in_sample]. }
  destruct (graph_loss g rs X y c v) as [l|e] eqn:Hl; rewrite <- Hloss; cbn [bind];
    [|reflexivity].
  rewrite (loss_gradient_in_sample g v rs X X' y y' c HX Hy FX FX'); [reflexivity|].
  now rewrite Hl.
Qed.

(** C1, amended.  For two batches that agree on the rows [0:c] of [X] and
    of [y], the training loss is the same for the same variables, whatever
    the rows from [c] on hold.  The gradient of the loss, and with it the
    step of the optimizer, is the same when in both batches the rows from
    [c] on have finite final states and derivatives and the dense weights
    are finite: back-propagation multiplies the zero gradient of such a row
    with the state of the row. *)
Theorem training_loss_in_sample_only (g : graph_tensors xreal) (rs : rng)
        (X X' : block xreal) (y y' : matrix xreal) (c : Z) :
  slice_to c X = slice_to c X' ->
  slice_to c y = slice_to c y' ->
  (forall v, graph_loss g rs X y c v = graph_loss g rs X' y' c v) /\
  (forall v,
     finite_out_of_sample g v rs c X = true ->
     finite_out_of_sample g v rs c X' = true ->
     (is_ok (graph_loss g rs X y c v) = true ->
      loss_gradient g v rs X y c = loss_gradient g v rs X' y' c) /\
     (forall fed_keep_prob global_step,
        run_optimizer g v rs X y fed_keep_prob c global_step
        = run_optimizer g v rs X' y' fed_keep_prob c global_step)) /\
  (forall epoch_end' i st g0,
     graph_keys (self st) = Some g0 ->
     finite_out_of_sample g0 (sess st) (tf_random (env st)) c X = true ->
     finite_out_of_sample g0 (sess st) (tf_random (env st)) c X' = true ->
     optimizer_run epoch_end' i X y c st = optimizer_run epoch_end' i X' y' c st).
Proof.
  intros HX Hy. split; [|split].
  - intros v. unfold graph_loss.
    apply loss_in_sample; [assumption | now apply pred_in_sample].
  - intros v FX FX'. split.
    + now apply loss_gradient_in_sample.
    + intros kp gs. now apply run_optimizer_in_sample.
  - intros epoch_end' i st g0 Hg FX FX'.
    unfold optimizer_run, the_graph_keys, fbind, get. rewrite Hg. cbn [ret].
    destruct (lift (py_truediv i epoch_end') st) as [[gs|e] st1] eqn:Hdiv;
      [|reflexivity].
    assert (st1 = st) as ->.
    { unfold lift in Hdiv. destruct (py_truediv i epoch_end'); now inversion Hdiv. }
    now rewrite (run_optimizer_in_sample g0 (sess st) (tf_random (env st))
                   X X' y y' c (keep_prob (hp (self st))) gs HX Hy FX FX').
Qed.

End Gradient.

(** C1, the claim as stated fails: the two batches agree on their first
    row and give the same training loss at cutoff 1, but the second row of
    [batch_b_X] holds a NaN, its final state is not finite, and the product
    of that state with the zero gradient of the row makes the gradient of
    [W_fc1] NaN, where the gradient of the first batch is finite. *)
Lemma gradient_reads_rows_after_cutoff :
  slice_to 1 batch_a_X = slice_to 1 batch_b_X /\
  slice_to 1 batch_a_y = slice_to 1 batch_b_y /\
  graph_loss (H0 := echo_backend) echo_graph 0%nat batch_a_X batch_a_y 1 echo_weights
  = graph_loss (H0 := echo_backend) echo_graph 0%nat batch_b_X batch_b_y 1 echo_weights /\
  is_ok (graph_loss (H0 := echo_backend) echo_graph 0%nat batch_a_X batch_a_y 1
           echo_weights) = true /\
  forallb (forallb isfinite)
    (d_W_fc1 (loss_gradient (H0 := echo_backend) echo_graph echo_weights 0%nat
                batch_a_X batch_a_y 1)) = true /\
  forallb (forallb isfinite)
    (d_W_fc1 (loss_gradient (H0 := echo_backend) echo_graph echo_weights 0%nat
                batch_b_X batch_b_y 1)) = false /\
  loss_gradient (H0 := echo_backend) echo_graph echo_weights 0%nat batch_a_X batch_a_y 1
  <> loss_gradient (H0 := echo_backend) echo_graph echo_weights 0%nat batch_b_X batch_b_y 1.
Proof.
  assert (Ha : forallb (forallb isfinite)
                 (d_W_fc1 (loss_gradient (H0 := echo_backend) echo_graph echo_weights
                             0%nat batch_a_X batch_a_y 1)) = true) by reflexivity.
  assert (Hb : forallb (forallb isfinite)
                 (d_W_fc1 (loss_gradient (H0 := echo_backend) echo_graph echo_weights
                             0%nat batch_b_X batch_b_y 1)) = false) by reflexivity.
  repeat split; try reflexivity; try assumption.
  intros Heq. rewrite Heq, Hb in Ha. discriminate Ha.
Qed.

(** The batches [batch_a] and [batch_c], finite, with one row in sample. *)
Lemma training_loss_in_sample_only_witness :
  is_ok (run_optimizer (H0 := echo_backend) echo_graph echo_weights 0%nat
           batch_a_X batch_a_y (Some 1%R) 1 (Some 1%R)) = true /\
  forall fed_keep_prob global_step,
    run_optimizer (H0 := echo_backend) echo_graph echo_weights 0%nat
      batch_a_X batch_a_y fed_keep_prob 1 global_step
    = run_optimizer (H0 := echo_backend) echo_graph echo_weights 0%nat
        batch_c_X batch_c_y fed_keep_prob 1 global_step.
Proof.
  split; [reflexivity|].
  exact (proj2 (proj1 (proj2
           (training_loss_in_sample_only (H := echo_backend) echo_graph 0%nat
              batch_a_X batch_c_X batch_a_y batch_c_y 1 eq_refl eq_refl))
           echo_weights eq_refl eq_refl)).
Defined.

(** ** Batches with non-finite entries are skipped *)

Section Skip.
Context {F : Type} `{Dtype F} `{Backend F}.

Lemma count_finite (l : list F) :
  (len (List.filter isfinite l) =? len l) = forallb isfinite l.
Proof.
  unfold len.
  assert (Hle : forall l' : list F,
             (length (List.filter isfinite l') <= length l')%nat).
  { intros l'. induction l' as [|x l' IH]; cbn; [lia|].
    destruct (isfinite x); cbn; lia. }
  induction l as [|x l IH]; [reflexivity|].
  cbn [List.filter forallb]. destruct (isfinite x); cbn [length andb].
  - rewrite <- IH. destruct (Z.eqb_spec (Z.of_nat (length (List.filter isfinite l)))
                                        (Z.of_nat (length l)));
      destruct (Z.eqb_spec (Z.of_nat (S (length (List.filter isfinite l))))
                           (Z.of_nat (S (length l)))); lia || reflexivity.
  - specialize (Hle l).
    destruct (Z.eqb_spec (Z.of_nat (length (List.filter isfinite l)))
                         (Z.of_nat (S (length l)))); [lia | reflexivity].
Qed.

Lemma all_finite_array3 (X : block F) :
  all_finite (NpArray3 X) = Ok (forallb isfinite (concat (concat X))).
Proof. unfold all_finite. cbn. now rewrite count_finite. Qed.

Lemma all_finite_array2 (y : matrix F) :
  all_finite (NpArray2 y) = Ok (forallb isfinite (concat y)).
Proof. unfold all_finite. cbn. now rewrite count_finite. Qed.

(** The loop body on such an element: nothing changes but
    [total_sample_size], and nothing is raised. *)
Lemma batch_step_skips (args : train_args F) (i : Z) (lv : loop_vars F)
      (it : item F) (st : tstate F) :
  nonfinite_batch it = true ->
  exists n, batch_step args i lv it st = (Ok (with_total lv n), st).
Proof.
  intros Hbad. unfold nonfinite_batch in Hbad.
  destruct it as [fields | v]; [|discriminate].
  destruct fields as [|[| | | | | | |X] fields]; try discriminate.
  destruct fields as [|[| | | | | |y|] fields]; try discriminate.
  do 5 (destruct fields as [|? fields]; try discriminate).
  destruct fields; [|discriminate].
  exists (len X). unfold batch_step, fbind, lift, ret. cbn [unpack7 bind].
  cbn [b_batch_X b_batch_y shape_at np_shape bind nth_error].
  rewrite all_finite_array3.
  unfold has_nonfinite in Hbad.
  destruct (forallb isfinite (concat (concat X))); cbn [negb].
  - rewrite all_finite_array2.
    cbn [negb orb] in Hbad.
    destruct (forallb isfinite (concat y)); [discriminate | reflexivity].
  - reflexivity.
Qed.

(** The loop body reads the loop variables through the accumulators only. *)
Lemma batch_step_accumulators (args : train_args F) (i : Z) (lv lv2 : loop_vars F)
      (it : item F) :
  same_accumulators lv lv2 ->
  batch_step args i lv it = batch_step args i lv2 it.
Proof.
  destruct lv, lv2. intros (Ha & Hp & Hl & Hlo). cbn in *. subst.
  reflexivity.
Qed.

Lemma batch_step_feeder (args : train_args F) (f : option (Z -> list (item F)))
      (i : Z) (lv : loop_vars F) (it : item F) :
  batch_step (set_data_feeder args f) i lv it = batch_step args i lv it.
Proof. reflexivity. Qed.

End Skip.

Section SkipEpoch.
Context {F : Type} `{Dtype F} `{Backend F}.

Lemma batch_loop_cons (args : train_args F) (i : Z) (lv : loop_vars F)
      (it : item F) (rest : list (item F)) (st : tstate F) :
  batch_loop args i lv (it :: rest) st
  = match batch_step args i lv it st with
    | (Ok lv', st') => batch_loop args i lv' rest st'
    | (Raise e, st') => (Raise e, st')
    end.
Proof. reflexivity. Qed.

Lemma keep_finite_cons (it : item F) (items : list (item F)) :
  keep_finite (it :: items)
  = if nonfinite_batch it then keep_finite items else it :: keep_finite items.
Proof. unfold keep_finite. cbn. now destruct (nonfinite_batch it). Qed.

(** Two runs end alike: in the same state, both normally or both with the
    same exception. *)
Lemma batch_loop_filtered (args : train_args F) (f : option (Z -> list (item F)))
      (i : Z) (items : list (item F)) :
  forall (lv lv2 : loop_vars F) (st : tstate F),
    same_accumulators lv lv2 ->
    snd (batch_loop args i lv items st)
    = snd (batch_loop (set_data_feeder args f) i lv2 (keep_finite items) st) /\
    match fst (batch_loop args i lv items st),
          fst (batch_loop (set_data_feeder args f) i lv2 (keep_finite items) st) with
    | Ok a, Ok b => same_accumulators a b
    | Raise e1, Raise e2 => e1 = e2
    | _, _ => False
    end.
Proof.
  induction items as [|it items IH]; intros lv lv2 st Hacc.
  - cbn. split; [reflexivity | assumption].
  - rewrite keep_finite_cons, batch_loop_cons.
    destruct (nonfinite_batch it) eqn:Hbad.
    + destruct (batch_step_skips args i lv it st Hbad) as [n Hstep].
      rewrite Hstep. apply IH. destruct lv, lv2. exact Hacc.
    + rewrite batch_loop_cons, batch_step_feeder.
      rewrite <- (batch_step_accumulators args i lv lv2 it Hacc).
      destruct (batch_step args i lv it st) as [[lv'|e] st'].
      * apply IH. repeat split.
      * cbn. split; reflexivity.
Qed.

Lemma epoch_finish_accumulators (i : Z) (lv lv2 : loop_vars F) :
  same_accumulators lv lv2 -> epoch_finish i lv = epoch_finish i lv2.
Proof.
  destruct lv, lv2. intros (Ha & Hp & Hl & Hlo). cbn in *. subst.
  reflexivity.
Qed.

Lemma run_epoch_filtered (args : train_args F) (f : Z -> list (item F))
      (i : Z) (t1 t2 : option Z) (st : tstate F) :
  snd (run_epoch args (UserFeeder f) i t1 st)
  = snd (run_epoch (set_data_feeder args (Some (without_nonfinite f)))
                   (UserFeeder (without_nonfinite f)) i t2 st) /\
  match fst (run_epoch args (UserFeeder f) i t1 st),
        fst (run_epoch (set_data_feeder args (Some (without_nonfinite f)))
                       (UserFeeder (without_nonfinite f)) i t2 st) with
  | Ok _, Ok _ => True
  | Raise e1, Raise e2 => e1 = e2
  | _, _ => False
  end.
Proof.
  unfold run_epoch, fbind. cbn [get log_info modify lift call_feeder].
  set (st1 := with_env st _).
  destruct (batch_loop_filtered args (Some (without_nonfinite f)) i (f i)
              (epoch_start t1) (epoch_start t2) st1) as [Hst Hres].
  { repeat split. }
  change (without_nonfinite f i) with (keep_finite (f i)).
  destruct (batch_loop args i (epoch_start t1) (f i) st1) as [[lv|e] sta];
    destruct (batch_loop (set_data_feeder args (Some (without_nonfinite f))) i
                (epoch_start t2) (keep_finite (f i)) st1) as [[lv2|e2] stb];
    cbn in Hst, Hres; subst; try contradiction.
  - rewrite (epoch_finish_accumulators i lv lv2 Hres).
    destruct (epoch_finish i lv2 stb) as [[[]|e] stc]; cbn; split; reflexivity || exact I.
  - cbn. split; reflexivity.
Qed.

Lemma epoch_loop_filtered (args : train_args F) (f : Z -> list (item F)) (n : nat) :
  forall (i : Z) (t1 t2 : option Z) (st : tstate F),
    epoch_loop n args (UserFeeder f) i t1 st
    = epoch_loop n (set_data_feeder args (Some (without_nonfinite f)))
                 (UserFeeder (without_nonfinite f)) i t2 st.
Proof.
  induction n as [|n IH]; intros i t1 t2 st; [reflexivity|].
  cbn [epoch_loop]. unfold fbind.
  destruct (run_epoch_filtered args f i t1 t2 st) as [Hst Hres].
  destruct (run_epoch args (UserFeeder f) i t1 st) as [[ta|e] sta];
    destruct (run_epoch (set_data_feeder args (Some (without_nonfinite f)))
                (UserFeeder (without_nonfinite f)) i t2 st) as [[tb|e2] stb];
    cbn in Hst, Hres; subst; try contradiction.
  - apply IH.
  - reflexivity.
Qed.

End SkipEpoch.

Section SkipTrain.
Context {F : Type} `{Dtype F} `{Backend F}.

Lemma bound_feeder_user (args : train_args F) (f : Z -> list (item F))
      (f' : Z -> list (item F)) :
  bound_feeder args = UserFeeder f ->
  bound_feeder (set_data_feeder args (Some f')) = UserFeeder f'.
Proof.
  unfold bound_feeder. cbn.
  destruct (negb (is_none (batch_X args)) && negb (is_none (batch_y args)) &&
            negb (is_none (in_sample_size args)) &&
            negb (is_none (y_is_mean args)) && negb (is_none (y_is_std args)));
    [discriminate | reflexivity].
Qed.

End SkipTrain.

(** ** Checkpoint failures *)

Section Checkpoints.
Context {F : Type} `{Dtype F} `{Backend F}.

Lemma restore_checkpoint_state (name : string) (s : instance F * world F) :
  snd (restore_checkpoint name s) = s.
Proof.
  unfold restore_checkpoint, fbind, get, lift, raise.
  now destruct (model_saver (fst s)).
Qed.

(** Saving never raises, and touches the world only. *)
Lemma save_checkpoints_ok (i : Z) (st : tstate F) :
  exists w', save_checkpoints i st = (Ok tt, with_env st w').
Proof.
  unfold save_checkpoints, try_except, fbind, get, lift, modify, log_info, saver_save.
  destruct (writable (env st) _); cbn.
  - destruct (writable (env st) _); cbn; eexists; reflexivity.
  - eexists; reflexivity.
Qed.

Lemma save_checkpoints_failed (i : Z) (st : tstate F) :
  writable (env st)
    (path_join (model_dir (hp (self st))) (epoch_ckpt (sessid_str (self st)) i))
  = false ->
  save_checkpoints i st
  = (Ok tt, with_env st (logged (env st) (LogInfo "Model checkpoint save unsuccessful"))).
Proof.
  intros Hw.
  unfold save_checkpoints, try_except, fbind, get, lift, modify, log_info, saver_save.
  rewrite Hw. reflexivity.
Qed.

Lemma epoch_finish_ok (i : Z) (lv : loop_vars F) (st : tstate F)
      (a p : matrix F) :
  actual_oos lv = Some a -> predicted_oos lv = Some p ->
  (len a =? len p) && (len (hd [] a) =? len (hd [] p)) = true ->
  exists st', epoch_finish i lv st = (Ok tt, st') /\
              sess st' = sess st /\ gradient_steps st' = gradient_steps st.
Proof.
  intros Ha Hp Hshape. unfold epoch_finish. rewrite Ha, Hp.
  unfold fbind, lift, py_assert, get, log_info, modify. rewrite Hshape.
  cbn beta iota.
  match goal with
  | |- context [save_checkpoints i ?s] =>
      destruct (save_checkpoints_ok i s) as [w' Hsave]; rewrite Hsave
  end.
  eexists. split; [reflexivity|]. split; reflexivity.
Qed.


End Checkpoints.


(** ** Resumed and fresh runs *)

Section Keeps.
Context {S : Type} (I : S -> Prop).

Lemma keeps_ret {A} (a : A) : keeps I (ret a).
Proof. intros s Hs. exact Hs. Qed.

Lemma keeps_raise {A} (e : exn) : keeps I (raise (A := A) e).
Proof. intros s Hs. exact Logic.I. Qed.

Lemma keeps_lift {A} (r : result A) : keeps I (lift r).
Proof. intros s Hs. unfold lift. destruct r; [exact Hs | exact Logic.I]. Qed.

Lemma keeps_get : keeps I get.
Proof. intros s Hs. exact Hs. Qed.

Lemma keeps_modify (f : S -> S) : (forall s, I s -> I (f s)) -> keeps I (modify f).
Proof. intros Hf s Hs. apply Hf, Hs. Qed.

Lemma keeps_bind {A B} (m : flow S A) (k : A -> flow S B) :
  keeps I m -> (forall a, keeps I (k a)) -> keeps I (fbind m k).
Proof.
  intros Hm Hk s Hs. unfold fbind. specialize (Hm s Hs).
  destruct (m s) as [[a|e] s']; [|exact Logic.I].
  apply (Hk a s' Hm).
Qed.

Lemma keeps_try_except {A} (body : flow S A) (handler : exn -> flow S A) :
  ensures I body (fun _ => I) ->
  (forall s, I s -> I (snd (body s))) ->
  (forall e, keeps I (handler e)) ->
  keeps I (try_except body handler).
Proof.
  intros Hb Hall Hh s Hs. unfold try_except.
  specialize (Hb s Hs). specialize (Hall s Hs).
  destruct (body s) as [[a|e] s']; [exact Hb|].
  apply (Hh e s' Hall).
Qed.

End Keeps.

Ltac keeps_step :=
  lazymatch goal with
  | |- keeps _ (ret _) => apply keeps_ret
  | |- keeps _ (raise _) => apply keeps_raise
  | |- keeps _ (lift _) => apply keeps_lift
  | |- keeps _ get => apply keeps_get
  | |- keeps _ (fbind _ _) => apply keeps_bind; [|intros ?; cbv beta]
  | |- keeps _ (if ?c then _ else _) => destruct c
  | |- keeps _ (match ?x with _ => _ end) => destruct x
  end.

Section RunInvariant.
Context {F : Type} `{Dtype F} `{Backend F}.
Variables (sid : option string * option tf_graph) (epochs : list Z).

Ltac keeps_modify_same :=
  lazymatch goal with
  | |- keeps _ (modify _) =>
      apply keeps_modify; intros ? Hinv;
      first [ exact Hinv
            | match goal with
              | |- run_invariant _ _ (match ?x with _ => _ end) =>
                  destruct x; exact Hinv
              end ]
  end.

Ltac keeps_all := repeat first [ keeps_step | keeps_modify_same ].

Lemma keeps_the_graph_keys : keeps (run_invariant sid epochs) the_graph_keys.
Proof. unfold the_graph_keys. keeps_all. Qed.

Lemma keeps_optimizer_run (epoch_end' i : Z) (X : block F) (y : matrix F) (c : Z) :
  keeps (run_invariant sid epochs) (optimizer_run epoch_end' i X y c).
Proof.
  unfold optimizer_run.
  apply keeps_bind; [apply keeps_the_graph_keys | intros g].
  keeps_all.
Qed.

Lemma keeps_optimizer_runs (n : nat) (epoch_end' i : Z) (X : block F)
      (y : matrix F) (c : Z) :
  forall rate, keeps (run_invariant sid epochs)
                     (optimizer_runs n epoch_end' i X y c rate).
Proof.
  induction n as [|n IH]; intros rate; cbn [optimizer_runs].
  - apply keeps_ret.
  - apply keeps_bind; [apply keeps_optimizer_run | intros r; apply IH].
Qed.

Lemma keeps_evaluation_run (X : block F) (y : matrix F) (c : Z) :
  keeps (run_invariant sid epochs) (evaluation_run X y c).
Proof.
  unfold evaluation_run.
  apply keeps_bind; [apply keeps_the_graph_keys | intros g].
  keeps_all.
Qed.

Lemma keeps_tensor_value (name : string) :
  keeps (run_invariant sid epochs) (tensor_value name).
Proof. unfold tensor_value. keeps_all. Qed.

Lemma keeps_store_cell_state (key : string) (t : list F) :
  keeps (run_invariant sid epochs) (store_cell_state key t).
Proof. unfold store_cell_state. keeps_all. Qed.

Lemma keeps_store_fc_state (key : string) (t : list F) :
  keeps (run_invariant sid epochs) (store_fc_state key t).
Proof. unfold store_fc_state. keeps_all. Qed.

Ltac keeps_sub :=
  lazymatch goal with
  | |- keeps _ the_graph_keys => apply keeps_the_graph_keys
  | |- keeps _ (tensor_value _) => apply keeps_tensor_value
  | |- keeps _ (store_cell_state _ _) => apply keeps_store_cell_state
  | |- keeps _ (store_fc_state _ _) => apply keeps_store_fc_state
  end.

Lemma keeps_record_weights : keeps (run_invariant sid epochs) record_weights.
Proof.
  unfold record_weights.
  repeat first [ keeps_sub | keeps_step ].
Qed.

Lemma keeps_display (args : train_args F) (values : list F) :
  keeps (run_invariant sid epochs) (display args values).
Proof.
  unfold display.
  repeat first [ keeps_sub | keeps_step | keeps_modify_same ].
Qed.

Ltac keeps_sub2 :=
  lazymatch goal with
  | |- keeps _ (optimizer_runs _ _ _ _ _ _ _) => apply keeps_optimizer_runs
  | |- keeps _ (evaluation_run _ _ _) => apply keeps_evaluation_run
  | |- keeps _ record_weights => apply keeps_record_weights
  | |- keeps _ (display _ _) => apply keeps_display
  end.

Lemma keeps_batch_step (args : train_args F) (i : Z) (lv : loop_vars F) (it : item F) :
  keeps (run_invariant sid epochs) (batch_step args i lv it).
Proof.
  unfold batch_step. cbv zeta.
  repeat first [ keeps_sub2 | keeps_sub | keeps_step | keeps_modify_same ].
Qed.

Lemma keeps_batch_loop (args : train_args F) (i : Z) (items : list (item F)) :
  forall lv, keeps (run_invariant sid epochs) (batch_loop args i lv items).
Proof.
  induction items as [|it items IH]; intros lv; cbn [batch_loop].
  - apply keeps_ret.
  - apply keeps_bind; [apply keeps_batch_step | intros lv'; apply IH].
Qed.

End RunInvariant.

Lemma ensures_bind {S A B} (I : S -> Prop) (m : flow S A) (k : A -> flow S B)
      (Q : A -> S -> Prop) (R : B -> S -> Prop) :
  ensures I m Q -> (forall a, ensures (Q a) (k a) R) -> ensures I (fbind m k) R.
Proof.
  intros Hm Hk s Hs. unfold fbind. specialize (Hm s Hs).
  destruct (m s) as [[a|e] s']; [|exact Logic.I].
  apply (Hk a s' Hm).
Qed.

Lemma epochs_from_S (i : Z) (n : nat) :
  epochs_from i (S n) = i :: epochs_from (i + 1) n.
Proof.
  unfold epochs_from. cbn [seq map]. f_equal; [lia|].
  rewrite <- seq_shift, map_map. apply map_ext. intros k. lia.
Qed.

Section Epochs.
Context {F : Type} `{Dtype F} `{Backend F}.
Variable (sid : option string * option tf_graph).

Lemma epoch_finish_epochs (i : Z) (lv : loop_vars F) (epochs : list Z) :
  ensures (run_invariant sid epochs) (epoch_finish i lv)
          (fun _ => run_invariant sid (epochs ++ [i])).
Proof.
  intros st [Hsid Hepochs]. unfold epoch_finish.
  destruct (actual_oos lv) as [a|]; [|exact Logic.I].
  destruct (predicted_oos lv) as [p|]; [|exact Logic.I].
  unfold fbind, lift, py_assert, get, log_info, modify.
  destruct ((len a =? len p) && (len (hd [] a) =? len (hd [] p))); [|exact Logic.I].
  cbn beta iota.
  match goal with
  | |- context [save_checkpoints i ?s] =>
      destruct (save_checkpoints_ok i s) as [w' Hsave]; rewrite Hsave
  end.
  split; cbn; [assumption | now rewrite Hepochs].
Qed.

Lemma run_epoch_epochs (args : train_args F) (fd : feeder F) (i : Z)
      (total : option Z) (epochs : list Z) :
  ensures (run_invariant sid epochs) (run_epoch args fd i total)
          (fun _ => run_invariant sid (epochs ++ [i])).
Proof.
  unfold run_epoch.
  apply (ensures_bind _ _ _ (fun _ => run_invariant sid epochs)); [apply keeps_get|].
  intros st0.
  apply (ensures_bind _ _ _ (fun _ => run_invariant sid epochs)).
  { unfold log_info. apply keeps_modify. intros s Hs. exact Hs. }
  intros _.
  apply (ensures_bind _ _ _ (fun _ => run_invariant sid epochs)); [apply keeps_lift|].
  intros items.
  apply (ensures_bind _ _ _ (fun _ => run_invariant sid epochs));
    [apply keeps_batch_loop|].
  intros lv.
  apply (ensures_bind _ _ _ (fun _ => run_invariant sid (epochs ++ [i])));
    [apply epoch_finish_epochs|].
  intros _. apply keeps_ret.
Qed.

Lemma epoch_loop_epochs (args : train_args F) (fd : feeder F) (n : nat) :
  forall (i : Z) (total : option Z) (epochs : list Z),
    ensures (run_invariant sid epochs) (epoch_loop n args fd i total)
            (fun i' st => i' = i + Z.of_nat n /\
                          run_invariant sid (epochs ++ epochs_from i n) st).
Proof.
  induction n as [|n IH]; intros i total epochs.
  - intros st Hst. cbn. split; [lia|]. now rewrite app_nil_r.
  - cbn [epoch_loop].
    apply (ensures_bind _ _ _ (fun _ => run_invariant sid (epochs ++ [i])));
      [apply run_epoch_epochs|].
    intros total' st Hst. specialize (IH (i + 1) total' (epochs ++ [i]) st Hst).
    destruct (epoch_loop n args fd (i + 1) total' st) as [[i'|e] st'];
      [|exact Logic.I].
    destruct IH as [Hi Hinv]. split; [lia|].
    rewrite epochs_from_S. now rewrite <- app_assoc in Hinv.
Qed.

End Epochs.

Section Resume.
Context {F : Type} `{Dtype F} `{Backend F}.

(** Lines 594-603: the start of a resumed call. *)
Lemma train_start_resumed (args : train_args F) (s0 : instance F) (w : world F)
      (id : string) (v : variables) :
  restore_model args = true ->
  pre_trained_model args = None ->
  graph_trained s0 = true ->
  sessid s0 = Some id ->
  fst (restore_checkpoint (latest_ckpt id) (s0, w)) = Ok v ->
  train_start args (s0, w)
  = (Ok (trained_epochs s0 + 1, v),
     (s0, logged (logged w
            (LogInfo ("[" ++ id ++ "] Restored model parameters from previous active session.")))
            (LogInfo ("[" ++ id ++ "] Session start")))).
Proof.
  intros Hrestore Hname Htrained Hsid Hok.
  unfold train_start. rewrite Hrestore, Hname.
  unfold fbind. cbn [get fst]. rewrite Htrained.
  unfold sessid_str. rewrite Hsid. unfold lift, py_assert, try_except.
  pose proof (restore_checkpoint_state (latest_ckpt id) (s0, w)) as Hst.
  destruct (restore_checkpoint (latest_ckpt id) (s0, w)) as [r s'].
  cbn in Hok, Hst. subst.
  unfold log_world, logging_session_parameters, fbind, modify, get, ret, sessid_str.
  cbn. rewrite Hsid. reflexivity.
Qed.

(** Lines 604-617: the start of a fresh run. *)
Lemma train_start_fresh (args : train_args F) (s : instance F) (w : world F)
      (g : graph_tensors F) :
  graph_keys s = Some g ->
  restore_model args = false \/
  (pre_trained_model args = None /\ graph_trained s = false) ->
  exists w',
    train_start args (s, w)
    = (Ok (1, global_variables_initializer (gk_hp g) (tf_random w)),
       (set_sessid (set_res s cleared_results)
                   (Some (fst (id_generator (py_random w)))), w')) /\
    files w' = files w.
Proof.
  intros Hkeys Hfresh.
  assert (Hstart : train_start args (s, w) = fresh_start (s, w)).
  { unfold train_start. destruct Hfresh as [-> | [Hname Htrained]]; [reflexivity|].
    destruct (restore_model args); [|reflexivity].
    rewrite Hname. unfold fbind. cbn [get fst]. now rewrite Htrained. }
  rewrite Hstart.
  unfold fresh_start, fbind, modify, get, ret, new_sessid,
    logging_session_parameters, log_world, fbind, modify, get.
  cbn -[id_generator]. rewrite Hkeys. cbn -[id_generator].
  destruct (id_generator (py_random w)) as [id r]. cbn.
  eexists. split; reflexivity.
Qed.

(** A call that returns has run the epochs from its start on, in order,
    and leaves the instance trained, with the session identifier and the
    graph it started with. *)
Lemma train_completed (args : train_args F) (s s' : instance F * world F)
      (start : Z * variables) (r : option (train_results F))
      (s1 : instance F) (w1 : world F) :
  graph (fst s) <> None ->
  train_start args s = (Ok start, s') ->
  train args s = (Ok r, (s1, w1)) ->
  sessid s1 = sessid (fst s') /\
  graph s1 = graph (fst s') /\
  graph_trained s1 = true /\
  trained_epochs s1
  = fst start + Z.of_nat (epochs_to_run (fst start) (epoch_end args)) - 1 /\
  all_epochs (res s1)
  = all_epochs (res (fst s'))
      ++ epochs_from (fst start) (epochs_to_run (fst start) (epoch_end args)).
Proof.
  intros Hgraph Hstart. unfold train, fbind. cbn [get].
  destruct (graph (fst s)); [|contradiction].
  rewrite Hstart. unfold train_epochs.
  pose proof (epoch_loop_epochs (sessid (fst s'), graph (fst s')) args
                (bound_feeder args)
                (epochs_to_run (fst start) (epoch_end args)) (fst start) None
                (all_epochs (res (fst s')))
                (initial_tstate args s' (snd start))) as Hloop.
  destruct (epoch_loop _ args (bound_feeder args) (fst start) None
              (initial_tstate args s' (snd start))) as [[i|e] st];
    [|discriminate].
  destruct Hloop as [Hi [Hsid Hepochs]]; [split; reflexivity|].
  intros Heq. injection Heq as _ <- _.
  injection Hsid as Hsid Hgr. cbn.
  repeat split; try assumption. lia.
Qed.

End Resume.

Section ResumeClaim.
Context {F : Type} `{Dtype F} `{Backend F}.

(** A call that gets past its start has a session identifier, and the
    graph object it was called with. *)
Lemma train_start_sessid (args : train_args F) (s s' : instance F * world F)
      (start : Z * variables) :
  train_start args s = (Ok start, s') ->
  sessid (fst s') <> None /\ graph (fst s') = graph (fst s).
Proof.
  unfold train_start, fresh_start, fbind, try_except, get, lift, modify, raise, ret,
    new_sessid, logging_session_parameters, log_world, py_assert,
    fbind, modify, get.
  destruct (restore_model args); [destruct (pre_trained_model args) as [name|]|].
  - pose proof (restore_checkpoint_state name s) as Hst.
    destruct (restore_checkpoint name s) as [[v|e] s'']; cbn in Hst; subst.
    + cbn -[id_generator restore_checkpoint].
      destruct (sessid (fst s)) eqn:Hsid; cbn -[id_generator restore_checkpoint].
      * intros Heq. injection Heq as _ <-. cbn. split; [rewrite Hsid; discriminate | reflexivity].
      * destruct (id_generator (py_random (snd s))) as [id r].
        intros Heq. injection Heq as _ <-. cbn. split; [discriminate | reflexivity].
    + cbn. intros Heq. discriminate Heq.
  - cbn -[id_generator restore_checkpoint]. destruct (graph_trained (fst s)).
    + destruct (sessid (fst s)) eqn:Hsid; cbn -[id_generator restore_checkpoint].
      * pose proof (restore_checkpoint_state (latest_ckpt (sessid_str (fst s))) s)
          as Hst.
        destruct (restore_checkpoint (latest_ckpt (sessid_str (fst s))) s)
          as [[v|e] s'']; cbn in Hst; subst.
        -- cbn. intros Heq. injection Heq as _ <-. cbn.
           split; [rewrite Hsid; discriminate | reflexivity].
        -- cbn. intros Heq. discriminate Heq.
      * intros Heq. discriminate Heq.
    + cbn -[id_generator restore_checkpoint]. destruct (graph_keys (fst s)); cbn -[id_generator restore_checkpoint].
      * destruct (id_generator (py_random (snd s))) as [id r].
        intros Heq. injection Heq as _ <-. cbn. split; [discriminate | reflexivity].
      * intros Heq. discriminate Heq.
  - cbn -[id_generator restore_checkpoint]. destruct (graph_keys (fst s)); cbn -[id_generator restore_checkpoint].
    + destruct (id_generator (py_random (snd s))) as [id r].
      intros Heq. injection Heq as _ <-. cbn. split; [discriminate | reflexivity].
    + intros Heq. discriminate Heq.
Qed.


End ResumeClaim.


(** ** Batch data passed directly to [train] *)

Section Direct.
Context {F : Type} `{Dtype F} `{Backend F}.

Lemma run_epoch_direct (args : train_args F) (i : Z) (st : tstate F) :
  run_epoch args DirectFeeder i None st
  = (Raise (NameError "total_sample_size"),
     with_env st (logged (env st)
       (LogInfo ("[" ++ sessid_str (self st) ++ "] Epoch " ++ str_of_Z i ++ " Starts")))).
Proof. reflexivity. Qed.

Lemma train_epochs_direct (args : train_args F) (i : Z) (st : tstate F) :
  bound_feeder args = DirectFeeder ->
  train_epochs args i st
  = if i <=? epoch_end args
    then (Raise (NameError "total_sample_size"),
          with_env st (logged (env st)
            (LogInfo ("[" ++ sessid_str (self st) ++ "] Epoch " ++ str_of_Z i ++ " Starts"))))
    else (Ok i, st).
Proof.
  intros Hfd. unfold train_epochs. rewrite Hfd.
  destruct (Z.leb_spec i (epoch_end args)) as [Hle | Hgt].
  - assert (Hn : exists n, epochs_to_run i (epoch_end args) = S n).
    { exists (Z.to_nat (epoch_end args - i)). unfold epochs_to_run. lia. }
    destruct Hn as [n ->]. cbn [epoch_loop]. unfold fbind.
    now rewrite run_epoch_direct.
  - assert (Hn : epochs_to_run i (epoch_end args) = O).
    { unfold epochs_to_run. lia. }
    now rewrite Hn.
Qed.

(** C10, amended.  When batch data is given directly, the feeder [train]
    builds raises [NameError] the first time it is called, so a call that
    reaches the epoch loop with an epoch to run ([i <= epoch_end]) ends in
    that exception; with no epoch to run the loop ends normally.  In both
    cases no optimizer run takes place and the session variables are
    untouched.  Were [total_sample_size] bound, the feeder would return one
    tuple of six values, which the loop cannot unpack into seven. *)
Theorem direct_batch_never_trains (args : train_args F) :
  bound_feeder args = DirectFeeder ->
  (forall i st,
     i <= epoch_end args ->
     fst (train_epochs args i st) = Raise (NameError "total_sample_size")) /\
  (forall i st, epoch_end args < i -> train_epochs args i st = (Ok i, st)) /\
  (forall i st,
     gradient_steps (snd (train_epochs args i st)) = gradient_steps st /\
     sess (snd (train_epochs args i st)) = sess st /\
     self (snd (train_epochs args i st)) = self st) /\
  (forall s start s',
     graph (fst s) <> None ->
     train_start args s = (Ok start, s') ->
     fst start <= epoch_end args ->
     fst (train args s) = Raise (NameError "total_sample_size")) /\
  (forall n i lv st,
     exists t,
       call_feeder args DirectFeeder (Some n) i = Ok [t] /\
       fst (batch_step args i lv t st)
       = Raise (ValueError "not enough values to unpack (expected 7)")).
Proof.
  intros Hfd. split; [|split; [|split; [|split]]].
  - intros i st Hle. rewrite (train_epochs_direct args i st Hfd).
    destruct (Z.leb_spec i (epoch_end args)); [reflexivity | lia].
  - intros i st Hgt. rewrite (train_epochs_direct args i st Hfd).
    destruct (Z.leb_spec i (epoch_end args)); [lia | reflexivity].
  - intros i st. rewrite (train_epochs_direct args i st Hfd).
    destruct (i <=? epoch_end args); repeat split.
  - intros s start s' Hgraph Hstart Hle.
    unfold train, fbind. cbn [get].
    destruct (graph (fst s)); [|contradiction].
    rewrite Hstart.
    rewrite (train_epochs_direct args (fst start) _ Hfd).
    destruct (Z.leb_spec (fst start) (epoch_end args)); [reflexivity | lia].
  - intros n i lv st. eexists. split; [reflexivity|]. reflexivity.
Qed.

End Direct.

(** A fresh call with direct batch data and the default end epoch. *)
Lemma direct_batch_never_trains_witness :
  bound_feeder (direct_train_args 21) = DirectFeeder /\
  fst (train (direct_train_args 21) (built_instance, empty_world))
  = Raise (NameError "total_sample_size").
Proof.
  assert (Hfd : bound_feeder (direct_train_args 21) = DirectFeeder) by reflexivity.
  split; [exact Hfd|].
  destruct (train_start (direct_train_args 21) (built_instance, empty_world))
    as [[start|e] s'] eqn:Hstart; [|discriminate Hstart].
  apply (proj1 (proj2 (proj2 (proj2
           (direct_batch_never_trains (direct_train_args 21) Hfd))))
           (built_instance, empty_world) start s').
  - discriminate.
  - exact Hstart.
  - injection Hstart as <- _. cbn. lia.
Defined.

(** C10, the claim as stated fails: the same call with [epoch_end = 0] has
    no epoch to run and returns normally. *)
Lemma direct_batch_no_epoch_returns :
  bound_feeder (direct_train_args 0) = DirectFeeder /\
  is_ok (fst (train (direct_train_args 0) (built_instance, empty_world))) = true.
Proof. split; reflexivity. Qed.

(** ** Prediction on raw input arrays *)

Section RawPrediction.
Context {F : Type} `{Dtype F} `{Backend F}.

(** An element that is not a tuple leaves every label field [None]; the
    de-normalisation of line 933 then multiplies [None] by [None]. *)
Lemma predict_item_raw_array (v : variables) (X : block F) (g : graph_tensors F)
      (s : instance F * world F) :
  graph_keys (fst s) = Some g ->
  predict_item v (Value (NpArray3 X)) s
  = (Raise (TypeError "unsupported operand type(s) for *"),
     (fst s, set_tf_random (snd s) (next_rng (tf_random (snd s))))).
Proof.
  intros Hg. unfold predict_item, fbind, lift, get, modify. cbn.
  rewrite Hg. reflexivity.
Qed.

Lemma predict_item_raw (v : variables) (x : pyval F) (s : instance F * world F) :
  is_ok (fst (predict_item v (Value x) s)) = false.
Proof.
  unfold predict_item, fbind, lift, get, modify.
  destruct x; cbn; try reflexivity; destruct (graph_keys (fst s)); reflexivity.
Qed.

Lemma predict_items_raw (v : variables) (x : pyval F) (rest : list (item F))
      (s : instance F * world F) :
  fst (fst (predict_items v (Value x :: rest) s)) = [] /\
  is_ok (snd (fst (predict_items v (Value x :: rest) s))) = false.
Proof.
  pose proof (predict_item_raw v x s) as Hraw.
  cbn [predict_items].
  destruct (predict_item v (Value x) s) as [[p | e] s'].
  - discriminate Hraw.
  - split; reflexivity.
Qed.

(** C9.  What the code does on raw input arrays: [predict(batch_X=X)] on a
    rank-3 array, with the session variables restored, raises [TypeError]
    at the de-normalisation of the absent labels and yields nothing; and a
    sequence whose first element is any raw value yields nothing and ends in
    an exception.  The claim expects one yielded tuple per batch. *)
Theorem predict_raw_input_raises (args : predict_args F) (s s' : instance F * world F)
        (X : block F) (g : graph_tensors F) (v : variables) :
  predict_batch_X args = NpArray3 X ->
  graph (fst s) <> None ->
  predict_start args s = (Ok v, s') ->
  graph_keys (fst s') = Some g ->
  fst (predict args s) = ([], Raise (TypeError "unsupported operand type(s) for *")) /\
  (forall v0 x rest s0,
     fst (fst (predict_items v0 (Value x :: rest) s0)) = [] /\
     is_ok (snd (fst (predict_items v0 (Value x :: rest) s0))) = false).
Proof.
  intros HX Hgraph Hstart Hg. split.
  - unfold predict. destruct (graph (fst s)); [|contradiction].
    rewrite Hstart, HX. cbn [is_none negb predict_items].
    rewrite (predict_item_raw_array v X g s' Hg). reflexivity.
  - intros v0 x rest s0. apply predict_items_raw.
Qed.

End RawPrediction.

(** Prediction on a raw array after training. *)
Lemma predict_raw_input_raises_witness :
  fst (predict raw_predict_args (trained_instance, world_with_latest))
  = ([], Raise (TypeError "unsupported operand type(s) for *")).
Proof.
  eapply (proj1 (predict_raw_input_raises raw_predict_args
                   (trained_instance, world_with_latest) _ batch_a_X _ _ _ _ _ _)).
  Unshelve.
  all: try reflexivity.
  discriminate.
Defined.

(** ** Session identifiers *)

Lemma get_in (s : string) : forall (i : nat) (c : ascii),
  String.get i s = Some c -> In c (list_ascii_of_string s).
Proof.
  induction s as [|a s IH]; intros i c Hget.
  - destruct i; discriminate Hget.
  - destruct i as [|i]; cbn in Hget.
    + injection Hget as ->. now left.
    + right. eapply IH, Hget.
Qed.

Lemma id_chars_range (c : ascii) :
  In c (list_ascii_of_string "ABCDEFGHIJKLMNOPQRSTUVWXYZ0123456789") ->
  (65 <= nat_of_ascii c <= 90 \/ 48 <= nat_of_ascii c <= 57)%nat.
Proof.
  cbn. intros Hin.
  repeat (destruct Hin as [<- | Hin];
          [match goal with
           | |- context [nat_of_ascii ?a] =>
               let n := eval vm_compute in (nat_of_ascii a) in
               change (nat_of_ascii a) with n
           end; lia|]).
  contradiction.
Qed.

Lemma ascii_upper_fixed (c : ascii) :
  (65 <= nat_of_ascii c <= 90 \/ 48 <= nat_of_ascii c <= 57)%nat -> ascii_upper c = c.
Proof.
  intros Hc. unfold ascii_upper.
  destruct ((97 <=? nat_of_ascii c)%nat) eqn:Hlo; [|reflexivity].
  apply Nat.leb_le in Hlo. lia.
Qed.

Section Identifiers.
Context {F : Type} `{Dtype F} `{Backend F}.

Lemma random_choice_in (r : rng) :
  In (fst (random_choice id_chars r)) (list_ascii_of_string id_chars).
Proof.
  unfold random_choice.
  destruct (random_below (String.length id_chars) r) as [i r'].
  destruct (String.get i id_chars) as [c|] eqn:Hget; cbn [fst].
  - eapply get_in, Hget.
  - now left.
Qed.

(** X1.  [id_generator]: an identifier of the requested size (six for a
    session identifier) whose characters are upper-case letters or digits,
    whatever the random generator draws; upper-casing it changes nothing. *)
Theorem id_generator_alphabet (size : nat) (r : rng) :
  String.length (fst (id_generator_from size r)) = size /\
  (forall c, In c (list_ascii_of_string (fst (id_generator_from size r))) ->
     (65 <= nat_of_ascii c <= 90 \/ 48 <= nat_of_ascii c <= 57)%nat) /\
  upper (fst (id_generator_from size r)) = fst (id_generator_from size r) /\
  String.length (fst (id_generator r)) = 6%nat.
Proof.
  assert (Hgen : forall n r0,
             String.length (fst (id_generator_from n r0)) = n /\
             (forall c, In c (list_ascii_of_string (fst (id_generator_from n r0))) ->
                (65 <= nat_of_ascii c <= 90 \/ 48 <= nat_of_ascii c <= 57)%nat) /\
             upper (fst (id_generator_from n r0)) = fst (id_generator_from n r0)).
  { induction n as [|n IH]; intros r0.
    - cbn. repeat split. intros c [].
    - cbn [id_generator_from].
      pose proof (random_choice_in r0) as Hin.
      destruct (random_choice id_chars r0) as [c r1]. cbn [fst] in Hin.
      specialize (IH r1).
      destruct (id_generator_from n r1) as [s r2]. cbn [fst] in IH |- *.
      destruct IH as (Hlen & Hchars & Hup).
      apply id_chars_range in Hin.
      split; [|split].
      + cbn. now rewrite Hlen.
      + intros c' [<- | Hc']; [exact Hin | now apply Hchars].
      + cbn. now rewrite Hup, (ascii_upper_fixed c Hin). }
  destruct (Hgen size r) as (Hlen & Hchars & Hup).
  repeat split; try assumption.
  unfold id_generator. apply (Hgen 6%nat r).
Qed.

End Identifiers.

(** ** The cell type of the constructor *)

Lemma ascii_upper_idempotent (c : ascii) : ascii_upper (ascii_upper c) = ascii_upper c.
Proof.
  destruct c as [[] [] [] [] [] [] [] []]; reflexivity.
Qed.

Lemma upper_idempotent (s : string) : upper (upper s) = upper s.
Proof.
  induction s as [|c s IH]; [reflexivity|].
  cbn [upper]. now rewrite ascii_upper_idempotent, IH.
Qed.

Section CellType.
Context {F : Type} `{Dtype F} `{Backend F}.

(** The builder never touches the attributes other than the feature count,
    the graph, its tensors and the saver. *)
Lemma create_lstm_graph_frame (n : option Z) (reset : bool) (self : instance F)
      (w : world F) :
  let self' := fst (snd (create_lstm_graph n reset (self, w))) in
  cell_type (hp self') = cell_type (hp self) /\
  sessid self' = sessid self /\
  graph_trained self' = graph_trained self /\
  trained_epochs self' = trained_epochs self /\
  res self' = res self /\
  graph_ready self' = graph_ready self.
Proof.
  unfold create_lstm_graph, fbind, get, modify, lift, raise, ret, try_except, py_assert.
  destruct n as [k|]; cbn;
    [|destruct (n_input_features (hp self)); cbn; [|repeat split]];
    (destruct (cell_kind_of (cell_type (hp self))); cbn; [|repeat split];
     destruct (n_layers (hp self) <? 1); cbn; [repeat split|];
     destruct (writable w (log_dir (hp self))); cbn; repeat split).
Qed.

(** X2.  [__init__] reads an ASCII [cell_type] through [str.upper] only:
    the constructor ends the same way, with the same instance and the same
    effects, for a cell type and for its upper-case form, and the cell
    type of an instance it returns is upper-case. *)
Theorem constructor_cell_type_case (args : hyperparameters F) (create_graph : bool)
        (w : world F) :
  ascii_only (cell_type args) = true ->
  LSTM args create_graph w
  = LSTM (set_cell_type args (upper (cell_type args))) create_graph w /\
  forall self w',
    LSTM args create_graph w = (Ok self, w') ->
    cell_type (hp self) = upper (cell_type args) /\
    upper (cell_type (hp self)) = cell_type (hp self).
Proof.
  intros _. split.
  - unfold LSTM. cbn [cell_type set_cell_type n_input_features].
    rewrite upper_idempotent. reflexivity.
  - assert (Hct : forall self w', LSTM args create_graph w = (Ok self, w') ->
                    cell_type (hp self) = upper (cell_type args)).
    { intros self w' Hnew. unfold LSTM in Hnew.
      destruct create_graph; [|injection Hnew as <- _; reflexivity].
      unfold try_except, fbind in Hnew.
      match type of Hnew with
      | context [create_lstm_graph ?n ?r (?s0, ?w0)] =>
          pose proof (create_lstm_graph_frame n r s0 w0) as Hframe;
          destruct (create_lstm_graph n r (s0, w0)) as [[u | e] [s1 w1]]
      end;
        cbn in Hnew, Hframe; destruct Hframe as (Hcell & _);
        injection Hnew as <- _; exact Hcell. }
    intros self w' Hnew.
    rewrite (Hct self w' Hnew). split; [reflexivity | apply upper_idempotent].
Qed.

End CellType.

(** The cell type [gru]. *)
Lemma constructor_cell_type_case_witness :
  LSTM (default_hyperparameters "gru") true empty_world
  = LSTM (default_hyperparameters "GRU") true empty_world.
Proof.
  exact (proj1 (constructor_cell_type_case (default_hyperparameters "gru") true
                  empty_world eq_refl)).
Defined.

(** ** What the constructor leaves behind *)

Section Constructor.
Context {F : Type} `{Dtype F} `{Backend F}.

Lemma create_lstm_graph_built (n : option Z) (reset : bool) (self : instance F)
      (w : world F) (kind : cell_kind) :
  match n with
  | Some _ => true
  | None => match n_input_features (hp self) with Some _ => true | None => false end
  end = true ->
  cell_kind_of (cell_type (hp self)) = Some kind ->
  (n_layers (hp self) <? 1) = false ->
  exists self' w',
    create_lstm_graph n reset (self, w) = (Ok tt, (self', w')) /\
    graph self' = Some TfGraph /\
    hp self' = match n with
               | Some k => set_n_input_features (hp self) (Some k)
               | None => hp self
               end /\
    graph_keys self'
    = Some {| gk_cell := kind; gk_hp := hp self';
              gk_writer := writable w (log_dir (hp self)) |} /\
    model_saver self' = true /\
    files w' = files w /\ stdout w' = stdout w /\
    log w' = (if writable w (log_dir (hp self)) then log w
              else log w ++ [LogException "Exception when saving summary info: "]).
Proof.
  intros Hn Hkind Hlayers.
  unfold create_lstm_graph, fbind, get, modify, lift, raise, ret, try_except, py_assert.
  destruct n as [k|]; cbn.
  - rewrite Hkind, Hlayers. cbn.
    destruct (writable w (log_dir (hp self))); cbn;
      do 2 eexists; repeat split; reflexivity.
  - destruct (n_input_features (hp self)); [|discriminate Hn]. cbn.
    rewrite Hkind, Hlayers. cbn.
    destruct (writable w (log_dir (hp self))); cbn;
      do 2 eexists; repeat split; reflexivity.
Qed.

(** What the builder has checked when it ends normally. *)
Lemma create_lstm_graph_checked (n : option Z) (reset : bool) (self self' : instance F)
      (w w' : world F) :
  create_lstm_graph n reset (self, w) = (Ok tt, (self', w')) ->
  exists kind k,
    cell_kind_of (cell_type (hp self)) = Some kind /\
    match n with Some m => Some m | None => n_input_features (hp self) end = Some k /\
    1 <= n_layers (hp self).
Proof.
  unfold create_lstm_graph, fbind, get, modify, lift, raise, ret, try_except, py_assert.
  destruct n as [m|]; cbn.
  - destruct (cell_kind_of (cell_type (hp self))) as [kind|]; cbn; [|discriminate].
    destruct (Z.ltb_spec (n_layers (hp self)) 1); cbn; [discriminate|].
    intros _. exists kind, m. repeat split; try reflexivity; lia.
  - destruct (n_input_features (hp self)) as [k|]; cbn; [|discriminate].
    destruct (cell_kind_of (cell_type (hp self))) as [kind|]; cbn; [|discriminate].
    destruct (Z.ltb_spec (n_layers (hp self)) 1); cbn; [discriminate|].
    intros _. exists kind, k. repeat split; try reflexivity; lia.
Qed.

(** What the builder leaves when it raises: no tensors and no saver on an
    instance that had none. *)
Lemma create_lstm_graph_failed (n : option Z) (reset : bool) (self self' : instance F)
      (w w' : world F) (e : exn) :
  graph_keys self = None -> model_saver self = false ->
  create_lstm_graph n reset (self, w) = (Raise e, (self', w')) ->
  graph_keys self' = None /\ model_saver self' = false /\ w' = w.
Proof.
  intros Hk Hs.
  unfold create_lstm_graph, fbind, get, modify, lift, raise, ret, try_except, py_assert.
  destruct n as [m|]; cbn;
    [|destruct (n_input_features (hp self)); cbn;
      [|intros Heq; injection Heq as _ <- <-; now repeat split]];
    (destruct (cell_kind_of (cell_type (hp self))); cbn;
     [|intros Heq; injection Heq as _ <- <-; now repeat split];
     destruct (n_layers (hp self) <? 1); cbn;
     [intros Heq; injection Heq as _ <- <-; now repeat split|];
     destruct (writable w (log_dir (hp self))); cbn; discriminate).
Qed.

(** X3.  [graph_ready] tells how the build ended.  When the constructor,
    asked to build the graph, returns an instance with [graph_ready] set,
    a feature count was given, the cell type is LSTM, GRU or RNN in some
    letter case, there is at least one layer, the tensors are those of
    that cell kind, a saver exists, and the instance is untrained, without
    session identifier and with empty results; no checkpoint was touched.
    When [graph_ready] is not set, the instance has no tensors and no
    saver, and the two lines of the handler were printed. *)
Theorem constructor_builds_graph (args : hyperparameters F) (w w' : world F)
        (self : instance F) :
  LSTM args true w = (Ok self, w') ->
  (graph_ready self = true ->
   exists kind n,
     cell_kind_of (upper (cell_type args)) = Some kind /\
     n_input_features args = Some n /\
     1 <= n_layers args /\
     graph self = Some TfGraph /\
     graph_keys self
     = Some {| gk_cell := kind; gk_hp := hp self;
               gk_writer := writable w (log_dir args) |} /\
     n_input_features (hp self) = Some n /\
     model_saver self = true /\
     sessid self = None /\
     graph_trained self = false /\
     trained_epochs self = 0 /\
     res self = cleared_results /\
     files w' = files w) /\
  (graph_ready self = false ->
   graph_keys self = None /\ model_saver self = false /\
   sessid self = None /\ graph_trained self = false /\
   files w' = files w /\
   exists line1 line2, stdout w' = stdout w ++ [line1; line2]).
Proof.
  intros Hnew. unfold LSTM, try_except, fbind in Hnew.
  match type of Hnew with
  | context [create_lstm_graph ?a ?r (?s0, ?w0)] =>
      pose proof (create_lstm_graph_frame a r s0 w0) as Hframe;
      pose proof (create_lstm_graph_checked a r s0) as Hchecked;
      pose proof (create_lstm_graph_built a r s0 w0) as Hbuilt;
      pose proof (create_lstm_graph_failed a r s0) as Hfailed;
      destruct (create_lstm_graph a r (s0, w0)) as [[[] | e] [s1 w1]] eqn:Hcreate
  end; cbn in Hnew, Hframe; injection Hnew as <- <-;
    destruct Hframe as (_ & Hsess & Htrained & Hepochs & Hres & _).
  - split; [intros _ | cbn; discriminate].
    destruct (Hchecked _ _ _ Hcreate) as (kind & n & Hkind & Hn & Hlayers).
    cbn in Hkind, Hn, Hlayers.
    assert (Hn' : n_input_features args = Some n).
    { destruct (n_input_features args); [exact Hn | exact Hn]. }
    destruct (Hbuilt kind) as (self' & w'' & Heq & Hgraph & Hhp & Hkeys & Hsaver
                               & Hfiles & _).
    { cbn. now rewrite Hn'. }
    { exact Hkind. }
    { cbn. apply Z.ltb_ge. lia. }
    injection Heq as <- <-.
    exists kind, n. cbn. rewrite Hn' in Hhp. cbn in Hkeys.
    repeat split; try assumption.
    now rewrite Hhp.
  - split; [cbn; discriminate | intros _].
    destruct (Hfailed s1 w w1 e eq_refl eq_refl Hcreate) as (Hk & Hs & ->).
    cbn. repeat split; try assumption.
    do 2 eexists. symmetry. apply (app_assoc _ [_] [_]).
Qed.

(** X4.  An instance without a graph, as the constructor leaves it when
    asked not to build one or when no feature count is given (the builder's
    first assertion fails before a graph object exists): [train] logs a
    warning and returns [None], [predict] logs a warning and yields nothing;
    neither changes the instance. *)
Theorem no_graph_no_run (args : hyperparameters F) (create_graph : bool) (w : world F) :
  create_graph = false \/ n_input_features args = None ->
  exists self w',
    LSTM args create_graph w = (Ok self, w') /\
    graph self = None /\
    graph_ready self = false /\
    (forall targs,
       train targs (self, w')
       = (Ok None,
          (self, logged w' (LogWarning
             "No graph available for training.  Need to create compute graph first.")))) /\
    (forall pargs,
       exists text,
         predict pargs (self, w')
         = (([], Ok tt), (self, logged w' (LogWarning text)))).
Proof.
  intros Hcase.
  assert (Hnew : exists self w',
             LSTM args create_graph w = (Ok self, w') /\
             graph self = None /\ graph_ready self = false).
  { unfold LSTM. destruct create_graph.
    - destruct Hcase as [Hcase | Hn]; [discriminate Hcase|].
      unfold try_except, fbind, create_lstm_graph, fbind, get, modify, lift, py_assert.
      rewrite Hn. cbn. rewrite Hn. cbn.
      do 2 eexists. repeat split; reflexivity.
    - do 2 eexists. repeat split; reflexivity. }
  destruct Hnew as (self & w' & Hnew & Hgraph & Hready).
  exists self, w'. repeat split; try assumption.
  - intros targs. unfold train, fbind, get, log_world, modify, ret. cbn.
    now rewrite Hgraph.
  - intros pargs. eexists. unfold predict. cbn. rewrite Hgraph. reflexivity.
Qed.

(** X5.  After a build that failed at the cell type, the instance has a
    graph object but no tensors and no saver.  A [train] call that starts
    afresh then ends in [TypeError] at [self.graph_keys['init']], after
    the results were cleared, and one that restores a checkpoint ends in
    the [Exception] raised for the failed restore. *)
Theorem train_after_failed_build (args : hyperparameters F) (w : world F) (n : Z) :
  cell_kind_of (upper (cell_type args)) = None ->
  n_input_features args = Some n ->
  exists self w',
    LSTM args true w = (Ok self, w') /\
    graph self = Some TfGraph /\
    graph_keys self = None /\
    graph_ready self = false /\
    (forall targs,
       restore_model targs = false \/ pre_trained_model targs = None ->
       train targs (self, w')
       = (Raise (TypeError "'NoneType' object is not subscriptable"),
          (set_res self cleared_results, w'))) /\
    (forall targs name,
       restore_model targs = true -> pre_trained_model targs = Some name ->
       train targs (self, w')
       = (Raise (Exception "'NoneType' object has no attribute 'restore'"),
          (self, logged w' (LogException "Session restore failed: ")))).
Proof.
  intros Hkind Hn.
  unfold LSTM, try_except, fbind, create_lstm_graph, fbind, get, modify, lift, raise.
  rewrite Hn. cbn. rewrite Hkind. cbn.
  do 2 eexists. split; [reflexivity|]. cbn.
  repeat split.
  - intros targs Hfresh.
    unfold train, fbind, get. cbn.
    unfold train_start.
    destruct Hfresh as [Hno | Hnone].
    + rewrite Hno. reflexivity.
    + rewrite Hnone. destruct (restore_model targs); reflexivity.
  - intros targs name Hrestore Hname.
    unfold train, fbind, get. cbn.
    unfold train_start. rewrite Hrestore, Hname. reflexivity.
Qed.

End Constructor.

(** The constructor on a lower-case cell type. *)
Lemma constructor_builds_graph_witness :
  exists self w',
    LSTM (default_hyperparameters "gru") true empty_world = (Ok self, w') /\
    graph_ready self = true /\
    graph_keys self
    = Some {| gk_cell := GRUCell; gk_hp := hp self; gk_writer := true |}.
Proof.
  assert (Hnew : exists self w',
             LSTM (default_hyperparameters "gru") true empty_world = (Ok self, w') /\
             graph_ready self = true).
  { do 2 eexists. split; reflexivity. }
  destruct Hnew as (self & w' & Hnew & Hready).
  destruct (proj1 (constructor_builds_graph (default_hyperparameters "gru")
                     empty_world w' self Hnew) Hready)
    as (kind & n & Hkind & _ & _ & _ & Hkeys & _).
  exists self, w'. split; [exact Hnew|]. split; [exact Hready|].
  rewrite Hkeys. injection Hkind as <-. reflexivity.
Defined.

(** The constructor asked not to build a graph. *)
Lemma no_graph_no_run_witness :
  exists self w',
    LSTM (default_hyperparameters "LSTM") false empty_world = (Ok self, w') /\
    fst (train (default_train_args None) (self, w')) = Ok None.
Proof.
  destruct (no_graph_no_run (default_hyperparameters "LSTM") false empty_world)
    as (self & w' & Hnew & _ & _ & Htrain & _).
  - left. reflexivity.
  - exists self, w'. split; [exact Hnew|].
    now rewrite (Htrain (default_train_args None)).
Defined.

(** The constructor on the cell type [xyz], then [train]. *)
Lemma train_after_failed_build_witness :
  exists self w',
    LSTM (default_hyperparameters "xyz") true empty_world = (Ok self, w') /\
    fst (train (default_train_args None) (self, w'))
    = Raise (TypeError "'NoneType' object is not subscriptable").
Proof.
  destruct (train_after_failed_build (default_hyperparameters "xyz") empty_world 2)
    as (self & w' & Hnew & _ & _ & _ & Htrain & _).
  - reflexivity.
  - reflexivity.
  - exists self, w'. split; [exact Hnew|].
    rewrite (Htrain (default_train_args None)); [reflexivity|].
    right. reflexivity.
Defined.

(** ** Compute devices *)

Lemma py_index_in {A} (l : list A) (i : Z) (x : A) : py_index l i = Ok x -> In x l.
Proof.
  unfold py_index.
  destruct ((if i <? 0 then i + Z.of_nat (length l) else i) <? 0); [discriminate|].
  destruct (nth_error l _) as [y|] eqn:Hnth; [|discriminate].
  intros Hx. injection Hx as <-. eapply nth_error_In, Hnth.
Qed.

Lemma py_index_bounds {A} (l : list A) (i : Z) :
  is_ok (py_index l i) = true
  <-> - Z.of_nat (length l) <= i < Z.of_nat (length l).
Proof.
  unfold py_index.
  destruct (Z.ltb_spec i 0) as [Hneg | Hpos].
  - destruct (Z.ltb_spec (i + Z.of_nat (length l)) 0) as [Hlow | Hin]; cbn.
    + split; [discriminate | lia].
    + destruct (nth_error l (Z.to_nat (i + Z.of_nat (length l)))) eqn:Hnth; cbn.
      * split; [lia | reflexivity].
      * apply nth_error_None in Hnth. lia.
  - destruct (Z.ltb_spec i 0) as [Hlow | _]; [lia|].
    destruct (nth_error l (Z.to_nat i)) eqn:Hnth; cbn.
    + assert (Hlt : (Z.to_nat i < length l)%nat)
        by (apply nth_error_Some; congruence).
      split; [lia | reflexivity].
    + apply nth_error_None in Hnth. split; [discriminate | lia].
Qed.

Lemma py_index_first {A} (x : A) (l : list A) : py_index (x :: l) 0 = Ok x.
Proof. reflexivity. Qed.

Lemma py_index_nil {A} (i : Z) :
  py_index (@nil A) i = Raise (IndexError "list index out of range").
Proof.
  unfold py_index. cbn [length Z.of_nat].
  destruct (_ <? 0); [reflexivity|]. now destruct (Z.to_nat _).
Qed.


(** X7.  In the constructor, with [device] naming the GPU in any letter
    case and at least one CPU listed, the chosen device is the first GPU
    when there is one and the first CPU otherwise, whatever [device_num]
    is: the second [try] assigns [gpu][0] again.  With [device] naming the
    CPU it is the first CPU and nothing is printed; with another name the
    attribute is not assigned. *)
Theorem init_device_ignores_number (dl : device_list) (device : string)
        (c : string) (cs : list string) :
  cpu dl = c :: cs ->
  (lower device = "gpu" ->
   forall device_num out,
     fst (init_compute_device dl device device_num out) = Ok (Some (hd c (gpu dl))) /\
     (forall other,
        fst (init_compute_device dl device other out)
        = fst (init_compute_device dl device device_num out)) /\
     (gpu dl = [] ->
      snd (init_compute_device dl device device_num out)
      = out ++ ["list index out of range"; "Will try GPU device 0...";
                "list index out of range"; "Will default to CPU for computing"])) /\
  (lower device = "cpu" ->
   forall device_num out,
     init_compute_device dl device device_num out = (Ok (Some c), out)) /\
  (lower device <> "cpu" -> lower device <> "gpu" ->
   forall device_num out,
     init_compute_device dl device device_num out = (Ok None, out)).
Proof.
  intros Hcpu.
  assert (Hgpu : lower device = "gpu" ->
                 forall device_num out,
                   fst (init_compute_device dl device device_num out)
                   = Ok (Some (hd c (gpu dl)))).
  { intros Hdev device_num out.
    unfold init_compute_device. rewrite Hdev. cbn [String.eqb Ascii.eqb Bool.eqb].
    unfold try_lookup, fbind, lift, ret, print, modify, device_list_get.
    cbn [String.eqb Ascii.eqb Bool.eqb bind].
    rewrite Hcpu, py_index_first.
    destruct (py_index (gpu dl) device_num) as [d | e] eqn:Hnum.
    - destruct (gpu dl) as [|g gs]; [now rewrite py_index_nil in Hnum|].
      now rewrite py_index_first.
    - assert (He : lookup_error e = true).
      { unfold py_index in Hnum.
        destruct (_ <? 0); [injection Hnum as <-; reflexivity|].
        destruct (nth_error _ _); [discriminate Hnum|].
        injection Hnum as <-. reflexivity. }
      rewrite He.
      destruct (gpu dl) as [|g gs]; [rewrite py_index_nil | rewrite py_index_first];
        reflexivity. }
  split; [|split].
  - intros Hdev device_num out. split; [now apply Hgpu|]. split.
    + intros other. now rewrite !Hgpu.
    + intros Hnone.
      unfold init_compute_device. rewrite Hdev. cbn [String.eqb Ascii.eqb Bool.eqb].
      unfold try_lookup, fbind, lift, ret, print, modify, device_list_get.
      cbn [String.eqb Ascii.eqb Bool.eqb bind].
      rewrite Hcpu, Hnone, !py_index_nil, py_index_first. cbn.
      rewrite <- !app_assoc. reflexivity.
  - intros Hdev device_num out.
    unfold init_compute_device. rewrite Hdev. cbn [String.eqb Ascii.eqb Bool.eqb].
    unfold fbind, lift, ret, device_list_get. cbn [String.eqb Ascii.eqb Bool.eqb bind].
    now rewrite Hcpu, py_index_first.
  - intros Hcpu' Hgpu' device_num out.
    unfold init_compute_device.
    destruct (String.eqb_spec (lower device) "cpu") as [Heq | _]; [contradiction|].
    destruct (String.eqb_spec (lower device) "gpu") as [Heq | _]; [contradiction|].
    reflexivity.
Qed.

(** X8.  [set_compute_device] with at least one CPU listed never raises:
    it selects [device_list[type][seq]], a negative [seq] counting from the
    end of the list, and when the key is unknown or the index out of range
    it prints its message and selects the first CPU.  The device selected
    is one of the listed devices. *)
Theorem set_compute_device_fallback (dl : device_list) (type : string) (seq : Z)
        (out : list string) (c : string) (cs : list string) :
  cpu dl = c :: cs ->
  (exists d, fst (set_compute_device dl type seq out) = Ok d /\ In d (gpu dl ++ cpu dl)) /\
  (forall l, device_list_get dl type = Ok l ->
     - Z.of_nat (length l) <= seq < Z.of_nat (length l) ->
     set_compute_device dl type seq out = (py_index l seq, out) /\
     (0 <= seq -> py_index l seq = Ok (nth (Z.to_nat seq) l c)) /\
     (seq < 0 -> py_index l seq = Ok (nth (length l - Z.to_nat (- seq)) l c))) /\
  ((type <> "gpu" /\ type <> "cpu") \/
   (exists l, device_list_get dl type = Ok l /\
              ~ - Z.of_nat (length l) <= seq < Z.of_nat (length l)) ->
   exists text, set_compute_device dl type seq out = (Ok c, out ++ [text])).
Proof.
  intros Hcpu.
  assert (Hget : forall l, device_list_get dl type = Ok l -> incl l (gpu dl ++ cpu dl)).
  { intros l. unfold device_list_get.
    destruct (String.eqb type "gpu"); [intros [= <-]; apply incl_appl, incl_refl|].
    destruct (String.eqb type "cpu"); [intros [= <-]; apply incl_appr, incl_refl|].
    discriminate. }
  assert (Hfall : forall e, lookup_error e = true ->
            (l <- device_list_get dl type ;; py_index l seq) = Raise e ->
            exists text, set_compute_device dl type seq out = (Ok c, out ++ [text])).
  { intros e He Hraise. unfold set_compute_device, try_lookup, lift, fbind, print, modify.
    rewrite Hraise, He. unfold device_list_get.
    cbn [String.eqb Ascii.eqb Bool.eqb bind].
    rewrite Hcpu, py_index_first. eexists. reflexivity. }
  assert (Hidx : forall (l : list string) e, py_index l seq = Raise e -> lookup_error e = true).
  { intros l e. unfold py_index.
    destruct (_ <? 0); [intros [= <-]; reflexivity|].
    destruct (nth_error _ _); [discriminate|]. intros [= <-]. reflexivity. }
  split; [|split].
  - destruct (device_list_get dl type) as [l | e] eqn:Hl.
    + destruct (py_index l seq) as [d | e] eqn:Hd.
      * exists d. split.
        -- unfold set_compute_device, try_lookup, lift. rewrite Hl. cbn [bind].
           now rewrite Hd.
        -- eapply Hget; [reflexivity|]. eapply py_index_in, Hd.
      * destruct (Hfall e) as (text & Heq).
        -- eapply Hidx, Hd.
        -- exact Hd.
        -- exists c. rewrite Heq. split; [reflexivity|].
           apply in_or_app. right. rewrite Hcpu. now left.
    + destruct (Hfall e) as (text & Heq).
      * unfold device_list_get in Hl.
        destruct (String.eqb type "gpu"); [discriminate Hl|].
        destruct (String.eqb type "cpu"); [discriminate Hl|].
        injection Hl as <-. reflexivity.
      * reflexivity.
      * exists c. rewrite Heq. split; [reflexivity|].
        apply in_or_app. right. rewrite Hcpu. now left.
  - intros l Hl Hrange.
    assert (Hok : is_ok (py_index l seq) = true) by now apply py_index_bounds.
    split; [|split].
    + unfold set_compute_device, try_lookup, lift. rewrite Hl. cbn [bind].
      destruct (py_index l seq); [reflexivity | discriminate Hok].
    + intros Hpos. unfold py_index.
      destruct (Z.ltb_spec seq 0) as [Hneg | _]; [lia|].
      destruct (Z.ltb_spec seq 0) as [Hneg | _]; [lia|].
      destruct (nth_error l (Z.to_nat seq)) as [x|] eqn:Hnth.
      * f_equal. symmetry. now apply nth_error_nth.
      * apply nth_error_None in Hnth. lia.
    + intros Hneg. unfold py_index.
      destruct (Z.ltb_spec seq 0) as [_ | Hpos]; [|lia].
      destruct (Z.ltb_spec (seq + Z.of_nat (length l)) 0) as [Hlow | _]; [lia|].
      replace (Z.to_nat (seq + Z.of_nat (length l)))
        with (length l - Z.to_nat (- seq))%nat by lia.
      destruct (nth_error l (length l - Z.to_nat (- seq))) as [x|] eqn:Hnth.
      * f_equal. symmetry. now apply nth_error_nth.
      * apply nth_error_None in Hnth. lia.
  - intros [[Hg Hc] | (l & Hl & Hout)].
    + apply (Hfall (KeyError type)); [reflexivity|].
      unfold device_list_get.
      destruct (String.eqb_spec type "gpu") as [Heq | _]; [contradiction|].
      destruct (String.eqb_spec type "cpu") as [Heq | _]; [contradiction|].
      reflexivity.
    + destruct (py_index l seq) as [d | e] eqn:Hd.
      * exfalso. apply Hout. apply py_index_bounds. now rewrite Hd.
      * apply (Hfall e); [eapply Hidx, Hd|]. now rewrite Hl.
Qed.

(** Two GPUs and a CPU, the second GPU asked for. *)
Lemma init_device_ignores_number_witness :
  fst (init_compute_device
         {| gpu := ["/device:GPU:0"; "/device:GPU:1"]; cpu := ["/device:CPU:0"] |}
         "GPU" 1 [])
  = Ok (Some "/device:GPU:0").
Proof.
  apply (proj1 (proj1 (init_device_ignores_number
                         {| gpu := ["/device:GPU:0"; "/device:GPU:1"];
                            cpu := ["/device:CPU:0"] |}
                         "GPU" "/device:CPU:0" [] eq_refl) eq_refl 1 [])).
Defined.

(** A device type that is no key of the dictionary. *)
Lemma set_compute_device_fallback_witness :
  exists text,
    set_compute_device
      {| gpu := ["/device:GPU:0"]; cpu := ["/device:CPU:0"] |} "tpu" 0 []
    = (Ok "/device:CPU:0", [] ++ [text]).
Proof.
  apply (proj2 (proj2 (set_compute_device_fallback
                         {| gpu := ["/device:GPU:0"]; cpu := ["/device:CPU:0"] |}
                         "tpu" 0 [] "/device:CPU:0" [] eq_refl))).
  left. split; discriminate.
Defined.

(** ** Pearson correlation of two series *)

Section TwoSeries.
Local Open Scope R_scope.

Lemma cauchy_schwarz_dot (u : list R) : forall v : list R,
  dot u v * dot u v <= dot u u * dot v v.
Proof.
  induction u as [|x u IH]; intros v.
  - unfold dot. cbn [zip_with]. rewrite reduce_sum_nil. lra.
  - destruct v as [|y v].
    + unfold dot at 1 2. cbn [zip_with]. rewrite reduce_sum_nil.
      rewrite !dot_self.
      pose proof (reduce_sum_squares_nonneg (x :: u)).
      pose proof (reduce_sum_squares_nonneg (@nil R)). nra.
    + specialize (IH v).
      unfold dot in *. cbn [zip_with]. rewrite !reduce_sum_cons.
      fold (dot u v) (dot u u) (dot v v) in *.
      cbn [fmul real_dtype] in *.
      pose proof (reduce_sum_squares_nonneg u) as HA. rewrite <- dot_self in HA.
      pose proof (reduce_sum_squares_nonneg v) as HB. rewrite <- dot_self in HB.
      set (A := dot u u) in *. set (B := dot v v) in *. set (C := dot u v) in *.
      assert (HP : 0 <= x * x * B + y * y * A).
      { pose proof (Rle_0_sqr x) as Hx. pose proof (Rle_0_sqr y) as Hy.
        unfold Rsqr in Hx, Hy.
        pose proof (Rmult_le_pos _ _ Hx HB). pose proof (Rmult_le_pos _ _ Hy HA). lra. }
      assert (HQ : (2 * x * y * C) * (2 * x * y * C)
                   <= (x * x * B + y * y * A) * (x * x * B + y * y * A)).
      { pose proof (Rle_0_sqr (x * x * B - y * y * A)) as Hsq. unfold Rsqr in Hsq.
        assert (Hxy : 0 <= 4 * ((x * y) * (x * y)) * (A * B - C * C)).
        { pose proof (Rle_0_sqr (x * y)) as Hs. unfold Rsqr in Hs.
          apply Rmult_le_pos; lra. }
        assert (Hid : (x * x * B + y * y * A) * (x * x * B + y * y * A)
                      - (2 * x * y * C) * (2 * x * y * C)
                      = (x * x * B - y * y * A) * (x * x * B - y * y * A)
                        + 4 * ((x * y) * (x * y)) * (A * B - C * C)) by ring.
        lra. }
      assert (Hle : 2 * x * y * C <= x * x * B + y * y * A).
      { destruct (Rle_lt_dec (2 * x * y * C) (x * x * B + y * y * A)) as [Hok | Hgt];
          [exact Hok|].
        exfalso.
        assert (Hlt : (x * x * B + y * y * A) * (x * x * B + y * y * A)
                      < (2 * x * y * C) * (2 * x * y * C)).
        { apply Rle_lt_trans with ((x * x * B + y * y * A) * (2 * x * y * C)).
          - apply Rmult_le_compat_l; lra.
          - apply Rmult_lt_compat_r; lra. }
        lra. }
      assert (Hexp : (x * y + C) * (x * y + C) - (x * x + A) * (y * y + B)
                     = 2 * x * y * C - (x * x * B + y * y * A) - (A * B - C * C))
        by ring.
      lra.
Qed.

Lemma sum_sq_dev_co_dev (xs : list R) : sum_sq_dev xs = co_dev xs xs.
Proof.
  unfold co_dev. cbv zeta. rewrite dot_self. apply sum_sq_dev_as_squares.
Qed.

Lemma co_dev_sym (xs ys : list R) : co_dev xs ys = co_dev ys xs.
Proof.
  unfold co_dev. cbv zeta. unfold dot. f_equal.
  generalize (map (fun x => x - reduce_sum xs / INR (length xs)) xs).
  generalize (map (fun y => y - reduce_sum ys / INR (length ys)) ys).
  intros v u. revert v.
  induction u as [|a u IH]; intros [|b v]; cbn [zip_with]; try reflexivity.
  f_equal; [cbn; lra | apply IH].
Qed.

Lemma co_dev_bound (xs ys : list R) :
  co_dev xs ys * co_dev xs ys <= sum_sq_dev xs * sum_sq_dev ys.
Proof.
  rewrite !sum_sq_dev_co_dev. unfold co_dev. cbv zeta. apply cauchy_schwarz_dot.
Qed.

Lemma pearson_corr_two_series (xs ys : list R) :
  length xs = length ys ->
  pearson_corr 1 (series xs) (series ys)
  = Ok [[co_dev xs ys / (sqrt (sum_sq_dev xs * sum_sq_dev ys) + 1 / 10000)]].
Proof.
  intros Hlen.
  unfold pearson_corr, reduce_mean_axis0, reduce_sum_axis0, reduce_mean.
  rewrite !square_subtract_scalar_series, !transpose1_series.
  rewrite !concat_series, !length_series, !of_nat_real.
  cbn [map]. rewrite !subtract_row_series, transpose1_series.
  rewrite matmul_row_series by (rewrite !length_map; exact Hlen). cbn [bind].
  rewrite matmul_outer_1. cbn [bind map zip_with].
  rewrite epsilon_real. cbn [fsqrt fadd fdiv real_dtype].
  reflexivity.
Qed.

Lemma reduce_sum_constant (c : R) (l : list R) :
  (forall x, In x l -> x = c) -> reduce_sum l = INR (length l) * c.
Proof.
  induction l as [|a l IH]; intros Hall.
  - rewrite reduce_sum_nil. cbn. lra.
  - rewrite reduce_sum_cons, IH by (intros x Hx; apply Hall; now right).
    rewrite (Hall a) by now left.
    cbn [length]. rewrite S_INR. lra.
Qed.

Lemma reduce_sum_zeros (f : R -> R) (l : list R) :
  (forall x, In x l -> f x = 0) -> reduce_sum (map f l) = 0.
Proof.
  induction l as [|a l IH]; intros Hall; cbn [map].
  - apply reduce_sum_nil.
  - rewrite reduce_sum_cons, IH by (intros x Hx; apply Hall; now right).
    rewrite (Hall a) by now left. lra.
Qed.

Lemma constant_no_deviation (xs : list R) :
  (forall a b, In a xs -> In b xs -> a = b) -> sum_sq_dev xs = 0.
Proof.
  intros Hconst. unfold sum_sq_dev. cbv zeta.
  destruct xs as [|c l]; [apply reduce_sum_nil|].
  apply reduce_sum_zeros. intros x Hx.
  rewrite (reduce_sum_constant c (c :: l))
    by (intros z Hz; apply (Hconst z c Hz); now left).
  assert (Hn : INR (length (c :: l)) <> 0) by (apply not_0_INR; discriminate).
  rewrite (Hconst x c Hx) by now left.
  replace (INR (length (c :: l)) * c / INR (length (c :: l))) with c
    by (field; exact Hn).
  lra.
Qed.

End TwoSeries.


(** ** An empty out-of-sample slice *)

Lemma map_seq_const {A} (c : A) (k : nat) : forall a, map (fun _ => c) (seq a k) = repeat c k.
Proof. induction k as [|k IH]; intros a; cbn; [reflexivity | now rewrite IH]. Qed.

Lemma zip_with_repeat {A B C} (f : A -> B -> C) (a : A) (b : B) (k : nat) :
  zip_with f (repeat a k) (repeat b k) = repeat (f a b) k.
Proof. induction k as [|k IH]; cbn; [reflexivity | now rewrite IH]. Qed.

Lemma forallb_repeat {A} (p : A -> bool) (a : A) (k : nat) :
  p a = true -> forallb p (repeat a k) = true.
Proof. intros Hp. induction k as [|k IH]; cbn; [reflexivity | now rewrite Hp, IH]. Qed.

Lemma slice_from_beyond {A} (c : Z) (t : list A) :
  Z.of_nat (length t) <= c -> slice_from c t = [] /\ slice_to c t = t.
Proof.
  intros Hc. destruct (slices_split c t) as [-> ->].
  assert (Hk : canonical (Z.of_nat (length t)) c = Z.of_nat (length t))
    by (unfold canonical; destruct (Z.ltb_spec c 0); lia).
  rewrite Hk, Nat2Z.id. split; [apply skipn_all | apply firstn_all].
Qed.

Section EmptySlice.
Local Open Scope R_scope.

Lemma pearson_corr_empty (k : nat) :
  pearson_corr k (@nil (list R)) [] = Ok (repeat (repeat 0 k) k).
Proof.
  unfold pearson_corr, reduce_mean_axis0, reduce_sum_axis0, reduce_mean,
    subtract_row, subtract_scalar, square, transpose, column.
  cbn [map concat length].
  rewrite !map_map. cbn [map].
  rewrite !map_seq_const.
  unfold matmul at 1.
  rewrite forallb_repeat by reflexivity.
  cbn [bind]. rewrite map_repeat.
  unfold matmul.
  rewrite reduce_sum_nil.
  assert (Hnth : forall j : nat, nth j (repeat 0 k) f0 = 0).
  { intros j. rewrite f0_real. apply nth_repeat. }
  rewrite (map_ext (fun j : nat => [nth j (repeat 0 k) f0]) (fun _ => [0]))
    by (intros j; now rewrite Hnth).
  rewrite map_seq_const, forallb_repeat by reflexivity.
  cbn [bind]. rewrite !map_repeat.
  assert (Hdot0 : dot (F := R) [] [] = 0) by apply reduce_sum_nil.
  assert (Hdot1 : forall j : nat, dot [0] (column j [repeat 0 k]) = 0).
  { intros j. unfold column. cbn [map]. rewrite Hnth.
    unfold dot. cbn [zip_with]. rewrite reduce_sum_cons, reduce_sum_nil.
    cbn [fmul real_dtype]. lra. }
  rewrite (map_ext (fun j : nat => dot [0] (column j [repeat 0 k])) (fun _ => 0))
    by exact Hdot1.
  rewrite (map_ext (fun j : nat => dot (F := R) [] (column j [])) (fun _ => 0))
    by (intros j; exact Hdot0).
  rewrite !map_seq_const, !map_repeat, !zip_with_repeat.
  do 3 f_equal. rewrite epsilon_real. cbn [fdiv fadd fsqrt real_dtype].
  unfold Rdiv. apply Rmult_0_l.
Qed.

Lemma l2_loss_empty : l2_loss (F := R) [] = 0.
Proof.
  unfold l2_loss. cbn [map]. rewrite reduce_sum_nil.
  cbn [fdiv real_dtype]. unfold Rdiv. apply Rmult_0_l.
Qed.

(** X10.  When the cutoff is at or beyond the last row (the loop of
    [train] admits [in_sample_size = total_sample_size]) the out-of-sample
    slices are empty and the in-sample slices are the whole tensors; the
    validation loss is then 0 and every entry of the out-of-sample
    correlation tensor is 0, for any number of outputs. *)
Theorem empty_validation_slice (k : nat) (c : Z) (pred y : matrix R) :
  (Z.of_nat (length y) <= c)%Z ->
  (Z.of_nat (length pred) <= c)%Z ->
  y_oos c y = [] /\ pred_oos c pred = [] /\
  y_is c y = y /\ pred_is c pred = pred /\
  loss_oos c y pred = Ok 0 /\
  pearson_corr_oos k c pred y = Ok (repeat (repeat 0 k) k).
Proof.
  intros Hy Hp.
  destruct (slice_from_beyond c y Hy) as [Hyo Hyi].
  destruct (slice_from_beyond c pred Hp) as [Hpo Hpi].
  unfold y_oos, pred_oos, y_is, pred_is, loss_oos, pearson_corr_oos,
    y_oos, pred_oos.
  rewrite Hyo, Hpo, Hyi, Hpi.
  repeat split.
  - cbn [subtract same_shape length Nat.eqb combine forallb andb bind zip_with concat].
    now rewrite l2_loss_empty.
  - apply pearson_corr_empty.
Qed.
End EmptySlice.

(** Two rows, both in sample. *)
Lemma empty_validation_slice_witness :
  loss_oos 2 [[1%R]; [2%R]] [[3%R]; [5%R]] = Ok 0%R /\
  pearson_corr_oos 1 2 [[3%R]; [5%R]] [[1%R]; [2%R]] = Ok [[0%R]].
Proof.
  pose proof (empty_validation_slice 1 2 [[3%R]; [5%R]] [[1%R]; [2%R]]
                ltac:(cbn; lia) ltac:(cbn; lia))
    as (_ & _ & _ & _ & Hloss & Hcorr).
  split; assumption.
Defined.

(** ** The learning rate across epochs *)

Section Decay.
Context `{Backend R}.
Local Open Scope R_scope.

Lemma of_Z_real (z : Z) : of_Z (F := R) z = IZR z.
Proof. unfold of_Z. cbn. unfold Q2R. cbn. rewrite Rinv_1. lra. Qed.

Lemma py_truediv_real (a b : Z) :
  b <> 0%Z -> py_truediv (F := R) a b = Ok (IZR a / IZR b).
Proof.
  intros Hb. unfold py_truediv.
  destruct (Z.eqb_spec b 0) as [Heq | _]; [contradiction|].
  cbn [fdiv real_dtype]. now rewrite !of_Z_real.
Qed.

Lemma Rpower_antitone (d x x' : R) :
  0 < d <= 1 -> x <= x' -> Rpower d x' <= Rpower d x.
Proof.
  intros [Hd0 Hd1] Hx. unfold Rpower.
  assert (Hln : ln d <= 0).
  { destruct (Rle_lt_or_eq_dec _ _ Hd1) as [Hlt | ->]; [|rewrite ln_1; lra].
    rewrite <- ln_1. left. now apply ln_increasing. }
  assert (Hle : x' * ln d <= x * ln d).
  { rewrite (Rmult_comm x'), (Rmult_comm x).
    apply Rmult_le_compat_neg_l; assumption. }
  destruct (Rle_lt_or_eq_dec _ _ Hle) as [Hlt | ->]; [|lra].
  left. now apply exp_increasing.
Qed.


End Decay.


(** ** The split at any cutoff *)

(** X12.  The two slices partition the rows for every integer cutoff, not
    only for one inside the batch: a cutoff at or beyond the number of rows
    puts every row in sample, a negative cutoff [-k] leaves the last [k]
    rows out of sample as Python's slices do, and zero or a cutoff below
    minus the number of rows puts every row out of sample. *)
Theorem split_any_cutoff {A} (y : list A) (c : Z) :
  let n := Z.of_nat (length y) in
  y_is c y ++ y_oos c y = y /\
  Z.of_nat (length (y_is c y)) = canonical n c /\
  Z.of_nat (length (y_oos c y)) = n - canonical n c /\
  (n <= c -> y_is c y = y /\ y_oos c y = []) /\
  (- n <= c < 0 ->
   y_is c y = y_is (n + c) y /\ y_oos c y = y_oos (n + c) y /\
   Z.of_nat (length (y_oos c y)) = - c) /\
  (c < - n \/ c = 0 -> y_is c y = [] /\ y_oos c y = y).
Proof.
  intros n. unfold y_is, y_oos.
  destruct (slices_split c y) as [Hto Hfrom].
  pose proof (canonical_range n c ltac:(lia)) as Hrange.
  fold n in Hto, Hfrom.
  split; [apply slices_app|].
  split; [rewrite Hto, length_firstn; fold n; lia|].
  split; [rewrite Hfrom, length_skipn; fold n; lia|].
  split; [|split].
  - intros Hc.
    assert (Hk : canonical n c = n)
      by (unfold canonical; destruct (Z.ltb_spec c 0); lia).
    rewrite Hto, Hfrom, Hk. unfold n. rewrite Nat2Z.id.
    split; [apply firstn_all | apply skipn_all].
  - intros Hc.
    assert (Hk : canonical n c = n + c)
      by (unfold canonical; destruct (Z.ltb_spec c 0); lia).
    destruct (slices_split (n + c) y) as [Hto' Hfrom'].
    fold n in Hto', Hfrom'.
    rewrite (canonical_inside n (n + c)) in Hto', Hfrom' by lia.
    rewrite Hto, Hfrom, Hto', Hfrom', Hk.
    repeat split. rewrite length_skipn. fold n. lia.
  - intros Hc.
    assert (Hk : canonical n c = 0)
      by (unfold canonical; destruct (Z.ltb_spec c 0); lia).
    rewrite Hto, Hfrom, Hk. split; reflexivity.
Qed.

(** ** What a flow never changes *)

Section Preserves.
Context {S : Type} (I : S -> Prop).

Lemma preserves_ret {A} (a : A) : preserves I (ret a).
Proof. intros s Hs. exact Hs. Qed.

Lemma preserves_raise {A} (e : exn) : preserves I (raise (A := A) e).
Proof. intros s Hs. exact Hs. Qed.

Lemma preserves_lift {A} (r : result A) : preserves I (lift r).
Proof. intros s Hs. exact Hs. Qed.

Lemma preserves_get : preserves I get.
Proof. intros s Hs. exact Hs. Qed.

Lemma preserves_modify (f : S -> S) :
  (forall s, I s -> I (f s)) -> preserves I (modify f).
Proof. intros Hf s Hs. apply Hf, Hs. Qed.

Lemma preserves_bind {A B} (m : flow S A) (k : A -> flow S B) :
  preserves I m -> (forall a, preserves I (k a)) -> preserves I (fbind m k).
Proof.
  intros Hm Hk s Hs. unfold fbind. specialize (Hm s Hs).
  destruct (m s) as [[a | e] s']; cbn [snd] in Hm; [apply Hk, Hm | exact Hm].
Qed.

Lemma preserves_try_except {A} (body : flow S A) (handler : exn -> flow S A) :
  preserves I body -> (forall e, preserves I (handler e)) ->
  preserves I (try_except body handler).
Proof.
  intros Hb Hh s Hs. unfold try_except. specialize (Hb s Hs).
  destruct (body s) as [[a | e] s']; cbn [snd] in Hb; [exact Hb | apply Hh, Hb].
Qed.

Lemma preserves_keeps {A} (m : flow S A) : preserves I m -> keeps I m.
Proof.
  intros Hm s Hs. specialize (Hm s Hs).
  destruct (m s) as [[a | e] s']; [exact Hm | exact Logic.I].
Qed.

End Preserves.

Ltac preserves_step :=
  lazymatch goal with
  | |- preserves _ (ret _) => apply preserves_ret
  | |- preserves _ (raise _) => apply preserves_raise
  | |- preserves _ (lift _) => apply preserves_lift
  | |- preserves _ get => apply preserves_get
  | |- preserves _ (fbind _ _) => apply preserves_bind; [|intros ?; cbv beta]
  | |- preserves _ (try_except _ _) => apply preserves_try_except; [|intros ?; cbv beta]
  | |- preserves _ (if ?c then _ else _) => destruct c
  | |- preserves _ (match ?x with _ => _ end) => destruct x
  end.

(** The parts of an epoch that touch neither the session variables nor the
    local [inner_iteration]: any property stable under a change of the
    world, of the results and of the two step counters survives them. *)
Section Frame.
Context {F : Type} `{Dtype F} `{Backend F}.
Variable I : tstate F -> Prop.
Hypothesis I_env : forall st w, I st -> I (with_env st w).
Hypothesis I_res : forall st r, I st -> I (with_self st (set_res (self st) r)).
Hypothesis I_counters : forall st a b, I st -> I (with_counters st a b).

Ltac frame_modify :=
  lazymatch goal with
  | |- preserves _ (modify _) =>
      apply preserves_modify; intros ? Hinv;
      first [ exact Hinv | apply I_env, Hinv | apply I_res, Hinv
            | apply I_counters, Hinv ]
  | |- preserves _ (log_info _) =>
      unfold log_info; apply preserves_modify; intros ? Hinv; apply I_env, Hinv
  end.

Ltac frame_all := repeat first [ preserves_step | frame_modify ].

Lemma frame_the_graph_keys : preserves I the_graph_keys.
Proof. unfold the_graph_keys. frame_all. Qed.

Lemma frame_tensor_value (name : string) : preserves I (tensor_value name).
Proof. unfold tensor_value. frame_all. Qed.

Lemma frame_store_cell_state (key : string) (t : list F) :
  preserves I (store_cell_state key t).
Proof. unfold store_cell_state. frame_all. Qed.

Lemma frame_store_fc_state (key : string) (t : list F) :
  preserves I (store_fc_state key t).
Proof. unfold store_fc_state. frame_all. Qed.

Ltac frame_sub :=
  lazymatch goal with
  | |- preserves _ the_graph_keys => apply frame_the_graph_keys
  | |- preserves _ (tensor_value _) => apply frame_tensor_value
  | |- preserves _ (store_cell_state _ _) => apply frame_store_cell_state
  | |- preserves _ (store_fc_state _ _) => apply frame_store_fc_state
  end.

Lemma frame_record_weights : preserves I record_weights.
Proof.
  unfold record_weights. repeat first [ frame_sub | preserves_step | frame_modify ].
Qed.

Lemma frame_evaluation_run (X : block F) (y : matrix F) (c : Z) :
  preserves I (evaluation_run X y c).
Proof.
  unfold evaluation_run. repeat first [ frame_sub | preserves_step | frame_modify ].
Qed.

Lemma frame_display (args : train_args F) (values : list F) :
  preserves I (display args values).
Proof.
  unfold display. repeat first [ frame_sub | preserves_step | frame_modify ].
Qed.

Lemma frame_save_checkpoints (i : Z) : preserves I (save_checkpoints i).
Proof.
  unfold save_checkpoints. repeat first [ preserves_step | frame_modify ].
Qed.

Lemma frame_epoch_finish (i : Z) (lv : loop_vars F) : preserves I (epoch_finish i lv).
Proof.
  unfold epoch_finish.
  repeat first
    [ lazymatch goal with
      | |- preserves _ (save_checkpoints _) => apply frame_save_checkpoints
      end
    | preserves_step | frame_modify ].
Qed.

End Frame.

(** The whole epoch loop: a property that is also stable under a change of
    the session variables and of the local [inner_iteration]. *)
Section FrameEpochs.
Context {F : Type} `{Dtype F} `{Backend F}.
Variable I : tstate F -> Prop.
Hypothesis I_env : forall st w, I st -> I (with_env st w).
Hypothesis I_res : forall st r, I st -> I (with_self st (set_res (self st) r)).
Hypothesis I_counters : forall st a b, I st -> I (with_counters st a b).
Hypothesis I_sess : forall st v n, I st -> I (with_sess st v n).
Hypothesis I_inner : forall st n, I st -> I (with_inner_iteration st n).

Ltac frame_sub :=
  lazymatch goal with
  | |- preserves _ the_graph_keys => apply frame_the_graph_keys; assumption
  | |- preserves _ (evaluation_run _ _ _) => apply frame_evaluation_run; assumption
  | |- preserves _ record_weights => apply frame_record_weights; assumption
  | |- preserves _ (display _ _) => apply frame_display; assumption
  | |- preserves _ (epoch_finish _ _) => apply frame_epoch_finish; assumption
  | |- preserves _ (log_info _) =>
      unfold log_info; apply preserves_modify; intros ? Hinv; apply I_env, Hinv
  end.

Lemma frame_optimizer_run (epoch_end' i : Z) (X : block F) (y : matrix F) (c : Z) :
  preserves I (optimizer_run epoch_end' i X y c).
Proof.
  unfold optimizer_run.
  repeat first [ frame_sub | preserves_step ].
  apply preserves_modify. intros st Hst. apply I_env, I_sess, Hst.
Qed.

Lemma frame_optimizer_runs (n : nat) (epoch_end' i : Z) (X : block F)
      (y : matrix F) (c : Z) :
  forall rate, preserves I (optimizer_runs n epoch_end' i X y c rate).
Proof.
  induction n as [|n IH]; intros rate; cbn [optimizer_runs].
  - apply preserves_ret.
  - apply preserves_bind; [apply frame_optimizer_run | intros r; apply IH].
Qed.

Lemma frame_batch_step (args : train_args F) (i : Z) (lv : loop_vars F) (it : item F) :
  preserves I (batch_step args i lv it).
Proof.
  unfold batch_step. cbv zeta.
  repeat first
    [ frame_sub
    | apply frame_optimizer_runs
    | preserves_step
    | lazymatch goal with
      | |- preserves _ (modify _) =>
          apply preserves_modify; intros st Hst;
          first [ apply I_res, Hst
                | destruct (cur_inner_iteration st); [exact Hst | apply I_inner, Hst] ]
      end ].
Qed.

Lemma frame_batch_loop (args : train_args F) (i : Z) (items : list (item F)) :
  forall lv, preserves I (batch_loop args i lv items).
Proof.
  induction items as [|it rest IH]; intros lv; cbn [batch_loop].
  - apply preserves_ret.
  - apply preserves_bind; [apply frame_batch_step | intros lv'; apply IH].
Qed.

Lemma frame_run_epoch (args : train_args F) (fd : feeder F) (i : Z) (total : option Z) :
  preserves I (run_epoch args fd i total).
Proof.
  unfold run_epoch.
  repeat first [ frame_sub | apply frame_batch_loop | preserves_step ].
Qed.

Lemma frame_epoch_loop (args : train_args F) (fd : feeder F) (n : nat) :
  forall i total, preserves I (epoch_loop n args fd i total).
Proof.
  induction n as [|n IH]; intros i total; cbn [epoch_loop].
  - apply preserves_ret.
  - apply preserves_bind; [apply frame_run_epoch | intros t; apply IH].
Qed.

End FrameEpochs.

Section TrainFrame.
Context {F : Type} `{Dtype F} `{Backend F}.

Lemma train_start_frame (args : train_args F) (self0 : instance F) :
  preserves (fun s => built_as self0 (fst s)) (train_start args).
Proof.
  unfold train_start, fresh_start, restore_checkpoint,
    logging_session_parameters, new_sessid, log_world.
  repeat first
    [ preserves_step
    | lazymatch goal with
      | |- preserves _ (modify _) =>
          apply preserves_modify; intros [x w] Hx; cbn [fst snd] in Hx |- *;
          first [ exact Hx
                | destruct (id_generator (py_random w)); exact Hx ]
      end ].
Qed.

(** X13.  [train] never changes what the constructor built: whether it
    returns or raises, the hyperparameters, the graph object, its tensors,
    the ready flag and the saver of the instance are the same afterwards. *)
Theorem train_keeps_graph (args : train_args F) (s : instance F * world F) :
  hp (fst (snd (train args s))) = hp (fst s) /\
  graph (fst (snd (train args s))) = graph (fst s) /\
  graph_keys (fst (snd (train args s))) = graph_keys (fst s) /\
  graph_ready (fst (snd (train args s))) = graph_ready (fst s) /\
  model_saver (fst (snd (train args s))) = model_saver (fst s).
Proof.
  change (built_as (fst s) (fst (snd (train args s)))).
  assert (Hinit : built_as (fst s) (fst s)) by (repeat split).
  unfold train, fbind, get.
  destruct (graph (fst s)); [|exact Hinit].
  pose proof (train_start_frame args (fst s) s Hinit) as Hstart.
  destruct (train_start args s) as [[start | e] s1]; cbn [snd] in Hstart |- *;
    [|exact Hstart].
  unfold train_epochs.
  pose proof (frame_epoch_loop (fun st => built_as (fst s) (self st))
                ltac:(intros; assumption) ltac:(intros; assumption)
                ltac:(intros; assumption) ltac:(intros; assumption)
                ltac:(intros; assumption)
                args (bound_feeder args)
                (epochs_to_run (fst start) (epoch_end args)) (fst start) None
                (initial_tstate args s1 (snd start)) Hstart) as Hloop.
  destruct (epoch_loop _ _ _ _ _ _) as [[i | e] st]; cbn [snd fst] in Hloop |- *;
    exact Hloop.
Qed.

End TrainFrame.

(** ** A batch that is processed *)

Lemma ensures_lift_bind {S A B} (I : S -> Prop) (r : result A) (k : A -> flow S B)
      (R : B -> S -> Prop) :
  (forall a, r = Ok a -> ensures I (k a) R) -> ensures I (fbind (lift r) k) R.
Proof.
  intros Hk s Hs. unfold fbind, lift.
  destruct r as [a | e]; [exact (Hk a eq_refl s Hs) | exact Logic.I].
Qed.

Lemma ensures_get_bind {S B} (I : S -> Prop) (k : S -> flow S B) (R : B -> S -> Prop) :
  (forall a, I a -> ensures I (k a) R) -> ensures I (fbind get k) R.
Proof. intros Hk s Hs. unfold fbind, get. exact (Hk s Hs s Hs). Qed.

Lemma ensures_keeps_bind {S A B} (I : S -> Prop) (m : flow S A) (k : A -> flow S B)
      (R : B -> S -> Prop) :
  preserves I m -> (forall a, ensures I (k a) R) -> ensures I (fbind m k) R.
Proof.
  intros Hm Hk. apply (ensures_bind I m k (fun _ => I)); [|exact Hk].
  now apply preserves_keeps.
Qed.

Lemma ensures_modify_bind {S B} (I I' : S -> Prop) (f : S -> S) (k : unit -> flow S B)
      (R : B -> S -> Prop) :
  (forall s, I s -> I' (f s)) -> ensures I' (k tt) R ->
  ensures I (fbind (modify f) k) R.
Proof. intros Hf Hk s Hs. unfold fbind, modify. exact (Hk (f s) (Hf s Hs)). Qed.

Lemma py_assert_ok (cond : bool) (msg : string) (u : unit) :
  py_assert cond msg = Ok u -> cond = true.
Proof. unfold py_assert. now destruct cond. Qed.

Section ProcessedBatch.
Context {F : Type} `{Dtype F} `{Backend F}.

Lemma batch_state_env (ci : option Z) (h0 : hyperparameters F)
      (gk0 : option (graph_tensors F)) (k : nat) (s0 : Z) (st : tstate F) (w : world F) :
  batch_state k ci h0 gk0 s0 st -> batch_state k ci h0 gk0 s0 (with_env st w).
Proof. intros HJ. exact HJ. Qed.

Lemma batch_state_res (ci : option Z) (h0 : hyperparameters F)
      (gk0 : option (graph_tensors F)) (k : nat) (s0 : Z) (st : tstate F) (r : results F) :
  batch_state k ci h0 gk0 s0 st ->
  batch_state k ci h0 gk0 s0 (with_self st (set_res (self st) r)).
Proof. intros HJ. exact HJ. Qed.

Lemma optimizer_run_counts (ci : option Z) (h0 : hyperparameters F)
      (gk0 : option (graph_tensors F)) (k : nat) (s0 : Z) (epoch_end' i : Z) (X : block F)
      (y : matrix F) (c : Z) :
  ensures (batch_state k ci h0 gk0 s0) (optimizer_run epoch_end' i X y c)
          (fun _ => batch_state (S k) ci h0 gk0 s0).
Proof.
  intros st (Hk & Hci & Hh & Hgk & Hs). subst k ci h0 gk0 s0.
  unfold optimizer_run, the_graph_keys, fbind, get, lift, ret, raise, modify.
  destruct (graph_keys (self st)) as [g|] eqn:Hg; [|exact Logic.I].
  destruct (py_truediv i epoch_end') as [gs|]; [|exact Logic.I].
  destruct (run_optimizer g (sess st) (tf_random (env st)) X y
              (keep_prob (hp (self st))) c gs) as [out|]; [|exact Logic.I].
  unfold batch_state. cbn. repeat split. exact Hg.
Qed.

Lemma optimizer_runs_count (ci : option Z) (h0 : hyperparameters F)
      (gk0 : option (graph_tensors F)) (n : nat) (s0 : Z) (epoch_end' i : Z) (X : block F)
      (y : matrix F) (c : Z) :
  forall (k : nat) (rate : option F),
    ensures (batch_state k ci h0 gk0 s0) (optimizer_runs n epoch_end' i X y c rate)
            (fun _ => batch_state (k + n) ci h0 gk0 s0).
Proof.
  induction n as [|n IH]; intros k rate; cbn [optimizer_runs].
  - intros st HJ. cbn. now rewrite Nat.add_0_r.
  - eapply ensures_bind; [apply optimizer_run_counts|].
    intros r. replace (k + S n)%nat with (S k + n)%nat by lia. apply IH.
Qed.

Lemma display_counts (ci : option Z) (h0 : hyperparameters F)
      (gk0 : option (graph_tensors F)) (k : nat) (s0 : Z) (args : train_args F) (values : list F) :
  ensures (batch_state k ci h0 gk0 s0) (display args values)
          (fun _ st' =>
             batch_state k ci h0 gk0 (s0 + 1) st' /\
             display_step args <> 0 /\
             (s0 mod display_step args = 0 ->
              exists g, gk0 = Some g /\ gk_writer g = true)).
Proof.
  intros st (Hk & Hci & Hh & Hgk & Hs). subst k ci h0 gk0 s0.
  unfold display, the_graph_keys, fbind, get, lift, ret, raise, modify.
  destruct (Z.eqb_spec (display_step args) 0) as [Hz | Hnz]; [exact Logic.I|].
  destruct (Z.eqb_spec (cur_step st mod display_step args) 0) as [Hmod | Hmod].
  - destruct (graph_keys (self st)) as [g|] eqn:Hg; [|exact Logic.I].
    destruct (gk_writer g) eqn:Hw; [|exact Logic.I].
    unfold batch_state. cbn.
    repeat split; try assumption.
    intros _. exists g. split; [reflexivity | exact Hw].
  - unfold batch_state. cbn.
    repeat split; try assumption.
    intros Habs. contradiction.
Qed.

End ProcessedBatch.

Lemma ensures_assume {S A} (I : S -> Prop) (P : Prop) (m : flow S A)
      (R : A -> S -> Prop) :
  (P -> ensures I m R) -> ensures (fun s => I s /\ P) m R.
Proof. intros Hm s [Hs HP]. exact (Hm HP s Hs). Qed.

Section ProcessedBatchClaim.
Context {F : Type} `{Dtype F} `{Backend F}.

Lemma as_int_ok (v : pyval F) (z : Z) : as_int v = Ok z -> v = PyInt z.
Proof. destruct v; cbn; intros Heq; try discriminate Heq. now injection Heq as ->. Qed.

Lemma batch_step_processed (args : train_args F) (i : Z) (lv : loop_vars F)
      (it : item F) (b : batch F) (k : nat) (ci : option Z)
      (h0 : hyperparameters F) (gk0 : option (graph_tensors F)) (s0 : Z) :
  unpack7 it = Ok b ->
  all_finite (b_batch_X b) = Ok true ->
  all_finite (b_batch_y b) = Ok true ->
  ensures (batch_state k ci h0 gk0 s0) (batch_step args i lv it)
    (fun _ st' =>
       let inner := match ci with Some n => n | None => inner_iteration h0 end in
       1 <= inner /\
       batch_state (k + Z.to_nat inner) (Some inner) h0 gk0 (s0 + 1) st' /\
       display_step args <> 0 /\
       (exists c total,
          b_in_sample_size b = PyInt c /\
          shape_at (b_batch_X b) 0 = Ok total /\ c <= total) /\
       (exists n, n_input_features h0 = Some n /\ shape_at (b_batch_X b) 2 = Ok n) /\
       shape_at (b_batch_y b) 1 = Ok (n_output_features h0) /\
       (s0 mod display_step args = 0 ->
        exists g, gk0 = Some g /\ gk_writer g = true)).
Proof.
  intros Hb HX HY. unfold batch_step.
  apply ensures_lift_bind. intros b' Hb'. rewrite Hb in Hb'. injection Hb' as Hbb. subst b'.
  apply ensures_lift_bind. intros total Htotal. cbv zeta.
  apply ensures_lift_bind. intros fx Hfx. rewrite HX in Hfx. injection Hfx as Hfx. subst fx.
  cbn [negb].
  apply (ensures_bind _ _ _ (fun skip s => batch_state k ci h0 gk0 s0 s /\ skip = false)).
  { apply ensures_lift_bind. intros fy Hfy. rewrite HY in Hfy. injection Hfy as Hfy. subst fy.
    intros s Hs. cbn. split; [exact Hs | reflexivity]. }
  intros skip. apply ensures_assume. intros ->.
  apply ensures_lift_bind. intros finite_mean _.
  apply ensures_lift_bind. intros _ _.
  apply ensures_lift_bind. intros finite_std _.
  apply ensures_lift_bind. intros _ _.
  apply ensures_lift_bind. intros cutoff Hcutoff. apply as_int_ok in Hcutoff.
  apply ensures_lift_bind. intros u Hle. apply py_assert_ok, Z.leb_le in Hle.
  apply ensures_lift_bind. intros features Hfeatures.
  apply ensures_get_bind. intros st1 (_ & _ & Hh1 & _ & _).
  apply ensures_lift_bind. intros u1 Hn. apply py_assert_ok in Hn.
  rewrite Hh1 in Hn.
  apply ensures_lift_bind. intros outputs Houtputs.
  apply ensures_lift_bind. intros u2 Ho. apply py_assert_ok, Z.eqb_eq in Ho.
  rewrite Hh1 in Ho.
  set (inner := match ci with Some n => n | None => inner_iteration h0 end).
  apply (ensures_modify_bind _ (batch_state k (Some inner) h0 gk0 s0)).
  { intros s (Hk & Hci & Hh & Hgk & Hs). rewrite Hci. unfold inner.
    destruct ci as [n|]; unfold batch_state; cbn; rewrite ?Hh; repeat split;
      assumption. }
  apply ensures_get_bind. intros st2 (_ & Hci2 & _ & _ & _).
  cbv zeta. rewrite Hci2.
  apply ensures_lift_bind. intros u3 Hinner. apply py_assert_ok, Z.leb_le in Hinner.
  apply ensures_lift_bind. intros X _.
  apply ensures_lift_bind. intros y _.
  eapply ensures_bind; [apply optimizer_runs_count|]. intros current_rate.
  apply ensures_keeps_bind; [apply frame_evaluation_run; intros; assumption|].
  intros ev.
  apply ensures_lift_bind. intros _ _.
  apply ensures_lift_bind. intros _ _.
  apply ensures_lift_bind. intros y_val' _.
  apply ensures_lift_bind. intros y_oos_val' _.
  apply ensures_lift_bind. intros pred_val' _.
  apply ensures_lift_bind. intros pred_oos_val' _.
  apply (ensures_modify_bind _ (batch_state (k + Z.to_nat inner) (Some inner) h0 gk0 s0)).
  { intros s Hs. exact Hs. }
  apply ensures_keeps_bind.
  { destruct (return_weights args);
      [apply frame_record_weights; intros; assumption | apply preserves_ret]. }
  intros _.
  eapply ensures_bind; [apply display_counts|]. intros u5.
  intros s (HJ & Hd & Hdisp). cbn.
  split; [exact Hinner|]. split; [exact HJ|]. split; [exact Hd|].
  split; [exists cutoff, total; repeat split; assumption|].
  split.
  - destruct (n_input_features h0) as [n|]; [|discriminate Hn].
    apply Z.eqb_eq in Hn. subst features. exists n. split; [reflexivity | assumption].
  - split; [now rewrite <- Ho | exact Hdisp].
Qed.

(** X14.  A batch of seven fields with finite input and labels that the
    loop body processes to its end passed every check of the body: the
    cutoff is an integer not above the number of rows, the last dimension
    of the input is the feature count and that of the labels the output
    count, [inner_iteration] (the argument, else the attribute) is at least
    one and [display_step] is not zero.  The body then made exactly
    [inner_iteration] optimizer runs, fixed [inner_iteration] for the rest
    of the call and advanced [step] by one; if this was a display step, the
    graph has a summary writer. *)
Theorem processed_batch (args : train_args F) (i : Z) (lv lv' : loop_vars F)
        (it : item F) (b : batch F) (st st' : tstate F) :
  unpack7 it = Ok b ->
  all_finite (b_batch_X b) = Ok true ->
  all_finite (b_batch_y b) = Ok true ->
  batch_step args i lv it st = (Ok lv', st') ->
  let inner := match cur_inner_iteration st with
               | Some n => n
               | None => inner_iteration (hp (self st))
               end in
  1 <= inner /\
  gradient_steps st' = (gradient_steps st + Z.to_nat inner)%nat /\
  cur_inner_iteration st' = Some inner /\
  cur_step st' = cur_step st + 1 /\
  display_step args <> 0 /\
  (exists c total,
     b_in_sample_size b = PyInt c /\
     shape_at (b_batch_X b) 0 = Ok total /\ c <= total) /\
  (exists n, n_input_features (hp (self st)) = Some n /\
             shape_at (b_batch_X b) 2 = Ok n) /\
  shape_at (b_batch_y b) 1 = Ok (n_output_features (hp (self st))) /\
  (cur_step st mod display_step args = 0 ->
   exists g, graph_keys (self st) = Some g /\ gk_writer g = true).
Proof.
  intros Hb HX HY Hstep inner.
  pose proof (batch_step_processed args i lv it b (gradient_steps st)
                (cur_inner_iteration st) (hp (self st)) (graph_keys (self st))
                (cur_step st) Hb HX HY st) as Hens.
  rewrite Hstep in Hens. cbv zeta in Hens. fold inner in Hens.
  destruct Hens as (Hinner & (Hk & Hci & _ & _ & Hs) & Hd & Hc & Hn & Ho & Hw).
  - repeat split.
  - repeat split; assumption.
Qed.

End ProcessedBatchClaim.

(** Two optimizer runs on a batch of two rows. *)
Lemma processed_batch_witness :
  gradient_steps
    (snd (batch_step (H0 := bias_backend) (default_train_args None) 1
                     (epoch_start None) two_row_batch bias_state))
  = 2%nat.
Proof.
  destruct (batch_step (H0 := bias_backend) (default_train_args None) 1
                       (epoch_start None) two_row_batch bias_state)
    as [[lv' | e] st'] eqn:Hstep; [|discriminate Hstep].
  assert (Hb : unpack7 two_row_batch
               = Ok {| b_batch_X := NpArray3 batch_a_X; b_batch_y := NpArray2 batch_a_y;
                       b_y_is_mean := NpScalar (Some 0%R);
                       b_y_is_std := NpScalar (Some 1%R);
                       b_batch_y_index := PyNone; b_in_sample_size := PyInt 2;
                       b_batch_id := PyStr "b0" |}) by reflexivity.
  assert (HX : all_finite (NpArray3 batch_a_X) = Ok true) by reflexivity.
  assert (HY : all_finite (NpArray2 batch_a_y) = Ok true) by reflexivity.
  apply (processed_batch (H0 := bias_backend) (default_train_args None) 1
           (epoch_start None) lv' two_row_batch _ bias_state st' Hb HX HY Hstep).
Defined.

(** ** Means and deviations that are not NumPy values *)

Section PlainNumbers.
Context {F : Type} `{Dtype F} `{Backend F}.

Lemma all_finite_plain (v : pyval F) :
  plain_number v = true -> all_finite v = Raise (AttributeError "size").
Proof. destruct v; cbn; intros Hv; try discriminate Hv; reflexivity. Qed.

(** X15.  The loop body reads [y_is_mean.size] and [y_is_std.size]: for a
    batch with finite input and labels whose mean is a Python float or
    integer, or whose mean is a finite NumPy value and whose deviation is
    a Python number, it raises [AttributeError] before any optimizer run,
    leaving the state of the call as it was. *)
Theorem plain_mean_or_std_raises (args : train_args F) (i : Z) (lv : loop_vars F)
        (it : item F) (b : batch F) (total : Z) (st : tstate F) :
  unpack7 it = Ok b ->
  shape_at (b_batch_X b) 0 = Ok total ->
  all_finite (b_batch_X b) = Ok true ->
  all_finite (b_batch_y b) = Ok true ->
  plain_number (b_y_is_mean b) = true \/
  (all_finite (b_y_is_mean b) = Ok true /\ plain_number (b_y_is_std b) = true) ->
  batch_step args i lv it st = (Raise (AttributeError "size"), st).
Proof.
  intros Hb Htotal HX HY Hplain.
  unfold batch_step, fbind, lift, ret.
  rewrite Hb, Htotal, HX. cbn [negb]. rewrite HY. cbn [negb].
  destruct Hplain as [Hmean | [Hmean Hstd]].
  - now rewrite (all_finite_plain _ Hmean).
  - rewrite Hmean. cbn [py_assert]. now rewrite (all_finite_plain _ Hstd).
Qed.

End PlainNumbers.

(** The default [y_is_mean=0.0] of [train] as the mean of a batch. *)
Lemma plain_mean_or_std_raises_witness :
  batch_step (default_train_args None) 1 (epoch_start None)
    (Tuple [NpArray3 batch_a_X; NpArray2 batch_a_y; PyFloat (Some 0%R);
            NpScalar (Some 1%R); PyNone; PyInt 1; PyStr "b0"])
    (initial_tstate (default_train_args None) (built_instance, empty_world) [])
  = (Raise (AttributeError "size"),
     initial_tstate (default_train_args None) (built_instance, empty_world) []).
Proof.
  assert (Hb : unpack7 (Tuple [NpArray3 batch_a_X; NpArray2 batch_a_y;
                               PyFloat (Some 0%R); NpScalar (Some 1%R); PyNone;
                               PyInt 1; PyStr "b0"])
               = Ok {| b_batch_X := NpArray3 batch_a_X; b_batch_y := NpArray2 batch_a_y;
                       b_y_is_mean := PyFloat (Some 0%R);
                       b_y_is_std := NpScalar (Some 1%R);
                       b_batch_y_index := PyNone; b_in_sample_size := PyInt 1;
                       b_batch_id := PyStr "b0" |}) by reflexivity.
  assert (Ht : shape_at (NpArray3 batch_a_X) 0 = Ok 2) by reflexivity.
  assert (HX : all_finite (NpArray3 batch_a_X) = Ok true) by reflexivity.
  assert (HY : all_finite (NpArray2 batch_a_y) = Ok true) by reflexivity.
  apply (plain_mean_or_std_raises (default_train_args None) 1 (epoch_start None)
           _ _ 2 _ Hb Ht HX HY).
  left. reflexivity.
Defined.

(** ** An epoch in which no batch is processed *)

Section EmptyEpoch.
Context {F : Type} `{Dtype F} `{Backend F}.

Lemma batch_loop_all_skipped (args : train_args F) (i : Z) (items : list (item F)) :
  Forall (fun it => nonfinite_batch it = true) items ->
  forall (lv : loop_vars F) (st : tstate F),
    exists lv', batch_loop args i lv items st = (Ok lv', st) /\
                same_accumulators lv lv'.
Proof.
  induction 1 as [|it rest Hit _ IH]; intros lv st.
  - exists lv. split; [reflexivity | repeat split].
  - destruct (batch_step_skips args i lv it st Hit) as [n Hstep].
    destruct (IH (with_total lv n) st) as (lv' & Hloop & Hacc).
    exists lv'. rewrite batch_loop_cons, Hstep. split; [exact Hloop | exact Hacc].
Qed.

(** X16.  An epoch whose feeder returns no batch, or only batches with a
    non-finite entry, ends in [AttributeError] at [actual_oos.shape]: no
    batch set [actual_oos].  Only the line that opens the epoch was
    logged; no epoch is recorded and no checkpoint written, and a [train]
    call whose first epoch to run is such an epoch raises that error. *)
Theorem epoch_without_batches (args : train_args F) (f : Z -> list (item F))
        (i : Z) (st : tstate F) :
  bound_feeder args = UserFeeder f ->
  Forall (fun it => nonfinite_batch it = true) (f i) ->
  (forall total,
     run_epoch args (UserFeeder f) i total st
     = (Raise (AttributeError "'NoneType' object has no attribute 'shape'"),
        with_env st (logged (env st)
          (LogInfo ("[" ++ sessid_str (self st) ++ "] Epoch " ++ str_of_Z i ++ " Starts"))))) /\
  (i <= epoch_end args ->
   train_epochs args i st
   = (Raise (AttributeError "'NoneType' object has no attribute 'shape'"),
      with_env st (logged (env st)
        (LogInfo ("[" ++ sessid_str (self st) ++ "] Epoch " ++ str_of_Z i ++ " Starts"))))).
Proof.
  intros Hfd Hall.
  assert (Hrun : forall total,
             run_epoch args (UserFeeder f) i total st
             = (Raise (AttributeError "'NoneType' object has no attribute 'shape'"),
                with_env st (logged (env st)
                  (LogInfo ("[" ++ sessid_str (self st) ++ "] Epoch "
                            ++ str_of_Z i ++ " Starts"))))).
  { intros total. unfold run_epoch, fbind, get, log_info, modify, lift, call_feeder.
    match goal with
    | |- context [batch_loop args i ?lv (f i) ?s] =>
        destruct (batch_loop_all_skipped args i (f i) Hall lv s)
          as (lv' & Hloop & Hacc & Hpred & _)
    end.
    rewrite Hloop. unfold epoch_finish. rewrite <- Hacc. reflexivity. }
  split; [exact Hrun|].
  intros Hle. unfold train_epochs. rewrite Hfd.
  assert (Hn : exists n, epochs_to_run i (epoch_end args) = S n).
  { exists (Z.to_nat (epoch_end args - i)). unfold epochs_to_run. lia. }
  destruct Hn as [n ->]. cbn [epoch_loop]. unfold fbind. now rewrite Hrun.
Qed.

End EmptyEpoch.

(** A feeder whose two batches both hold a NaN. *)
Lemma epoch_without_batches_witness :
  fst (train_epochs (default_train_args (Some nan_feeder)) 1
         (initial_tstate (default_train_args (Some nan_feeder))
                         (built_instance, empty_world) []))
  = Raise (AttributeError "'NoneType' object has no attribute 'shape'").
Proof.
  assert (Hfd : bound_feeder (default_train_args (Some nan_feeder))
                = UserFeeder nan_feeder) by reflexivity.
  assert (Hall : Forall (fun it => nonfinite_batch it = true) (nan_feeder 1)).
  { repeat constructor. }
  rewrite (proj2 (epoch_without_batches (default_train_args (Some nan_feeder))
                    nan_feeder 1 _ Hfd Hall)); [reflexivity|].
  cbn. lia.
Defined.

(** ** Skipped batches and the end of the epoch *)

Section SkippedBatches.
Context {F : Type} `{Dtype F} `{Backend F}.

(** When every batch of the epoch is skipped, line 805 reads the shape of
    [actual_oos], which is still [None]. *)
Lemma run_epoch_all_skipped (args : train_args F) (f : Z -> list (item F))
      (i : Z) (total : option Z) (st : tstate F) :
  Forall (fun it => nonfinite_batch it = true) (f i) ->
  run_epoch args (UserFeeder f) i total st
  = (Raise (AttributeError "'NoneType' object has no attribute 'shape'"),
     with_env st (logged (env st)
       (LogInfo ("[" ++ sessid_str (self st) ++ "] Epoch " ++ str_of_Z i ++ " Starts")))).
Proof.
  intros Hall. unfold run_epoch, fbind, get, log_info, modify, lift, call_feeder.
  match goal with
  | |- context [batch_loop args i ?lv (f i) ?s] =>
      destruct (batch_loop_all_skipped args i (f i) Hall lv s)
        as (lv' & Hloop & Hacc & Hpred & _)
  end.
  rewrite Hloop. unfold epoch_finish. rewrite <- Hacc. reflexivity.
Qed.

(** C4.  What the code does with a batch whose [X] or [y] holds a
    non-finite entry: the loop body raises nothing and changes neither the
    instance, nor the session (no optimizer run), nor the accumulators of
    the epoch, and the loop goes on with the next batch; a [train] call
    ends exactly as it does with a feeder that returns the same sequences
    without these batches.  The epoch is not safe, though: when every
    batch of an epoch is skipped, no batch has set [actual_oos], the epoch
    ends in [AttributeError] at line 805, and so does the [train] call
    whose first epoch it is. *)
Theorem nonfinite_batches_skipped (args : train_args F) (f : Z -> list (item F))
        (it : item F) :
  bound_feeder args = UserFeeder f ->
  nonfinite_batch it = true ->
  (forall i lv st,
     exists n,
       batch_step args i lv it st = (Ok (with_total lv n), st) /\
       forall rest,
         batch_loop args i lv (it :: rest) st
         = batch_loop args i (with_total lv n) rest st) /\
  (forall s,
     train args s
     = train (set_data_feeder args (Some (without_nonfinite f))) s) /\
  (forall i total st,
     Forall (fun it' => nonfinite_batch it' = true) (f i) ->
     run_epoch args (UserFeeder f) i total st
     = (Raise (AttributeError "'NoneType' object has no attribute 'shape'"),
        with_env st (logged (env st)
          (LogInfo ("[" ++ sessid_str (self st) ++ "] Epoch " ++ str_of_Z i
                    ++ " Starts"))))) /\
  (forall s start s',
     graph (fst s) <> None ->
     train_start args s = (Ok start, s') ->
     fst start <= epoch_end args ->
     Forall (fun it' => nonfinite_batch it' = true) (f (fst start)) ->
     fst (train args s)
     = Raise (AttributeError "'NoneType' object has no attribute 'shape'")).
Proof.
  intros Hfeeder Hbad. split; [|split; [|split]].
  - intros i lv st.
    destruct (batch_step_skips args i lv it st Hbad) as [n Hstep].
    exists n. split; [exact Hstep|].
    intros rest. now rewrite batch_loop_cons, Hstep.
  - intros s. unfold train, fbind. cbn [get].
    destruct (graph (fst s)); [|reflexivity].
    change (train_start (set_data_feeder args (Some (without_nonfinite f))))
      with (train_start args).
    destruct (train_start args s) as [[start|e] s']; [|reflexivity].
    unfold train_epochs.
    rewrite Hfeeder, (bound_feeder_user args f (without_nonfinite f) Hfeeder).
    change (epoch_end (set_data_feeder args (Some (without_nonfinite f))))
      with (epoch_end args).
    change (initial_tstate (set_data_feeder args (Some (without_nonfinite f))))
      with (initial_tstate args).
    rewrite (epoch_loop_filtered args f _ (fst start) None None).
    reflexivity.
  - intros i total st Hall. now apply run_epoch_all_skipped.
  - intros s start s' Hgraph Hstart Hle Hall.
    unfold train, fbind. cbn [get].
    destruct (graph (fst s)); [|contradiction].
    rewrite Hstart. unfold train_epochs. rewrite Hfeeder.
    assert (Hn : exists n, epochs_to_run (fst start) (epoch_end args) = S n).
    { exists (Z.to_nat (epoch_end args - fst start)). unfold epochs_to_run. lia. }
    destruct Hn as [n ->]. cbn [epoch_loop]. unfold fbind.
    now rewrite (run_epoch_all_skipped args f (fst start) None _ Hall).
Qed.

End SkippedBatches.

(** [train] on a newly built instance with a feeder whose every epoch is
    the NaN batch alone. *)
Lemma nonfinite_batches_skipped_witness :
  bound_feeder (default_train_args (Some (fun _ => [nan_batch])))
  = UserFeeder (fun _ => [nan_batch]) /\
  nonfinite_batch nan_batch = true /\
  (forall i lv st,
     exists n,
       batch_step (default_train_args (Some (fun _ => [nan_batch]))) i lv nan_batch st
       = (Ok (with_total lv n), st)) /\
  fst (train (default_train_args (Some (fun _ => [nan_batch])))
         (built_instance, empty_world))
  = Raise (AttributeError "'NoneType' object has no attribute 'shape'").
Proof.
  assert (Hfeeder : bound_feeder (default_train_args (Some (fun _ => [nan_batch])))
                    = UserFeeder (fun _ => [nan_batch])) by reflexivity.
  assert (Hbad : nonfinite_batch nan_batch = true) by reflexivity.
  pose proof (nonfinite_batches_skipped
                (default_train_args (Some (fun _ => [nan_batch])))
                (fun _ => [nan_batch]) nan_batch Hfeeder Hbad)
    as (Hstep & _ & _ & Htrain).
  split; [exact Hfeeder|]. split; [exact Hbad|]. split.
  - intros i lv st. destruct (Hstep i lv st) as [n [Hn _]].
    exists n. exact Hn.
  - eapply (Htrain (built_instance, empty_world)).
    + cbn. discriminate.
    + lazy. reflexivity.
    + cbn. lia.
    + repeat constructor.
Defined.

(** ** Checkpoints written and read back *)

Section RoundTrip.
Context {F : Type} `{Dtype F} `{Backend F}.

(** X17.  When both checkpoint paths of an epoch can be written, the two
    saves succeed: the epoch file and the latest file then hold the
    variables of the session, and the success is logged.  Restoring either
    file, when it can be read, gives exactly those variables back. *)
Theorem checkpoint_round_trip (i : Z) (st : tstate F) :
  let dir := model_dir (hp (self st)) in
  let epoch_path := path_join dir (epoch_ckpt (sessid_str (self st)) i) in
  let latest_path := path_join dir (latest_ckpt (sessid_str (self st))) in
  writable (env st) epoch_path = true ->
  writable (env st) latest_path = true ->
  exists w',
    save_checkpoints i st = (Ok tt, with_env st w') /\
    files w' !! latest_path = Some (sess st) /\
    files w' !! epoch_path = Some (sess st) /\
    log w' = log (env st) ++ [LogInfo "Model checkpoint successfully saved."] /\
    (model_saver (self st) = true ->
     (readable (env st) latest_path = true ->
      fst (restore_checkpoint (latest_ckpt (sessid_str (self st))) (self st, w'))
      = Ok (sess st)) /\
     (readable (env st) epoch_path = true ->
      fst (restore_checkpoint (epoch_ckpt (sessid_str (self st)) i) (self st, w'))
      = Ok (sess st))).
Proof.
  intros dir epoch_path latest_path Hwe Hwl.
  unfold save_checkpoints, try_except, fbind, get, lift, modify, log_info, saver_save.
  fold dir. fold epoch_path. fold latest_path.
  rewrite Hwe. cbn. fold dir. fold latest_path. rewrite Hwl. cbn.
  assert (Hl : <[latest_path := sess st]> (<[epoch_path := sess st]> (files (env st)))
               !! latest_path = Some (sess st)) by apply lookup_insert_eq.
  assert (He : <[latest_path := sess st]> (<[epoch_path := sess st]> (files (env st)))
               !! epoch_path = Some (sess st)).
  { destruct (decide (latest_path = epoch_path)) as [-> | Hne].
    - apply lookup_insert_eq.
    - rewrite lookup_insert_ne by exact Hne. apply lookup_insert_eq. }
  eexists. split; [reflexivity|]. cbn.
  split; [exact Hl|]. split; [exact He|]. split; [reflexivity|].
  intros Hsaver. split; intros Hread.
  - unfold restore_checkpoint, fbind, get, lift, saver_restore. cbn.
    rewrite Hsaver. fold dir. fold latest_path. rewrite Hread.
    now rewrite Hl.
  - unfold restore_checkpoint, fbind, get, lift, saver_restore. cbn.
    rewrite Hsaver. fold dir. fold epoch_path. rewrite Hread.
    now rewrite He.
Qed.

(** X18.  A [train] call that restores a named checkpoint starts its epoch
    counter at [epoch_prev + 1], whatever the instance trained before, with
    the restored variables; it keeps the results accumulated so far and the
    trained flags, keeps the session identifier when there is one and draws
    a new one otherwise, and changes no file. *)
Theorem named_checkpoint_start (args : train_args F) (s0 : instance F) (w : world F)
        (name : string) (v : variables) :
  restore_model args = true ->
  pre_trained_model args = Some name ->
  fst (restore_checkpoint name (s0, w)) = Ok v ->
  exists s1 w',
    train_start args (s0, w) = (Ok (epoch_prev args + 1, v), (s1, w')) /\
    res s1 = res s0 /\
    graph_trained s1 = graph_trained s0 /\
    trained_epochs s1 = trained_epochs s0 /\
    files w' = files w /\
    (forall id, sessid s0 = Some id -> s1 = s0 /\ py_random w' = py_random w) /\
    (sessid s0 = None ->
     s1 = set_sessid s0 (Some (fst (id_generator (py_random w)))) /\
     py_random w' = snd (id_generator (py_random w))).
Proof.
  intros Hrestore Hname Hv.
  unfold train_start. rewrite Hrestore, Hname.
  unfold try_except, fbind.
  pose proof (restore_checkpoint_state name (s0, w)) as Hstate.
  destruct (restore_checkpoint name (s0, w)) as [[v' | e] s'];
    cbn [fst snd] in Hv, Hstate; [|discriminate Hv].
  injection Hv as ->. subst s'.
  unfold get, new_sessid, modify, ret, log_world, logging_session_parameters,
    fbind, get, modify.
  cbn [fst snd].
  destruct (sessid s0) as [id|] eqn:Hid; cbn [fst snd].
  - do 2 eexists. split; [reflexivity|]. cbn.
    repeat split; try discriminate.
  - destruct (id_generator (py_random w)) as [id r] eqn:Hgen. cbn [fst snd].
    do 2 eexists. split; [reflexivity|]. cbn.
    repeat split; try discriminate.
Qed.

End RoundTrip.

(** The sixth epoch of the trained instance, saved and restored. *)
Lemma checkpoint_round_trip_witness :
  exists w',
    save_checkpoints 6
      (initial_tstate (default_train_args None) (trained_instance, empty_world)
                      [[Some 1%R]])
    = (Ok tt,
       with_env (initial_tstate (default_train_args None)
                                (trained_instance, empty_world) [[Some 1%R]]) w') /\
    fst (restore_checkpoint (latest_ckpt "AB12CD") (trained_instance, w'))
    = Ok [[Some 1%R]].
Proof.
  set (st := initial_tstate (default_train_args None) (trained_instance, empty_world)
                            [[Some 1%R]]).
  assert (Hwe : writable (env st)
                  (path_join (model_dir (hp (self st)))
                             (epoch_ckpt (sessid_str (self st)) 6)) = true)
    by reflexivity.
  assert (Hwl : writable (env st)
                  (path_join (model_dir (hp (self st)))
                             (latest_ckpt (sessid_str (self st)))) = true)
    by reflexivity.
  destruct (checkpoint_round_trip 6 st Hwe Hwl) as (w' & Hsave & _ & _ & _ & Hread).
  exists w'. split; [exact Hsave|].
  apply (proj1 (Hread eq_refl)). reflexivity.
Defined.

(** The trained instance restoring its latest checkpoint by name. *)
Lemma named_checkpoint_start_witness :
  exists s1 w',
    train_start (named_train_args "AB12CD_latest.ckpt" None)
                (trained_instance, world_with_latest)
    = (Ok (1, [[Some 1%R]]), (s1, w')) /\
    res s1 = trained_results.
Proof.
  assert (Hv : fst (restore_checkpoint "AB12CD_latest.ckpt"
                      (trained_instance, world_with_latest))
               = Ok [[Some 1%R]]) by reflexivity.
  destruct (named_checkpoint_start (named_train_args "AB12CD_latest.ckpt" None)
              trained_instance world_with_latest "AB12CD_latest.ckpt" [[Some 1%R]]
              eq_refl eq_refl Hv)
    as (s1 & w' & Hstart & Hres & _).
  exists s1, w'. split; [exact Hstart | exact Hres].
Defined.

(** ** Prediction *)

Section Prediction.
Context {F : Type} `{Dtype F} `{Backend F}.

(** X19.  [predict] on an instance with a graph but no session identifier
    and no checkpoint name yields nothing and ends in the [AssertionError]
    of its check on [sessid], leaving instance and world as they were. *)
Theorem predict_needs_session (args : predict_args F) (s : instance F * world F) :
  graph (fst s) <> None ->
  predict_pre_trained_model args = None ->
  sessid (fst s) = None ->
  exists msg, predict args s = (([], Raise (AssertionError msg)), s).
Proof.
  intros Hgraph Hname Hsess. unfold predict.
  destruct (graph (fst s)); [|contradiction].
  unfold predict_start, fbind, get, lift. rewrite Hname. cbn [fst snd].
  rewrite Hsess. cbn. eexists. reflexivity.
Qed.

Lemma map_map_rows {A B C} (f : A -> B) (g : B -> C) (l : list (list A)) :
  map (map g) (map (map f) l) = map (map (fun x => g (f x))) l.
Proof. rewrite map_map. apply map_ext. intros row. apply map_map. Qed.

Lemma predict_item_tuple (v : variables) (s : instance F * world F)
      (g : graph_tensors F) (X : block F) (Y : matrix F)
      (mean std idx size id : pyval F) (m sd : F) :
  graph_keys (fst s) = Some g ->
  as_number mean = Some m ->
  as_number std = Some sd ->
  predict_item v (Tuple [NpArray3 X; NpArray2 Y; mean; std; idx; size; id]) s
  = (Ok {| out_pred_val :=
             NpArray3 [map (map (fun e => fadd (fmul e sd) m))
                           (pred g v (tf_random (snd s)) X)];
           out_batch_X := NpArray3 X;
           out_batch_y := NpArray2 (map (map (fun e => fadd (fmul e sd) m)) Y);
           out_y_mean := mean; out_y_astd := std; out_y_index := idx;
           out_this_gvkey := id |},
     (fst s, set_tf_random (snd s) (next_rng (tf_random (snd s))))).
Proof.
  intros Hg Hm Hsd.
  unfold predict_item, fbind, lift, get, modify, ret, run_prediction.
  cbn [unpack7 bind b_batch_X b_batch_y b_y_is_mean b_y_is_std b_batch_y_index
       b_batch_id shape_at np_shape nth_error as_block fst snd].
  rewrite Hg. cbn [fst snd].
  unfold affine.
  destruct std; try discriminate Hsd; injection Hsd as <-;
    destruct mean; try discriminate Hm; injection Hm as <-;
    cbn; rewrite ?map_map_rows; reflexivity.
Qed.

(** X20.  On a feeder tuple with an input of the shape of the placeholder
    [X], rank 2 labels and numbers for the mean and the deviation, one step
    of [predict] yields the prediction of the graph for the whole input,
    de-normalised as [pred * std + mean] inside one more leading dimension,
    the labels de-normalised the same way, and the other fields as given;
    the index, the sample size and the identifier do not enter the
    computation.  Over a sequence of such tuples it yields one result per
    tuple and ends normally. *)
Theorem predict_on_tuples (v : variables) (g : graph_tensors F) :
  (forall s X Y mean std idx size id m sd,
     graph_keys (fst s) = Some g ->
     fits_placeholder (gk_hp g) X = true ->
     as_number mean = Some m ->
     as_number std = Some sd ->
     predict_item v (Tuple [NpArray3 X; NpArray2 Y; mean; std; idx; size; id]) s
     = (Ok {| out_pred_val :=
                NpArray3 [map (map (fun e => fadd (fmul e sd) m))
                              (pred g v (tf_random (snd s)) X)];
              out_batch_X := NpArray3 X;
              out_batch_y := NpArray2 (map (map (fun e => fadd (fmul e sd) m)) Y);
              out_y_mean := mean; out_y_astd := std; out_y_index := idx;
              out_this_gvkey := id |},
        (fst s, set_tf_random (snd s) (next_rng (tf_random (snd s)))))) /\
  (forall items s,
     graph_keys (fst s) = Some g ->
     Forall (fun it => fitting_tuple (gk_hp g) it = true) items ->
     length (fst (fst (predict_items v items s))) = length items /\
     snd (fst (predict_items v items s)) = Ok tt /\
     fst (snd (predict_items v items s)) = fst s).
Proof.
  split.
  - intros. now apply predict_item_tuple.
  - intros items s Hg Hall. revert s Hg.
    induction Hall as [|it rest Hit _ IH]; intros s Hg.
    + repeat split.
    + unfold fitting_tuple in Hit.
      destruct it as [fields | x]; [|discriminate Hit].
      destruct fields as [|[| | | | | | |X] fields]; try discriminate Hit.
      apply andb_true_iff in Hit as [Hit _].
      unfold prediction_tuple in Hit.
      destruct fields as [|[| | | | | |Y|] fields]; try discriminate Hit.
      destruct fields as [|mean fields]; [discriminate Hit|].
      destruct fields as [|std fields]; [discriminate Hit|].
      do 3 (destruct fields as [|? fields]; [discriminate Hit|]).
      destruct fields; [|discriminate Hit].
      destruct (as_number mean) as [m|] eqn:Hm; [|discriminate Hit].
      destruct (as_number std) as [sd|] eqn:Hsd; [|discriminate Hit].
      cbn [predict_items].
      rewrite (predict_item_tuple v s g X Y mean std _ _ _ m sd Hg Hm Hsd).
      specialize (IH (fst s, set_tf_random (snd s) (next_rng (tf_random (snd s)))) Hg).
      destruct (predict_items v rest _) as [[ps r] s''].
      cbn [fst snd length] in IH |- *.
      destruct IH as (Hlen & Hr & Hs). repeat split; [now rewrite Hlen | exact Hr | exact Hs].
Qed.

Lemma predict_start_untouched (args : predict_args F) (s0 : instance F * world F) :
  preserves (untouched_by_predict s0) (predict_start args).
Proof.
  unfold predict_start, restore_checkpoint, logging_session_parameters, new_sessid,
    log_world.
  repeat first
    [ preserves_step
    | lazymatch goal with
      | |- preserves _ (modify _) =>
          apply preserves_modify; intros [x w] Hx; cbn [fst snd] in Hx |- *;
          first [ exact Hx
                | destruct (id_generator (py_random w)); exact Hx ]
      end ].
Qed.

Lemma predict_item_untouched (v : variables) (data : item F)
      (s0 : instance F * world F) :
  preserves (untouched_by_predict s0) (predict_item v data).
Proof.
  unfold predict_item.
  repeat first
    [ preserves_step
    | lazymatch goal with
      | |- preserves _ (modify _) =>
          apply preserves_modify; intros [x w] Hx; exact Hx
      end ].
Qed.

Lemma predict_items_untouched (v : variables) (items : list (item F))
      (s0 : instance F * world F) :
  forall s, untouched_by_predict s0 s ->
            untouched_by_predict s0 (snd (predict_items v items s)).
Proof.
  induction items as [|data rest IH]; intros s Hs; cbn [predict_items].
  - exact Hs.
  - pose proof (predict_item_untouched v data s0 s Hs) as Hitem.
    destruct (predict_item v data s) as [[p | e] s']; cbn [snd] in Hitem |- *;
      [|exact Hitem].
    specialize (IH s' Hitem).
    destruct (predict_items v rest s') as [[ps r] s'']. exact IH.
Qed.

(** X21.  [predict] only reads the model: however it ends, the
    hyperparameters, the graph and its tensors, the saver, the results,
    the trained flag and the epoch count of the instance are the same
    afterwards, no checkpoint file was written or removed, and nothing was
    printed.  The session identifier changes only when there was none and a
    named checkpoint was restored. *)
Theorem predict_reads_only (args : predict_args F) (s : instance F * world F) :
  untouched_by_predict s (snd (predict args s)) /\
  (sessid (fst s) <> None \/ predict_pre_trained_model args = None ->
   sessid (fst (snd (predict args s))) = sessid (fst s)).
Proof.
  assert (Hinit : untouched_by_predict s s) by (repeat split).
  split.
  - unfold predict.
    destruct (graph (fst s)); [|exact Hinit].
    pose proof (predict_start_untouched args s s Hinit) as Hstart.
    destruct (predict_start args s) as [[v | e] s']; cbn [snd] in Hstart |- *;
      [|exact Hstart].
    destruct (negb (is_none (predict_batch_X args))).
    + now apply predict_items_untouched.
    + destruct (predict_data_feeder args) as [items|]; [|exact Hstart].
      now apply predict_items_untouched.
  - intros Hcase.
    assert (Hstart : sessid (fst (snd (predict_start args s))) = sessid (fst s)).
    { destruct (predict_pre_trained_model args) as [name|] eqn:Hname.
      - destruct Hcase as [Hsome | Hnone]; [|discriminate Hnone].
        unfold predict_start. rewrite Hname. unfold try_except, fbind.
        pose proof (restore_checkpoint_state name s) as Hstate.
        destruct (restore_checkpoint name s) as [[v | e] s1];
          cbn [snd] in Hstate; subst s1.
        + unfold logging_session_parameters, log_world, fbind, get, modify, ret.
          cbn [fst snd].
          destruct (sessid (fst s)) eqn:Hs; [|contradiction].
          cbn. exact Hs.
        + reflexivity.
      - unfold predict_start. rewrite Hname.
        unfold fbind, get, lift, py_assert. cbn [fst snd].
        destruct (sessid (fst s)) eqn:Hs; [|cbn; exact Hs].
        pose proof (restore_checkpoint_state (latest_ckpt (sessid_str (fst s))) s)
          as Hstate.
        destruct (restore_checkpoint _ s) as [[v | e] s1];
          cbn [snd] in Hstate; subst s1; cbn; exact Hs. }
    assert (Hitems : forall v items s1,
               sessid (fst s1) = sessid (fst s) ->
               sessid (fst (snd (predict_items v items s1))) = sessid (fst s)).
    { intros v items. induction items as [|data rest IH]; intros s1 Hs1;
        cbn [predict_items]; [exact Hs1|].
      assert (Hitem : sessid (fst (snd (predict_item v data s1))) = sessid (fst s)).
      { revert s1 Hs1.
        change (preserves (fun s1 => sessid (fst s1) = sessid (fst s))
                          (predict_item v data)).
        unfold predict_item.
        repeat first
          [ preserves_step
          | lazymatch goal with
            | |- preserves _ (modify _) =>
                apply preserves_modify; intros [x w] Hx; exact Hx
            end ]. }
      destruct (predict_item v data s1) as [[p | e] s']; cbn [snd] in Hitem |- *;
        [|exact Hitem].
      specialize (IH s' Hitem).
      destruct (predict_items v rest s') as [[ps r] s'']. exact IH. }
    unfold predict.
    destruct (graph (fst s)); [|reflexivity].
    destruct (predict_start args s) as [[v | e] s']; cbn [snd] in Hstart |- *;
      [|exact Hstart].
    destruct (negb (is_none (predict_batch_X args))).
    + now apply Hitems.
    + destruct (predict_data_feeder args) as [items|]; [|exact Hstart].
      now apply Hitems.
Qed.

End Prediction.

(** [predict] right after the constructor. *)
Lemma predict_needs_session_witness :
  exists msg,
    predict raw_predict_args (built_instance, empty_world)
    = (([], Raise (AssertionError msg)), (built_instance, empty_world)).
Proof.
  apply (predict_needs_session raw_predict_args (built_instance, empty_world)).
  - discriminate.
  - reflexivity.
  - reflexivity.
Defined.

(** ** What a completed [train] call returns *)

Section TrainReturns.
Context {F : Type} `{Dtype F} `{Backend F}.

(** X22.  A [train] call that returns hands back the result holders of the
    instance, with the weights exactly when [return_weights] is set; the
    instance is then marked trained, its epoch count is the end epoch, or
    the epoch before the start when the start lies beyond the end, and the
    epochs from the start to the end were appended to the recorded epochs.
    When the start lies beyond the end nothing was trained: results and
    checkpoint files are those the start of the call left. *)
Theorem train_returns_results (args : train_args F) (s s' : instance F * world F)
        (start : Z * variables) (r : option (train_results F))
        (s1 : instance F) (w1 : world F) :
  graph (fst s) <> None ->
  train_start args s = (Ok start, s') ->
  train args s = (Ok r, (s1, w1)) ->
  r = Some {| returned := res s1; with_weights := return_weights args |} /\
  graph_trained s1 = true /\
  trained_epochs s1 = Z.max (fst start - 1) (epoch_end args) /\
  all_epochs (res s1)
  = all_epochs (res (fst s'))
      ++ epochs_from (fst start) (Z.to_nat (epoch_end args + 1 - fst start)) /\
  (epoch_end args < fst start ->
   res s1 = res (fst s') /\ w1 = snd s').
Proof.
  intros Hgraph Hstart Htrain.
  destruct (train_completed args s s' start r s1 w1 Hgraph Hstart Htrain)
    as (_ & _ & Htrained & Hepochs & Hall).
  unfold epochs_to_run in Hepochs, Hall.
  unfold train, fbind in Htrain. cbn [get] in Htrain.
  destruct (graph (fst s)); [|contradiction].
  rewrite Hstart in Htrain. unfold train_epochs, epochs_to_run in Htrain.
  split; [|split; [exact Htrained|split; [lia|split; [exact Hall|]]]].
  - destruct (epoch_loop _ _ _ _ _ _) as [[i | e] st]; [|discriminate Htrain].
    injection Htrain as <- <- _. reflexivity.
  - intros Hbeyond.
    replace (Z.to_nat (epoch_end args + 1 - fst start)) with O in Htrain by lia.
    cbn in Htrain. injection Htrain as _ <- <-. split; reflexivity.
Qed.

(** X23.  Without batch data and without a feeder, nothing can be
    iterated: a [train] call with an epoch to run raises [TypeError] when
    it calls [data_feeder], having logged only the start of the epoch, and
    [predict] raises it after the variables were restored, yielding
    nothing. *)
Theorem no_data_source (args : train_args F) (pargs : predict_args F) :
  bound_feeder args = NoFeeder ->
  predict_batch_X pargs = PyNone ->
  predict_data_feeder pargs = None ->
  (forall i st,
     i <= epoch_end args ->
     train_epochs args i st
     = (Raise (TypeError "'NoneType' object is not callable"),
        with_env st (logged (env st)
          (LogInfo ("[" ++ sessid_str (self st) ++ "] Epoch " ++ str_of_Z i ++ " Starts"))))) /\
  (forall s v s',
     graph (fst s) <> None ->
     predict_start pargs s = (Ok v, s') ->
     predict pargs s
     = (([], Raise (TypeError "'NoneType' object is not callable")), s')).
Proof.
  intros Hfd HX Hfeeder. split.
  - intros i st Hle. unfold train_epochs. rewrite Hfd.
    assert (Hn : exists n, epochs_to_run i (epoch_end args) = S n).
    { exists (Z.to_nat (epoch_end args - i)). unfold epochs_to_run. lia. }
    destruct Hn as [n ->]. reflexivity.
  - intros s v s' Hgraph Hstart. unfold predict.
    destruct (graph (fst s)); [|contradiction].
    rewrite Hstart, HX, Hfeeder. reflexivity.
Qed.

End TrainReturns.

(** [train()] on a built instance without any data. *)
Lemma no_data_source_witness :
  fst (train (default_train_args None) (built_instance, empty_world))
  = Raise (TypeError "'NoneType' object is not callable").
Proof.
  assert (Hfd : bound_feeder (default_train_args None) = NoFeeder) by reflexivity.
  pose proof (proj1 (no_data_source (default_train_args None)
                       {| predict_batch_X := PyNone; predict_data_feeder := None;
                          predict_pre_trained_model := None |}
                       Hfd eq_refl eq_refl)) as Hrun.
  unfold train, fbind. cbn [get fst graph built_instance].
  destruct (train_start (default_train_args None) (built_instance, empty_world))
    as [[start | e] s'] eqn:Hstart; [|discriminate Hstart].
  rewrite Hrun; [reflexivity|].
  injection Hstart as <- _. cbn. lia.
Defined.

(** A call that starts afresh with the end epoch 0. *)
Lemma train_returns_results_witness :
  exists r s1 w1,
    train (direct_train_args 0) (built_instance, empty_world) = (Ok r, (s1, w1)) /\
    trained_epochs s1 = 0 /\ graph_trained s1 = true.
Proof.
  destruct (train (direct_train_args 0) (built_instance, empty_world))
    as [[r | e] [s1 w1]] eqn:Htrain; [|discriminate Htrain].
  destruct (train_start (direct_train_args 0) (built_instance, empty_world))
    as [[start | e] s'] eqn:Hstart; [|discriminate Hstart].
  exists r, s1, w1. split; [reflexivity|].
  destruct (train_returns_results (direct_train_args 0) (built_instance, empty_world)
              s' start r s1 w1 ltac:(discriminate) Hstart Htrain)
    as (_ & Htrained & Hepochs & _).
  split; [|exact Htrained].
  rewrite Hepochs. injection Hstart as <- _. reflexivity.
Defined.

(** Two tuples from a feeder, after training. *)
Lemma predict_on_tuples_witness :
  length (fst (fst (predict (feeder_predict_args [ten_step_batch; ten_step_batch])
                            (trained_instance, world_with_latest))))
  = 2%nat.
Proof.
  unfold predict. cbn [fst graph trained_instance].
  destruct (predict_start (feeder_predict_args [ten_step_batch; ten_step_batch])
                          (trained_instance, world_with_latest))
    as [[v | e] s'] eqn:Hstart; [|discriminate Hstart].
  cbn [predict_batch_X feeder_predict_args is_none negb predict_data_feeder].
  apply (proj2 (predict_on_tuples v default_graph)).
  - injection Hstart as _ <-. reflexivity.
  - repeat constructor.
Defined.

(** ** Bounds of the loss *)

Section LossBounds.
Local Open Scope R_scope.

Lemma of_Q_2_real : of_Q (F := R) 2 = 2.
Proof. cbn. unfold Q2R. cbn. lra. Qed.

Lemma l2_loss_nonneg (t : list R) : 0 <= l2_loss t.
Proof.
  unfold l2_loss. rewrite of_Q_2_real. cbn [fdiv fmul real_dtype].
  pose proof (reduce_sum_squares_nonneg t). lra.
Qed.

Lemma reduce_sum_nonneg (l : list R) : (forall x, In x l -> 0 <= x) -> 0 <= reduce_sum l.
Proof.
  induction l as [|a l IH]; intros Hall.
  - rewrite reduce_sum_nil. lra.
  - rewrite reduce_sum_cons.
    pose proof (Hall a ltac:(now left)).
    pose proof (IH ltac:(intros x Hx; apply Hall; now right)). lra.
Qed.

Lemma regularizer_nonneg (l1 l2 : R) (tv : list (list R)) :
  0 <= l1 -> 0 <= l2 -> 0 <= apply_regularization (l1_l2_regularizer l1 l2) tv.
Proof.
  intros H1 H2. unfold apply_regularization. apply reduce_sum_nonneg.
  intros x Hx. apply in_map_iff in Hx. destruct Hx as (w & <- & _).
  unfold l1_l2_regularizer. cbn [fadd fmul real_dtype].
  assert (Habs : 0 <= reduce_sum (map fabs w)).
  { apply reduce_sum_nonneg. intros z Hz. apply in_map_iff in Hz.
    destruct Hz as (u & <- & _). cbn. apply Rabs_pos. }
  pose proof (l2_loss_nonneg w) as Hsq.
  pose proof (Rmult_le_pos _ _ H1 Habs). pose proof (Rmult_le_pos _ _ H2 Hsq). lra.
Qed.

Lemma subtract_self_zero (a : matrix R) :
  reduce_sum (map (fun x => x * x) (concat (zip_with (zip_with Rminus) a a))) = 0.
Proof.
  apply reduce_sum_zeros. intros x Hx.
  apply in_concat in Hx. destruct Hx as (row & Hrow & Hx).
  assert (Hzero : forall (u : list R) z, In z (zip_with Rminus u u) -> z = 0).
  { induction u as [|c u IH]; cbn; intros z Hz; [contradiction|].
    destruct Hz as [<- | Hz]; [lra | now apply IH]. }
  assert (Hrows : forall (m : matrix R) r, In r (zip_with (zip_with Rminus) m m) ->
                    forall z, In z r -> z = 0).
  { induction m as [|u m IH]; cbn; intros r Hr z Hz; [contradiction|].
    destruct Hr as [<- | Hr]; [now apply (Hzero u) | now apply (IH r Hr)]. }
  rewrite (Hrows a row Hrow x Hx). lra.
Qed.

(** X24.  With non-negative regularisation scales and in-sample labels
    and predictions of one shape, the training loss is at least the
    penalty of the weights, which is itself non-negative, and equals it
    when the in-sample predictions are the in-sample labels; with
    out-of-sample labels and predictions of one shape the validation loss
    is non-negative. *)
Theorem loss_bounds (l1 l2 : R) (tv : list (list R)) (c : Z) (y pred : matrix R) :
  0 <= l1 -> 0 <= l2 ->
  (same_shape (y_is c y) (pred_is c pred) = true ->
   exists v, loss l1 l2 tv c y pred = Ok v /\
             0 <= apply_regularization (l1_l2_regularizer l1 l2) tv <= v) /\
  (same_shape (y_oos c y) (pred_oos c pred) = true ->
   exists v, loss_oos c y pred = Ok v /\ 0 <= v) /\
  (y_is c y = pred_is c pred ->
   same_shape (y_is c y) (pred_is c pred) = true ->
   loss l1 l2 tv c y pred = Ok (apply_regularization (l1_l2_regularizer l1 l2) tv)).
Proof.
  intros H1 H2.
  pose proof (regularizer_nonneg l1 l2 tv H1 H2) as Hreg.
  split; [|split].
  - intros Hshape. unfold loss, subtract. rewrite Hshape. cbn [bind].
    eexists. split; [reflexivity|].
    pose proof (l2_loss_nonneg
                  (concat (zip_with (zip_with fsub) (y_is c y) (pred_is c pred))))
      as Hres.
    unfold l2_loss in Hres. cbn in Hres |- *. lra.
  - intros Hshape. unfold loss_oos, subtract. rewrite Hshape. cbn [bind].
    eexists. split; [reflexivity | apply l2_loss_nonneg].
  - intros Heq Hshape. unfold loss, subtract. rewrite Hshape. cbn [bind].
    rewrite <- Heq. f_equal. unfold l2_loss. cbn [fsub fadd fdiv fmul real_dtype].
    rewrite subtract_self_zero, of_Q_2_real. lra.
Qed.

End LossBounds.

Section LossExample.
Local Open Scope R_scope.

(** Labels predicted exactly in sample, and two weights. *)
Lemma loss_bounds_witness :
  loss (1 / 100) (1 / 1000) [[1; 2]] 1%Z [[4]; [7]] [[4]; [9]]
  = Ok (apply_regularization (l1_l2_regularizer (1 / 100) (1 / 1000)) [[1; 2]]) /\
  exists v, loss_oos 1%Z [[4]; [7]] [[4]; [9]] = Ok v /\ 0 <= v.
Proof.
  pose proof (loss_bounds (1 / 100) (1 / 1000) [[1; 2]] 1%Z [[4]; [7]] [[4]; [9]]
                ltac:(lra) ltac:(lra)) as (_ & Hoos & Heq).
  split; [apply Heq; reflexivity | apply Hoos; reflexivity].
Defined.

End LossExample.

(** ** The result holders stay aligned *)

Section Aligned.
Context {F : Type} `{Dtype F} `{Backend F}.

Ltac aligned_modify :=
  lazymatch goal with
  | |- preserves _ (modify _) =>
      apply preserves_modify; intros st Hst;
      first [ exact Hst
            | destruct (cur_inner_iteration st); exact Hst
            | destruct Hst as (H1 & H2 & H3 & H4);
              unfold aligned_state, aligned; cbn;
              rewrite ?length_app; cbn [length];
              repeat split; congruence ]
  | |- preserves _ (log_info _) =>
      unfold log_info; apply preserves_modify; intros st Hst; exact Hst
  end.

Ltac aligned_all := repeat first [ preserves_step | aligned_modify ].

Lemma aligned_the_graph_keys : preserves aligned_state the_graph_keys.
Proof. unfold the_graph_keys. aligned_all. Qed.

Lemma aligned_tensor_value (name : string) : preserves aligned_state (tensor_value name).
Proof. unfold tensor_value. aligned_all. Qed.

Lemma aligned_store_cell_state (key : string) (t : list F) :
  preserves aligned_state (store_cell_state key t).
Proof. unfold store_cell_state. aligned_all. Qed.

Lemma aligned_store_fc_state (key : string) (t : list F) :
  preserves aligned_state (store_fc_state key t).
Proof. unfold store_fc_state. aligned_all. Qed.

Ltac aligned_sub :=
  lazymatch goal with
  | |- preserves _ the_graph_keys => apply aligned_the_graph_keys
  | |- preserves _ (tensor_value _) => apply aligned_tensor_value
  | |- preserves _ (store_cell_state _ _) => apply aligned_store_cell_state
  | |- preserves _ (store_fc_state _ _) => apply aligned_store_fc_state
  end.

Ltac aligned_flow := repeat first [ aligned_sub | preserves_step | aligned_modify ].

Lemma aligned_record_weights : preserves aligned_state record_weights.
Proof. unfold record_weights. aligned_flow. Qed.

Lemma aligned_evaluation_run (X : block F) (y : matrix F) (c : Z) :
  preserves aligned_state (evaluation_run X y c).
Proof. unfold evaluation_run. aligned_flow. Qed.

Lemma aligned_display (args : train_args F) (values : list F) :
  preserves aligned_state (display args values).
Proof. unfold display. aligned_flow. Qed.

Lemma aligned_optimizer_run (epoch_end' i : Z) (X : block F) (y : matrix F) (c : Z) :
  preserves aligned_state (optimizer_run epoch_end' i X y c).
Proof. unfold optimizer_run. aligned_flow. Qed.

Lemma aligned_optimizer_runs (n : nat) (epoch_end' i : Z) (X : block F)
      (y : matrix F) (c : Z) :
  forall rate, preserves aligned_state (optimizer_runs n epoch_end' i X y c rate).
Proof.
  induction n as [|n IH]; intros rate; cbn [optimizer_runs].
  - apply preserves_ret.
  - apply preserves_bind; [apply aligned_optimizer_run | intros r; apply IH].
Qed.

Lemma aligned_batch_step (args : train_args F) (i : Z) (lv : loop_vars F) (it : item F) :
  preserves aligned_state (batch_step args i lv it).
Proof.
  unfold batch_step. cbv zeta.
  repeat first
    [ lazymatch goal with
      | |- preserves _ (optimizer_runs _ _ _ _ _ _ _) => apply aligned_optimizer_runs
      | |- preserves _ (evaluation_run _ _ _) => apply aligned_evaluation_run
      | |- preserves _ record_weights => apply aligned_record_weights
      | |- preserves _ (display _ _) => apply aligned_display
      end
    | aligned_sub | preserves_step | aligned_modify ].
Qed.

Lemma aligned_batch_loop (args : train_args F) (i : Z) (items : list (item F)) :
  forall lv, preserves aligned_state (batch_loop args i lv items).
Proof.
  induction items as [|it rest IH]; intros lv; cbn [batch_loop].
  - apply preserves_ret.
  - apply preserves_bind; [apply aligned_batch_step | intros lv'; apply IH].
Qed.

Lemma aligned_save_checkpoints (i : Z) : preserves aligned_state (save_checkpoints i).
Proof. unfold save_checkpoints. aligned_flow. Qed.

Lemma aligned_epoch_finish (i : Z) (lv : loop_vars F) :
  preserves aligned_state (epoch_finish i lv).
Proof.
  unfold epoch_finish.
  repeat first
    [ lazymatch goal with
      | |- preserves _ (save_checkpoints _) => apply aligned_save_checkpoints
      end
    | preserves_step | aligned_modify ].
Qed.

Lemma aligned_run_epoch (args : train_args F) (fd : feeder F) (i : Z) (total : option Z) :
  preserves aligned_state (run_epoch args fd i total).
Proof.
  unfold run_epoch.
  repeat first
    [ apply aligned_batch_loop | apply aligned_epoch_finish
    | preserves_step | aligned_modify ].
Qed.

Lemma aligned_epoch_loop (args : train_args F) (fd : feeder F) (n : nat) :
  forall i total, preserves aligned_state (epoch_loop n args fd i total).
Proof.
  induction n as [|n IH]; intros i total; cbn [epoch_loop].
  - apply preserves_ret.
  - apply preserves_bind; [apply aligned_run_epoch | intros t; apply IH].
Qed.

Lemma aligned_train_start (args : train_args F) :
  preserves (fun s => aligned (res (fst s))) (train_start args).
Proof.
  unfold train_start, fresh_start, restore_checkpoint,
    logging_session_parameters, new_sessid, log_world.
  repeat first
    [ preserves_step
    | lazymatch goal with
      | |- preserves _ (modify _) =>
          apply preserves_modify; intros [x w] Hx; cbn [fst snd] in Hx |- *;
          first [ exact Hx
                | destruct (id_generator (py_random w)); exact Hx
                | repeat split ]
      end ].
Qed.

(** X25.  [train] keeps the result holders aligned, whether it returns or
    raises: if the three per-epoch lists of losses and correlations were as
    long as the list of epochs, and the two per-batch lists of correlations
    as long as each other, they still are afterwards.  The holders of a new
    instance are aligned, and a fresh start clears them, so the lists of an
    instance line up after any sequence of [train] calls. *)
Theorem train_keeps_results_aligned (args : train_args F) (s : instance F * world F) :
  aligned (F := F) cleared_results /\
  (aligned (res (fst s)) -> aligned (res (fst (snd (train args s))))) /\
  (forall h cg w self w',
     LSTM h cg w = (Ok self, w') -> aligned (res self)).
Proof.
  split; [repeat split|]. split.
  - intros Hal. unfold train, fbind, get.
    destruct (graph (fst s)); [|exact Hal].
    pose proof (aligned_train_start args s Hal) as Hstart.
    destruct (train_start args s) as [[start | e] s1]; cbn [snd] in Hstart |- *;
      [|exact Hstart].
    unfold train_epochs.
    pose proof (aligned_epoch_loop args (bound_feeder args)
                  (epochs_to_run (fst start) (epoch_end args)) (fst start) None
                  (initial_tstate args s1 (snd start)) Hstart) as Hloop.
    destruct (epoch_loop _ _ _ _ _ _) as [[i | e] st]; cbn [snd fst] in Hloop |- *;
      exact Hloop.
  - intros h cg w self w' Hnew. unfold LSTM in Hnew.
    destruct cg; [|injection Hnew as <- _; repeat split].
    unfold try_except, fbind in Hnew.
    match type of Hnew with
    | context [create_lstm_graph ?n ?r (?s0, ?w0)] =>
        pose proof (create_lstm_graph_frame n r s0 w0) as Hframe;
        destruct (create_lstm_graph n r (s0, w0)) as [[u | e] [s1 w1]]
    end;
      cbn in Hnew, Hframe; destruct Hframe as (_ & _ & _ & _ & Hres & _);
      injection Hnew as <- _; cbn; rewrite Hres; repeat split.
Qed.

End Aligned.

(** The trained instance, resumed. *)
Lemma train_keeps_results_aligned_witness :
  aligned (res (fst (snd (train (default_train_args None)
                                (trained_instance, world_with_latest))))).
Proof.
  apply (proj1 (proj2 (train_keeps_results_aligned (default_train_args None)
                         (trained_instance, world_with_latest)))).
  repeat split.
Defined.

Lemma slice_to_map {A B} (f : A -> B) (c : Z) (l : list A) :
  slice_to c (map f l) = map f (slice_to c l).
Proof.
  destruct (slices_split c (map f l)) as [-> _].
  destruct (slices_split c l) as [-> _].
  rewrite length_map. apply firstn_map.
Qed.

Lemma slice_from_map {A B} (f : A -> B) (c : Z) (l : list A) :
  slice_from c (map f l) = map f (slice_from c l).
Proof.
  destruct (slices_split c (map f l)) as [_ ->].
  destruct (slices_split c l) as [_ ->].
  rewrite length_map. apply skipn_map.
Qed.

(** ** What a processed batch records *)

Section BatchRecords.
Context {F : Type} `{Dtype F} `{Backend F}.

Lemma denormalize_number (t t' : matrix F) (std mean : pyval F) (sd m : F) :
  as_number std = Some sd ->
  as_number mean = Some m ->
  denormalize t std mean = Ok t' ->
  t' = denormalized sd m t.
Proof.
  intros Hsd Hm. unfold denormalize, affine, denormalized.
  destruct std; try discriminate Hsd; injection Hsd as <-;
    destruct mean; try discriminate Hm; injection Hm as <-;
    cbn; rewrite ?map_map_rows; intros Heq; injection Heq as <-; reflexivity.
Qed.

Lemma evaluation_run_values (I : tstate F -> Prop) (X : block F) (y : matrix F) (c : Z) :
  (forall st w, I st -> I (with_env st w)) ->
  ensures I (evaluation_run X y c)
    (fun ev st =>
       I st /\ y_val ev = y /\ y_oos_val ev = y_oos c y /\
       pred_oos_val ev = pred_oos c (pred_val ev) /\
       length (pred_val ev) = length X).
Proof.
  intros I_env st Hst.
  unfold evaluation_run, the_graph_keys, fbind, get, lift, ret, raise, modify.
  destruct (graph_keys (self st)) as [g|]; [|exact Logic.I].
  unfold run_evaluation.
  destruct (pearson_corr_is _ c _ y) as [cis|]; [|exact Logic.I].
  destruct (pearson_corr_oos _ c _ y) as [coos|]; [|exact Logic.I].
  destruct (graph_loss g _ X y c (sess st)) as [l|]; [|exact Logic.I].
  destruct (loss_oos c y _) as [loos|]; [|exact Logic.I].
  cbn. repeat split; [apply I_env, Hst|].
  unfold pred. now rewrite length_imap.
Qed.


Lemma holders_record_weights (h : _) (e : list Z) :
  preserves (fun st : tstate F =>
               batch_holders (res (self st)) = h /\ all_epochs (res (self st)) = e)
            record_weights.
Proof.
  unfold record_weights, tensor_value, store_cell_state, store_fc_state.
  repeat first
    [ preserves_step
    | lazymatch goal with
      | |- preserves _ (modify _) =>
          apply preserves_modify; intros st Hst; exact Hst
      end ].
Qed.

Lemma batch_step_records (args : train_args F) (i : Z) (lv : loop_vars F)
      (X : block F) (Y : matrix F) (mean std idx id : pyval F) (c : Z)
      (m sd : F) (r0 : results F) :
  as_number mean = Some m ->
  as_number std = Some sd ->
  forallb isfinite (concat (concat X)) = true ->
  forallb isfinite (concat Y) = true ->
  ensures (fun st => res (self st) = r0)
    (batch_step args i lv (Tuple [NpArray3 X; NpArray2 Y; mean; std; idx; PyInt c; id]))
    (fun lv' st' =>
       exists P corr_is corr_oos,
         length P = length X /\
         batch_holders (res (self st'))
         = batch_holders
             (record_batch r0 (denormalized sd m (y_is c Y))
                           (denormalized sd m (y_oos c Y))
                           (denormalized sd m (pred_is c P))
                           (denormalized sd m (pred_oos c P)) corr_is corr_oos) /\
         all_epochs (res (self st')) = all_epochs r0 /\
         actual_oos lv' = append_rows (actual_oos lv) (denormalized sd m (y_oos c Y)) /\
         predicted_oos lv'
         = append_rows (predicted_oos lv) (denormalized sd m (pred_oos c P))).
Proof.
  intros Hm Hsd HX HY. unfold batch_step.
  apply ensures_lift_bind. intros b Hb. cbn in Hb. injection Hb as Hb. subst b.
  cbn [b_batch_X b_batch_y b_y_is_mean b_y_is_std b_batch_y_index b_in_sample_size
       b_batch_id].
  apply ensures_lift_bind. intros total _. cbv zeta.
  apply ensures_lift_bind. intros fx Hfx.
  rewrite all_finite_array3, HX in Hfx. injection Hfx as Hfx. subst fx. cbn [negb].
  apply (ensures_bind _ _ _ (fun skip s => res (self s) = r0 /\ skip = false)).
  { apply ensures_lift_bind. intros fy Hfy.
    rewrite all_finite_array2, HY in Hfy. injection Hfy as Hfy. subst fy.
    intros s Hs. cbn. split; [exact Hs | reflexivity]. }
  intros skip. apply ensures_assume. intros ->.
  apply ensures_lift_bind. intros finite_mean _.
  apply ensures_lift_bind. intros _ _.
  apply ensures_lift_bind. intros finite_std _.
  apply ensures_lift_bind. intros _ _.
  apply ensures_lift_bind. intros cutoff Hcutoff. cbn in Hcutoff.
  injection Hcutoff as Hcutoff. subst cutoff.
  apply ensures_lift_bind. intros _ _.
  apply ensures_lift_bind. intros features _.
  apply ensures_get_bind. intros st1 _.
  apply ensures_lift_bind. intros _ _.
  apply ensures_lift_bind. intros outputs _.
  apply ensures_lift_bind. intros _ _.
  apply (ensures_modify_bind _ (fun st => res (self st) = r0)).
  { intros s Hs. destruct (cur_inner_iteration s); exact Hs. }
  apply ensures_get_bind. intros st2 _. cbv zeta.
  apply ensures_lift_bind. intros _ _.
  apply ensures_lift_bind. intros X' HX'. cbn in HX'. injection HX' as HX'. subst X'.
  apply ensures_lift_bind. intros Y' HY'. cbn in HY'. injection HY' as HY'. subst Y'.
  apply ensures_keeps_bind; [apply frame_optimizer_runs; intros; assumption|].
  intros current_rate.
  eapply ensures_bind; [apply evaluation_run_values; intros; assumption|].
  intros ev. apply ensures_assume. intros (Hy & Hyo & Hpo & Hlen).
  apply ensures_lift_bind. intros _ _.
  apply ensures_lift_bind. intros _ _.
  apply ensures_lift_bind. intros y_val' Hd1.
  apply (denormalize_number _ _ _ _ _ _ Hsd Hm) in Hd1.
  apply ensures_lift_bind. intros y_oos_val' Hd2.
  apply (denormalize_number _ _ _ _ _ _ Hsd Hm) in Hd2.
  apply ensures_lift_bind. intros pred_val' Hd3.
  apply (denormalize_number _ _ _ _ _ _ Hsd Hm) in Hd3.
  apply ensures_lift_bind. intros pred_oos_val' Hd4.
  apply (denormalize_number _ _ _ _ _ _ Hsd Hm) in Hd4.
  rewrite Hy in Hd1. rewrite Hyo in Hd2. rewrite Hpo in Hd4.
  subst y_val' y_oos_val' pred_val' pred_oos_val'.
  match goal with
  | |- ensures _ (fbind (modify (fun st => with_self st (set_res (self st)
                   (record_batch _ ?a ?b ?p ?q ?ci ?co)))) _) _ =>
      apply (ensures_modify_bind _
               (fun st => batch_holders (res (self st))
                          = batch_holders (record_batch r0 a b p q ci co) /\
                          all_epochs (res (self st)) = all_epochs r0));
      [intros s Hs; cbn; rewrite Hs; split; reflexivity|];
      set (corr_is := ci); set (corr_oos := co)
  end.
  apply ensures_keeps_bind.
  { destruct (return_weights args);
      [apply holders_record_weights | apply preserves_ret]. }
  intros _.
  apply ensures_keeps_bind; [apply frame_display; intros; assumption|].
  intros _.
  intros s (Hh & He). cbn.
  exists (pred_val ev), corr_is, corr_oos.
  split; [exact Hlen|].
  split.
  - rewrite Hh. unfold denormalized, y_is, pred_is.
    now rewrite !slice_to_map.
  - split; [exact He|]. split; reflexivity.
Qed.


(** X26.  What a processed batch records.  For a feeder tuple with finite
    input and labels and numeric mean and deviation, the body appends to
    [all_actual_is] the in-sample rows of the labels and to
    [all_actual_oos] and the epoch's [actual_oos] their out-of-sample rows,
    each de-normalised as [y * std + mean]; it appends the same slices of
    one prediction tensor, which has a row per input row, to the holders
    of the predictions; it appends one entry to each list of batch
    correlations and leaves the list of epochs alone.  The two recorded
    label slices together are the de-normalised labels of the batch. *)
Theorem batch_records (args : train_args F) (i : Z) (lv lv' : loop_vars F)
        (X : block F) (Y : matrix F) (mean std idx id : pyval F) (c : Z)
        (m sd : F) (st st' : tstate F) :
  as_number mean = Some m ->
  as_number std = Some sd ->
  forallb isfinite (concat (concat X)) = true ->
  forallb isfinite (concat Y) = true ->
  batch_step args i lv (Tuple [NpArray3 X; NpArray2 Y; mean; std; idx; PyInt c; id]) st
  = (Ok lv', st') ->
  all_actual_is (res (self st'))
  = append_rows (all_actual_is (res (self st))) (denormalized sd m (y_is c Y)) /\
  all_actual_oos (res (self st'))
  = append_rows (all_actual_oos (res (self st))) (denormalized sd m (y_oos c Y)) /\
  actual_oos lv' = append_rows (actual_oos lv) (denormalized sd m (y_oos c Y)) /\
  (exists P,
     length P = length X /\
     all_predicted_is (res (self st'))
     = append_rows (all_predicted_is (res (self st))) (denormalized sd m (pred_is c P)) /\
     all_predicted_oos (res (self st'))
     = append_rows (all_predicted_oos (res (self st))) (denormalized sd m (pred_oos c P)) /\
     predicted_oos lv'
     = append_rows (predicted_oos lv) (denormalized sd m (pred_oos c P))) /\
  length (all_corr_is (res (self st'))) = S (length (all_corr_is (res (self st)))) /\
  length (all_corr_oos (res (self st'))) = S (length (all_corr_oos (res (self st)))) /\
  all_epochs (res (self st')) = all_epochs (res (self st)) /\
  denormalized sd m (y_is c Y) ++ denormalized sd m (y_oos c Y) = denormalized sd m Y.
Proof.
  intros Hm Hsd HX HY Hstep.
  pose proof (batch_step_records args i lv X Y mean std idx id c m sd
                (res (self st)) Hm Hsd HX HY st eq_refl) as Hens.
  rewrite Hstep in Hens.
  destruct Hens as (P & corr_is & corr_oos & Hlen & Hh & He & Ha & Hp).
  unfold batch_holders in Hh. cbn in Hh.
  injection Hh as Hais Haoos Hpis Hpoos Hcis Hcoos.
  split; [exact Hais|]. split; [exact Haoos|]. split; [exact Ha|].
  split; [exists P; repeat split; assumption|].
  split; [rewrite Hcis, length_app; cbn; lia|].
  split; [rewrite Hcoos, length_app; cbn; lia|].
  split; [exact He|].
  unfold denormalized, y_is, y_oos. rewrite <- map_app. now rewrite slices_app.
Qed.

End BatchRecords.

(** The labels of a batch of two rows, both in sample. *)
Lemma batch_records_witness :
  all_actual_is
    (res (self (snd (batch_step (H0 := bias_backend) (default_train_args None) 1
                                (epoch_start None) two_row_batch bias_state))))
  = Some (denormalized (Some 1%R) (Some 0%R) (y_is 2 batch_a_y)).
Proof.
  destruct (batch_step (H0 := bias_backend) (default_train_args None) 1
                       (epoch_start None) two_row_batch bias_state)
    as [[lv' | e] st'] eqn:Hstep; [|discriminate Hstep].
  assert (Hm : as_number (NpScalar (Some 0%R)) = Some (Some 0%R)) by reflexivity.
  assert (Hsd : as_number (NpScalar (Some 1%R)) = Some (Some 1%R)) by reflexivity.
  assert (HX : forallb isfinite (concat (concat batch_a_X)) = true) by reflexivity.
  assert (HY : forallb isfinite (concat batch_a_y) = true) by reflexivity.
  apply (batch_records (H0 := bias_backend) (default_train_args None) 1
           (epoch_start None) lv' batch_a_X batch_a_y _ _ PyNone (PyStr "b0") 2
           _ _ bias_state st' Hm Hsd HX HY Hstep).
Defined.
